(** * News Intelligence Pro: a shallow embedding of the cost manager and of
    the AI analysis pipeline, with the properties of its specification.

    Source files embedded here:
    - [src/cost_manager.py]: [CostManager.calculate_pricing_tier],
      [check_daily_limits], [validate_request], [track_usage],
      [generate_cost_report], [get_billing_summary];
    - [src/ai_analyzer.py]: [AINewsAnalyzer.calculate_cost], [truncate_text],
      [moderate_content], [analyze_sentiment], [summarize_article],
      [classify_topics], [analyze_article], [batch_analyze];
    - [src/main.py]: the accounting of the session in [main].

    Modelling conventions.
    - A Python [dict] with string keys is a [gmap string value]; a dict
      literal whose keys are fixed and which is only read by key is a record.
    - Python [float]s are idealised as rationals ([Q]): a sum or a product
      is exact here where Python rounds it to the nearest binary64 number;
      equalities between amounts are stated up to [Qeq].  Python [int]s are
      [Z].
    - A Python [str] is a Rocq [string] holding its UTF-8 encoding (a
      string UTF-8 cannot encode is not modelled): [len] and slices count
      characters, which start at the bytes that are not continuation bytes;
      [lower], [strip] and [split] act on the ASCII range.
    - Raising is explicit: a function that may raise returns a [result];
      what is raised is an instance of [Exception], which [except Exception]
      catches (a cancellation or an interrupt is not modelled).  Code that
      talks to OpenAI or reads the clock runs in the monad [M],
      which threads the state of the outside world and a trace of the calls
      made to the external service.
    - [asyncio] concurrency is sequentialised: coroutines gathered together
      run one after the other, in the order of the task list, so the trace
      keeps the order of the calls of one task but not the interleaving of
      the calls of different tasks; the properties stated on the calls of
      gathered tasks count them and do not order them.  The semaphore of
      [batch_analyze] only bounds how many run at once and is not modelled.
      Logging has no effect on any result and is left out. *)

From Stdlib Require Import ZArith QArith Qabs Qminmax Qround Lqa Lia String Ascii List Bool
  Floats.
From stdpp Require Import base option gmap strings list pretty.

#[local] Set Warnings "-register-all,-inexact-float".
#[local] Open Scope string_scope.
#[local] Open Scope Z_scope.

(** ** Python values, exceptions *)

Module Py.

(** An exception object: its class and its message ([str(e)]). *)
Record exn := Exn { exn_class : string; exn_msg : string }.

Inductive result (A : Type) : Type :=
  | Ok (a : A)
  | Raise (e : exn).
Arguments Ok {A} a.
Arguments Raise {A} e.

Definition result_bind {A B} (r : result A) (k : A → result B) : result B :=
  match r with
  | Ok a => k a
  | Raise e => Raise e
  end.

Definition is_ok {A} (r : result A) : bool :=
  match r with Ok _ => true | Raise _ => false end.

(** The values a JSON-like Python object is made of. *)
Inductive value :=
  | VNone
  | VBool (b : bool)
  | VInt (z : Z)
  | VFloat (q : Q)
  | VStr (s : string)
  | VList (l : list value)
  | VDict (d : gmap string value).

Definition TypeError (msg : string) : exn := Exn "TypeError" msg.
Definition AttributeError (msg : string) : exn := Exn "AttributeError" msg.
Definition IndexError (msg : string) : exn := Exn "IndexError" msg.
Definition ValueError (msg : string) : exn := Exn "ValueError" msg.
Definition UnboundLocalError (msg : string) : exn := Exn "UnboundLocalError" msg.

(** Truth value testing ([if x], [not x]). *)
Definition truthy (v : value) : bool :=
  match v with
  | VNone => false
  | VBool b => b
  | VInt z => negb (Z.eqb z 0)
  | VFloat q => negb (Qeq_bool q 0)
  | VStr s => negb (String.eqb s "")
  | VList l => match l with [] => false | _ => true end
  | VDict d => negb (bool_decide (d = ∅))
  end.

(** A byte of the form [10xxxxxx]: in UTF-8, a byte that continues a
    character. *)
Definition is_continuation (c : ascii) : bool :=
  match c with
  | Ascii _ _ _ _ _ _ false true => true
  | _ => false
  end.

(** The number of characters of a string. *)
Fixpoint char_count (s : string) : nat :=
  match s with
  | EmptyString => 0
  | String c s' => if is_continuation c then char_count s' else S (char_count s')
  end.

(** [len(x)]. *)
Definition py_len (v : value) : result Z :=
  match v with
  | VStr s => Ok (Z.of_nat (char_count s))
  | VList l => Ok (Z.of_nat (List.length l))
  | VDict d => Ok (Z.of_nat (size d))
  | _ => Raise (TypeError "object has no len()")
  end.

(** The number a numeric value stands for ([bool] is a subclass of [int]). *)
Definition as_number (v : value) : option Q :=
  match v with
  | VBool b => Some (if b then 1 else 0)%Q
  | VInt z => Some (inject_Z z)
  | VFloat q => Some q
  | _ => None
  end.

Definition as_int (v : value) : option Z :=
  match v with
  | VBool b => Some (if b then 1 else 0)
  | VInt z => Some z
  | _ => None
  end.

(** [abs(x)]. *)
Definition py_abs (v : value) : result value :=
  match v with
  | VBool b => Ok (VInt (if b then 1 else 0))
  | VInt z => Ok (VInt (Z.abs z))
  | VFloat q => Ok (VFloat (Qabs q))
  | _ => Raise (TypeError "bad operand type for abs()")
  end.

(** [x > c] for a float constant [c]. *)
Definition py_gt (v : value) (c : Q) : result bool :=
  match as_number v with
  | Some q => Ok (negb (Qle_bool q c))
  | None => Raise (TypeError "'>' not supported")
  end.

(** [x + y]: numbers (an [int] meets a [float] as a [float]), strings and
    lists. *)
Definition py_add (x y : value) : result value :=
  match x, y with
  | VStr a, VStr b => Ok (VStr (a ++ b))
  | VList a, VList b => Ok (VList (a ++ b))
  | _, _ =>
      match as_int x, as_int y with
      | Some a, Some b => Ok (VInt (a + b))
      | _, _ =>
          match as_number x, as_number y with
          | Some a, Some b => Ok (VFloat (a + b))
          | _, _ => Raise (TypeError "unsupported operand type(s) for +")
          end
      end
  end.

(** [d.get(k, default)]. *)
Definition dict_get (d : gmap string value) (k : string) (default : value) : value :=
  match d !! k with
  | Some v => v
  | None => default
  end.

(** *** Strings *)

Definition lower_ascii (c : ascii) : ascii :=
  let n := nat_of_ascii c in
  if ((65 <=? n) && (n <=? 90))%nat then ascii_of_nat (n + 32) else c.

(** [s.lower()]. *)
Fixpoint lower (s : string) : string :=
  match s with
  | EmptyString => EmptyString
  | String c s' => String (lower_ascii c) (lower s')
  end.

(** [needle in hay] for strings. *)
Fixpoint contains (needle hay : string) : bool :=
  String.prefix needle hay ||
  match hay with
  | EmptyString => false
  | String _ hay' => contains needle hay'
  end.

(** Python's whitespace, in the ASCII range. *)
Definition is_space (c : ascii) : bool :=
  let n := nat_of_ascii c in
  ((9 <=? n) && (n <=? 13) || (28 <=? n) && (n <=? 32))%nat.

Fixpoint lstrip (s : string) : string :=
  match s with
  | String c s' => if is_space c then lstrip s' else s
  | EmptyString => EmptyString
  end.

Fixpoint rstrip (s : string) : string :=
  match s with
  | EmptyString => EmptyString
  | String c s' =>
      match rstrip s' with
      | EmptyString => if is_space c then EmptyString else String c EmptyString
      | t => String c t
      end
  end.

(** [s.strip()]. *)
Definition strip (s : string) : string := rstrip (lstrip s).

(** [len(s.split())]: the number of maximal runs of non-blank characters;
    [in_word] tells whether the previous character was part of a word. *)
Fixpoint count_words (in_word : bool) (s : string) : nat :=
  match s with
  | EmptyString => 0
  | String c s' =>
      if is_space c then count_words false s'
      else if in_word then count_words true s'
      else S (count_words true s')
  end.

(** [s[:n]] on a string of one-byte characters. *)
Definition take_prefix (n : nat) (s : string) : string := String.substring 0 n s.

(** [s[:n]]: the first [n] characters, each with its continuation bytes. *)
Fixpoint take_chars (n : nat) (s : string) : string :=
  match s with
  | EmptyString => EmptyString
  | String c s' =>
      if is_continuation c then String c (take_chars n s')
      else match n with
           | O => EmptyString
           | S n' => String c (take_chars n' s')
           end
  end.

(** The position of the first [c] of [s]. *)
Fixpoint find_first (c : ascii) (s : string) : option nat :=
  match s with
  | EmptyString => None
  | String a s' =>
      if Ascii.eqb a c then Some 0%nat else S <$> find_first c s'
  end.

(** The position of the last [c] of [s]. *)
Fixpoint find_last (c : ascii) (s : string) : option nat :=
  match s with
  | EmptyString => None
  | String a s' =>
      match find_last c s' with
      | Some i => Some (S i)
      | None => if Ascii.eqb a c then Some 0%nat else None
      end
  end.

Fixpoint drop_prefix (n : nat) (s : string) : string :=
  match n, s with
  | S n', String _ s' => drop_prefix n' s'
  | _, _ => s
  end.

(** [re.search(r'\{.*\}', s, re.DOTALL)]: with [.] matching every character
    and [*] greedy, the match runs from the first opening brace to the last
    closing brace after it; [m.group()] is that text. *)
Definition re_search_braces (s : string) : option string :=
  i ← find_first "{"%char s;
  let rest := drop_prefix (S i) s in
  j ← find_last "}"%char rest;
  Some (String "{"%char (take_prefix (S j) rest)).

(** An f-string that builds a message, with its holes kept unrendered:
    literal text, an integer ([{n}]), a float in fixed-point notation
    ([{x:.2f}]). *)
Inductive fpart :=
  | Lit (s : string)
  | FInt (z : Z)
  | FFixed (digits : nat) (q : Q).

Definition fstring := list fpart.

End Py.

Import Py.

(** ** [src/cost_manager.py] *)

Module CostManager.

(** [self.pricing], set in [__init__]. *)
Definition pricing : gmap string value :=
  <["built_in_ai" := VFloat 6]>
    (<["byok" := VFloat 2]>
       (<["free_tier_limit" := VInt 50]> ∅)).

(** [self.pricing[k]] read as a float, as an int (every key read by the
    code below is a key of the table). *)
Definition pricing_float (k : string) : Q := default 0%Q (pricing !! k ≫= as_number).
Definition pricing_int (k : string) : Z := default 0 (pricing !! k ≫= as_int).

(** The instance attributes. *)
Record t := {
  current_session_cost : Q;
  articles_processed : Z
}.

(** The dict [calculate_pricing_tier] returns. *)
Record PricingInfo := {
  tier : string;
  description : fstring;
  cost_per_article : Q;
  cost_per_1000 : Q;
  total_cost : Q;
  articles_count : Z;
  currency : string
}.

(** [elif user_api_key:] the key is an optional string, true when it is a
    non-empty string. *)
Definition key_given (user_api_key : option string) : bool :=
  match user_api_key with
  | Some k => negb (String.eqb k "")
  | None => false
  end.

(** The local variables at the end of the [if]/[elif]/[else]:
    [cost_per_article] is assigned in three of the four branches, and is
    unbound ([None]) after the free-tier branch. *)
Record locals := {
  l_cost_per_article : option Q;
  l_total_cost : Q;
  l_tier : string;
  l_description : fstring
}.

Definition pricing_branches (enable_ai : bool) (user_api_key : option string)
    (articles_count : Z) : locals :=
  if negb enable_ai then
    let cost_per_article := 0.001%Q in
    {| l_cost_per_article := Some cost_per_article;
       l_total_cost := inject_Z articles_count * cost_per_article;
       l_tier := "basic";
       l_description := [Lit "Basic news aggregation (no AI analysis)"] |}
  else if key_given user_api_key then
    let cost_per_article := (pricing_float "byok" / 1000)%Q in
    {| l_cost_per_article := Some cost_per_article;
       l_total_cost := inject_Z articles_count * cost_per_article;
       l_tier := "byok";
       l_description := [Lit "Enterprise BYOK tier (user's OpenAI API key)"] |}
  else if articles_count <=? pricing_int "free_tier_limit" then
    {| l_cost_per_article := None;
       l_total_cost := 0;
       l_tier := "free";
       l_description :=
         [Lit "Free tier ("; FInt articles_count; Lit "/";
          FInt (pricing_int "free_tier_limit"); Lit " articles)"] |}
  else
    let free_articles := pricing_int "free_tier_limit" in
    let paid_articles := articles_count - free_articles in
    let cost_per_article := (pricing_float "built_in_ai" / 1000)%Q in
    {| l_cost_per_article := Some cost_per_article;
       l_total_cost := inject_Z paid_articles * cost_per_article;
       l_tier := "built_in_ai";
       l_description :=
         [Lit "Built-in AI tier ("; FInt free_articles; Lit " free + ";
          FInt paid_articles; Lit " paid articles)"] |}.

(** Reading a local variable that was never assigned raises. *)
Definition read_local (name : string) (x : option Q) : result Q :=
  match x with
  | Some v => Ok v
  | None =>
      Raise (UnboundLocalError
               ("local variable '" ++ name ++ "' referenced before assignment"))
  end.

(** [calculate_pricing_tier]: the returned dict literal is evaluated entry
    by entry.  ["cost_per_article"] guards the read of the local with
    ['cost_per_article' in locals()]; ["cost_per_1000"] reads it whenever
    [tier] is not a key of [self.pricing]. *)
Definition calculate_pricing_tier (enable_ai : bool) (user_api_key : option string)
    (articles_count : Z) : result PricingInfo :=
  let l := pricing_branches enable_ai user_api_key articles_count in
  let cost_per_article_entry := default 0%Q (l_cost_per_article l) in
  result_bind
    (match pricing !! l_tier l with
     | Some _ => Ok (default 0%Q (as_number (dict_get pricing (l_tier l) (VInt 0))))
     | None =>
         result_bind (read_local "cost_per_article" (l_cost_per_article l))
           (λ c, Ok (c * 1000)%Q)
     end)
    (λ cost_per_1000_entry,
       Ok {| tier := l_tier l;
             description := l_description l;
             cost_per_article := cost_per_article_entry;
             cost_per_1000 := cost_per_1000_entry;
             total_cost := l_total_cost l;
             articles_count := articles_count;
             currency := "USD" |}).

(** The dict [check_daily_limits] returns. *)
Record Limits := {
  daily_limit : Q;
  current_spend : Q;
  remaining_budget : Q;
  articles_remaining : Z;
  limit_exceeded : bool
}.

(** [int(x)] of a float: truncation towards zero. *)
Definition int_of_float (x : Q) : Z := Z.quot (Qnum x) (Z.pos (Qden x)).

(** [max(0, x)]. *)
Definition max0 (x : Q) : Q := if Qle_bool x 0 then 0%Q else x.

(** [check_daily_limits]; [daily_spend_limit] is the value of
    [float(os.environ.get("DAILY_SPEND_LIMIT", "50.0"))]. *)
Definition check_daily_limits (self : t) (daily_spend_limit : Q) : Limits :=
  let current_daily_spend := current_session_cost self in
  let remaining := max0 (daily_spend_limit - current_daily_spend) in
  {| daily_limit := daily_spend_limit;
     current_spend := current_daily_spend;
     remaining_budget := remaining;
     articles_remaining :=
       int_of_float (remaining / (pricing_float "built_in_ai" / 1000));
     limit_exceeded := Qle_bool daily_spend_limit current_daily_spend |}.

(** The dict [validate_request] returns; a key that is absent from the
    returned dict is [None] here. *)
Record Validation := {
  valid : bool;
  error : option fstring;
  v_pricing : PricingInfo;
  limits : option Limits;
  suggested_max_articles : option Z;
  estimated_cost : option Q
}.

Definition validate_request (self : t) (daily_spend_limit : Q) (enable_ai : bool)
    (user_api_key : option string) (max_articles : Z) : result Validation :=
  result_bind (calculate_pricing_tier enable_ai user_api_key max_articles)
    (λ pricing_info,
       let accepted :=
         {| valid := true; error := None; v_pricing := pricing_info;
            limits := None; suggested_max_articles := None;
            estimated_cost := Some (total_cost pricing_info) |} in
       if String.eqb (tier pricing_info) "built_in_ai" then
         let lim := check_daily_limits self daily_spend_limit in
         if limit_exceeded lim then
           Ok {| valid := false;
                 error := Some [Lit "Daily spending limit of $";
                                FFixed 2 (daily_limit lim);
                                Lit " exceeded. Current spend: $";
                                FFixed 2 (current_spend lim)];
                 v_pricing := pricing_info;
                 limits := Some lim;
                 suggested_max_articles := None;
                 estimated_cost := None |}
         else if articles_remaining lim <? max_articles then
           let suggested_articles := articles_remaining lim in
           Ok {| valid := false;
                 error := Some [Lit "Request for "; FInt max_articles;
                                Lit " articles exceeds remaining daily budget. Maximum allowed: ";
                                FInt suggested_articles];
                 v_pricing := pricing_info;
                 limits := Some lim;
                 suggested_max_articles := Some suggested_articles;
                 estimated_cost := None |}
         else Ok accepted
       else Ok accepted).

End CostManager.

(** ** [hashlib.sha256]

    SHA-256 as FIPS 180-4 defines it, on the bytes of the string; words are
    32-bit integers held in [Z], additions wrap modulo [2^32]. *)

Module Sha256.

Definition mask32 : Z := 0xffffffff.
Definition wrap (x : Z) : Z := Z.land x mask32.
Definition add32 (x y : Z) : Z := wrap (x + y).
Definition rotr (n x : Z) : Z := Z.lor (Z.shiftr x n) (wrap (Z.shiftl x (32 - n))).
Definition not32 (x : Z) : Z := Z.lxor x mask32.

Definition ch (x y z : Z) : Z := Z.lxor (Z.land x y) (Z.land (not32 x) z).
Definition maj (x y z : Z) : Z :=
  Z.lxor (Z.lxor (Z.land x y) (Z.land x z)) (Z.land y z).
Definition big_sigma0 (x : Z) : Z := Z.lxor (Z.lxor (rotr 2 x) (rotr 13 x)) (rotr 22 x).
Definition big_sigma1 (x : Z) : Z := Z.lxor (Z.lxor (rotr 6 x) (rotr 11 x)) (rotr 25 x).
Definition small_sigma0 (x : Z) : Z := Z.lxor (Z.lxor (rotr 7 x) (rotr 18 x)) (Z.shiftr x 3).
Definition small_sigma1 (x : Z) : Z := Z.lxor (Z.lxor (rotr 17 x) (rotr 19 x)) (Z.shiftr x 10).

(** The constants of the standard are the first 32 bits of the fractional
    parts of the cube roots (round constants) and of the square roots
    (initial hash value) of the first primes.  [root_bits k x b r] refines
    [r], bit by bit from bit [b] down, into the largest integer whose [k]-th
    power is at most [x]. *)
Fixpoint root_bits (k x : Z) (b : nat) (r : Z) : Z :=
  match b with
  | O => r
  | S b' =>
      let candidate := Z.lor r (Z.shiftl 1 (Z.of_nat b')) in
      root_bits k x b' (if candidate ^ k <=? x then candidate else r)
  end.

Definition fractional_root (k p : Z) : Z :=
  wrap (root_bits k (Z.shiftl p (32 * k)) 40 0).

Definition is_prime (n : Z) : bool :=
  (1 <? n) &&
  List.forallb (λ d, negb (n mod Z.of_nat d =? 0)) (List.seq 2 (Z.to_nat n - 2)).

Definition first_primes (count : nat) : list Z :=
  List.firstn count (List.filter is_prime (List.map Z.of_nat (List.seq 2 310))).

Definition round_constants : list Z := List.map (fractional_root 3) (first_primes 64).

Definition initial_hash : list Z := List.map (fractional_root 2) (first_primes 8).

Fixpoint bytes_of_string (s : string) : list Z :=
  match s with
  | EmptyString => []
  | String c s' => Z.of_nat (nat_of_ascii c) :: bytes_of_string s'
  end.

(** The [n] low bytes of [x], most significant first. *)
Fixpoint big_endian (n : nat) (x : Z) : list Z :=
  match n with
  | O => []
  | S n' => Z.land (Z.shiftr x (8 * Z.of_nat n')) 0xff :: big_endian n' x
  end.

(** Padding: a [1] bit, zeros up to 56 modulo 64 bytes, then the length of
    the message in bits on 8 bytes. *)
Definition pad (msg : list Z) : list Z :=
  let len := Z.of_nat (List.length msg) in
  let zeros := Z.to_nat ((55 - len) mod 64) in
  msg ++ [0x80] ++ List.repeat 0 zeros ++ big_endian 8 (8 * len).

Fixpoint words_of_bytes (fuel : nat) (bs : list Z) : list Z :=
  match fuel, bs with
  | S fuel', b0 :: b1 :: b2 :: b3 :: rest =>
      (Z.shiftl b0 24 + Z.shiftl b1 16 + Z.shiftl b2 8 + b3) :: words_of_bytes fuel' rest
  | _, _ => []
  end.

(** The message schedule of a block; [recent] holds the words computed so
    far, the latest first. *)
Fixpoint extend_schedule (n : nat) (recent : list Z) : list Z :=
  match n with
  | O => List.rev recent
  | S n' =>
      let w := add32 (add32 (small_sigma1 (List.nth 1 recent 0)) (List.nth 6 recent 0))
                     (add32 (small_sigma0 (List.nth 14 recent 0)) (List.nth 15 recent 0)) in
      extend_schedule n' (w :: recent)
  end.

Definition schedule (block : list Z) : list Z := extend_schedule 48 (List.rev block).

Record regs := { ra : Z; rb : Z; rc : Z; rd : Z; re : Z; rf : Z; rg : Z; rh : Z }.

Definition round (r : regs) (kw : Z * Z) : regs :=
  let t1 := add32 (add32 (add32 (rh r) (big_sigma1 (re r))) (ch (re r) (rf r) (rg r)))
                  (add32 (fst kw) (snd kw)) in
  let t2 := add32 (big_sigma0 (ra r)) (maj (ra r) (rb r) (rc r)) in
  {| ra := add32 t1 t2; rb := ra r; rc := rb r; rd := rc r;
     re := add32 (rd r) t1; rf := re r; rg := rf r; rh := rg r |}.

Definition regs_of (h : list Z) : regs :=
  {| ra := List.nth 0 h 0; rb := List.nth 1 h 0; rc := List.nth 2 h 0; rd := List.nth 3 h 0;
     re := List.nth 4 h 0; rf := List.nth 5 h 0; rg := List.nth 6 h 0; rh := List.nth 7 h 0 |}.

Definition list_of (r : regs) : list Z :=
  [ra r; rb r; rc r; rd r; re r; rf r; rg r; rh r].

Definition compress (h : list Z) (block : list Z) : list Z :=
  let r := List.fold_left round (List.combine round_constants (schedule block)) (regs_of h) in
  List.map (λ p, add32 (fst p) (snd p)) (List.combine h (list_of r)).

Fixpoint blocks (fuel : nat) (ws : list Z) : list (list Z) :=
  match fuel, ws with
  | S fuel', _ :: _ => List.firstn 16 ws :: blocks fuel' (List.skipn 16 ws)
  | _, _ => []
  end.

Definition digest_words (s : string) : list Z :=
  let bs := pad (bytes_of_string s) in
  let ws := words_of_bytes (List.length bs) bs in
  List.fold_left compress (blocks (List.length ws) ws) initial_hash.

Definition hex_digit (d : Z) : ascii :=
  if d <? 10 then ascii_of_nat (Z.to_nat (48 + d)) else ascii_of_nat (Z.to_nat (87 + d)).

Fixpoint hex_of_bytes (bs : list Z) : string :=
  match bs with
  | [] => EmptyString
  | b :: rest =>
      String (hex_digit (Z.shiftr b 4)) (String (hex_digit (Z.land b 0xf)) (hex_of_bytes rest))
  end.

(** [hashlib.sha256(s.encode()).hexdigest()]. *)
Definition hexdigest (s : string) : string :=
  hex_of_bytes (List.concat (List.map (big_endian 4) (digest_words s))).

End Sha256.

(** ** [src/ai_analyzer.py] *)

Module AINewsAnalyzer.

(** *** The outside world *)

Definition token := N.

(** What [client.moderations.create(...).results[0]] holds: [categories]
    and [category_scores] are [None] when the attribute is missing. *)
Record ModerationResult := {
  flagged : bool;
  categories : option (gmap string value);
  category_scores : option (gmap string value)
}.

(** What [client.chat.completions.create(...)] returns: [usage] is
    [response.usage.completion_tokens] when [response.usage] is set;
    [choices] lists [choice.message.content] of each choice, which may be
    [None]. *)
Record ChatCompletion := {
  usage : option N;
  choices : list (option string)
}.

(** The collaborators of the analyzer.  The OpenAI service and the clock
    depend on, and change, the state of the world; either call to the
    service may raise.  The tokenizer ([tiktoken]) is a pair of functions:
    [encode] raises [ValueError] on a text that holds a special token,
    [decode] is total; [json_loads] is [json.loads]; [py_str] is [str(x)]
    for the values that are not strings. *)
Class Collaborators := {
  world : Type;
  moderations_create : string → world → result ModerationResult * world;
  chat_completions_create :
    string → string → Z → Q → world → result ChatCompletion * world;
  datetime_now_isoformat : world → string * world;
  encoding_encode : string → result (list token);
  encoding_decode : list token → string;
  json_loads : string → result value;
  py_str : value → string
}.

(** A call made to the OpenAI service. *)
Inductive event :=
  | ModerationCall (input : string)
  | CompletionCall (model prompt : string) (max_tokens : Z) (temperature : Q).

Definition is_completion (e : event) : bool :=
  match e with CompletionCall _ _ _ _ => true | ModerationCall _ => false end.

(** The instance attributes ([self.client] is the service above,
    [self.encoding] the tokenizer). *)
Record t := {
  model : string;
  max_tokens : Z
}.

Record price_config := { input : Q; output : Q }.

(** [self.pricing]: prices per 1K tokens. *)
Definition pricing : gmap string price_config :=
  <["gpt-3.5-turbo" := {| input := 0.0005; output := 0.0015 |}]>
    (<["gpt-4" := {| input := 0.01; output := 0.03 |}]>
       (<["gpt-4-turbo" := {| input := 0.01; output := 0.03 |}]> ∅)).

(** [calculate_cost]. *)
Definition calculate_cost (self : t) (input_tokens output_tokens : N) : Q :=
  match pricing !! model self with
  | None => 0
  | Some price_config =>
      let input_cost := (inject_Z (Z.of_N input_tokens) / 1000 * input price_config)%Q in
      let output_cost := (inject_Z (Z.of_N output_tokens) / 1000 * output price_config)%Q in
      (input_cost + output_cost)%Q
  end.

Definition nl : string := String "010"%char EmptyString.
Definition dq : string := String "034"%char EmptyString.

Section Analyzer.

Context `{Collaborators}.

(** [f"{x}"]. *)
Definition fmt (x : value) : string :=
  match x with
  | VStr s => s
  | _ => py_str x
  end.

(** [count_tokens]. *)
Definition count_tokens (text : string) : result N :=
  result_bind (encoding_encode text) (λ tokens, Ok (N.of_nat (List.length tokens))).

(** [truncate_text] on a string. *)
Definition truncate_str (text : string) (max_tokens : nat) : result string :=
  result_bind (encoding_encode text)
    (λ tokens,
       if (List.length tokens <=? max_tokens)%nat then Ok text
       else Ok (encoding_decode (List.firstn max_tokens tokens))).

(** [truncate_text]: the tokenizer encodes strings only. *)
Definition truncate_text (text : value) (max_tokens : nat) : result string :=
  match text with
  | VStr s => truncate_str s max_tokens
  | _ => Raise (TypeError "argument 'text': expected a string")
  end.

(** *** The monad of the asynchronous code *)

Record state := {
  st_world : world;
  st_trace : list event
}.

Definition M (A : Type) : Type := state → result A * state.

Definition ret {A} (a : A) : M A := λ s, (Ok a, s).
Definition raise {A} (e : exn) : M A := λ s, (Raise e, s).
Definition bind {A B} (m : M A) (k : A → M B) : M B :=
  λ s, match m s with
       | (Ok a, s') => k a s'
       | (Raise e, s') => (Raise e, s')
       end.
Definition lift {A} (r : result A) : M A := λ s, (r, s).

(** [try: m  except Exception as e: handler e]. *)
Definition try_except {A} (m : M A) (handler : exn → M A) : M A :=
  λ s, match m s with
       | (Ok a, s') => (Ok a, s')
       | (Raise e, s') => handler e s'
       end.

Definition call_moderation (text : string) : M ModerationResult :=
  λ s, let (r, w) := moderations_create text (st_world s) in
       (r, {| st_world := w; st_trace := st_trace s ++ [ModerationCall text] |}).

Definition call_completion (model prompt : string) (max_tokens : Z) (temperature : Q)
    : M ChatCompletion :=
  λ s, let (r, w) := chat_completions_create model prompt max_tokens temperature (st_world s) in
       (r, {| st_world := w;
              st_trace := st_trace s ++ [CompletionCall model prompt max_tokens temperature] |}).

Definition now_isoformat : M string :=
  λ s, let (d, w) := datetime_now_isoformat (st_world s) in
       (Ok d, {| st_world := w; st_trace := st_trace s |}).

(** [await asyncio.gather( *tasks)]: every task runs, also when another
    one raises; the caller sees the exception of one of the tasks that
    raised (here the first of the list; with [asyncio], the first to
    raise). *)
Fixpoint gather {A} (tasks : list (M A)) : M (list A) :=
  match tasks with
  | [] => ret []
  | task :: rest =>
      λ s, match task s with
           | (Ok a, s') =>
               match gather rest s' with
               | (Ok l, s'') => (Ok (a :: l), s'')
               | (Raise e, s'') => (Raise e, s'')
               end
           | (Raise e, s') => (Raise e, snd (gather rest s'))
           end
  end.

(** [await asyncio.gather( *tasks, return_exceptions=True)]: an exception
    a task raises is returned in its place. *)
Fixpoint gather_return_exceptions {A} (tasks : list (M A)) : M (list (result A)) :=
  match tasks with
  | [] => ret []
  | task :: rest =>
      λ s, let (r, s') := task s in
           match gather_return_exceptions rest s' with
           | (Ok l, s'') => (Ok (r :: l), s'')
           | (Raise e, s'') => (Raise e, s'')
           end
  end.

Notation "'await' x ← m 'in' k" := (bind m (λ x, k))
  (at level 10, x name, m at level 100, k at level 200, only parsing).

(** [moderate_content]: a failure of the moderation call, or of reading
    its first result, is logged and answered as not flagged. *)
Definition moderate_content (text : string) : M ModerationResult :=
  try_except
    (await result ← call_moderation text in
     ret {| flagged := flagged result;
            categories := Some (default ∅ (categories result));
            category_scores := Some (default ∅ (category_scores result)) |})
    (λ e, ret {| flagged := false; categories := Some ∅; category_scores := Some ∅ |}).

(** [response.usage.completion_tokens if response.usage else 0]. *)
Definition output_tokens_of (response : ChatCompletion) : N := default 0%N (usage response).

(** [response.choices[0].message.content.strip()]. *)
Definition result_text_of (response : ChatCompletion) : result string :=
  match choices response with
  | [] => Raise (IndexError "list index out of range")
  | None :: _ => Raise (AttributeError "'NoneType' object has no attribute 'strip'")
  | Some content :: _ => Ok (strip content)
  end.

(** [json.loads(json_match.group())], then the item assignments on the
    parsed object. *)
Definition parsed_object (result_text : string) : result (gmap string value) :=
  match re_search_braces result_text with
  | Some group =>
      result_bind (json_loads group)
        (λ data, match data with
                 | VDict d => Ok d
                 | _ => Raise (TypeError "object does not support item assignment")
                 end)
  | None => Raise (ValueError "No valid JSON found in response")
  end.

(** The body of the [try] block the three analyses share: count the tokens
    of the prompt, call the completion, price it, parse the answer. *)
Definition completion_block (self : t) (prompt : string) (max_output : Z) (temperature : Q)
    : M (Q * gmap string value) :=
  await input_tokens ← lift (count_tokens prompt) in
  await response ← call_completion (model self) prompt max_output temperature in
  let output_tokens := output_tokens_of response in
  let cost := calculate_cost self input_tokens output_tokens in
  await result_text ← lift (result_text_of response) in
  await data ← lift (parsed_object result_text) in
  ret (cost, data).

Definition sentiment_flagged : gmap string value :=
  list_to_map
    [("score", VFloat 0); ("label", VStr "neutral"); ("confidence", VFloat 0);
     ("reasoning", VStr "Content flagged by moderation");
     ("moderation_flagged", VBool true)].

Definition sentiment_failed (e : exn) : gmap string value :=
  list_to_map
    [("score", VFloat 0); ("label", VStr "neutral"); ("confidence", VFloat 0);
     ("reasoning", VStr ("Analysis failed: " ++ exn_msg e));
     ("cost", VFloat 0); ("moderation_flagged", VBool false)].

Definition sentiment_prompt (truncated : string) : string :=
  String.concat ""
    ["Analyze the sentiment of this news article text. Provide your analysis in JSON format:";
     nl; nl; "Text: "; dq; truncated; dq; nl; nl;
     "Return JSON with:"; nl;
     "- score: float between -1.0 (very negative) and 1.0 (very positive)"; nl;
     "- label: "; dq; "positive"; dq; ", "; dq; "negative"; dq; ", or "; dq; "neutral"; dq; nl;
     "- confidence: float between 0.0 and 1.0"; nl;
     "- reasoning: brief explanation of the sentiment"; nl; nl;
     "JSON:"].

(** [analyze_sentiment]: the prompt, and with it the truncation of [text],
    is built after the moderation check and before the [try]. *)
Definition analyze_sentiment (self : t) (text : string) : M (gmap string value) :=
  await moderation ← moderate_content text in
  if flagged moderation then ret sentiment_flagged
  else
    await truncated ← lift (truncate_str text 2000) in
    let prompt := sentiment_prompt truncated in
    try_except
      (await r ← completion_block self prompt 200 0.1 in
       let sentiment_data := snd r in
       ret (<["moderation_flagged" := VBool false]>
              (<["cost" := VFloat (fst r)]> sentiment_data)))
      (λ e, ret (sentiment_failed e)).

Definition summary_flagged : gmap string value :=
  list_to_map
    [("summary", VStr "Content unavailable due to moderation policies");
     ("key_points", VList []); ("cost", VFloat 0); ("moderation_flagged", VBool true)].

Definition summary_failed : gmap string value :=
  list_to_map
    [("summary", VStr "Summary unavailable");
     ("key_points", VList []); ("cost", VFloat 0); ("moderation_flagged", VBool false)].

Definition summary_prompt (title : value) (truncated : string) : string :=
  String.concat ""
    ["Summarize this news article in 2-3 sentences and extract 3-5 key points. Return JSON format:";
     nl; nl; "Title: "; fmt title; nl; nl; "Content: "; truncated; nl; nl;
     "Return JSON with:"; nl;
     "- summary: 2-3 sentence summary"; nl;
     "- key_points: array of 3-5 key points (each 1 sentence)"; nl; nl;
     "JSON:"].

(** [summarize_article]: the prompt, and with it the truncation of
    [content], is built after the moderation check and before the [try]. *)
Definition summarize_article (self : t) (title content : value) : M (gmap string value) :=
  let full_text := fmt title ++ nl ++ nl ++ fmt content in
  await moderation ← moderate_content (take_chars 1000 full_text) in
  if flagged moderation then ret summary_flagged
  else
    await truncated ← lift (truncate_text content 2500) in
    let prompt := summary_prompt title truncated in
    try_except
      (await r ← completion_block self prompt 300 0.2 in
       let summary_data := snd r in
       ret (<["moderation_flagged" := VBool false]>
              (<["cost" := VFloat (fst r)]> summary_data)))
      (λ e, ret summary_failed).

Definition categories_list : list string :=
  ["Politics"; "Business"; "Technology"; "Healthcare"; "Sports";
   "Entertainment"; "Science"; "Environment"; "Education"; "Crime";
   "International"; "Economy"; "Finance"; "Startup"; "AI/ML";
   "Cybersecurity"; "Energy"; "Transportation"; "Real Estate"].

Definition classification_failed : gmap string value :=
  list_to_map
    [("categories", VList [VStr "General"]);
     ("entities",
      VDict (list_to_map [("people", VList []); ("companies", VList []);
                          ("locations", VList []); ("events", VList [])]));
     ("keywords", VList []); ("cost", VFloat 0)].

Definition classification_prompt (title : value) (truncated : string) : string :=
  String.concat ""
    ["Classify this news article into relevant categories and extract entities. Return JSON format:";
     nl; nl; "Title: "; fmt title; nl; nl; "Content: "; truncated; nl; nl;
     "Available categories: "; String.concat ", " categories_list; nl; nl;
     "Return JSON with:"; nl;
     "- categories: array of 1-3 most relevant categories from the list above"; nl;
     "- entities: object with arrays for "; dq; "people"; dq; ", "; dq; "companies"; dq; ", ";
     dq; "locations"; dq; ", "; dq; "events"; dq; nl;
     "- keywords: array of 5-10 most important keywords/phrases"; nl; nl;
     "JSON:"].

(** [classify_topics]: no moderation call; the result carries no
    [moderation_flagged] entry.  The prompt, and with it the truncation of
    [content], is built before the [try]. *)
Definition classify_topics (self : t) (title content : value) : M (gmap string value) :=
  await truncated ← lift (truncate_text content 2000) in
  let prompt := classification_prompt title truncated in
  try_except
    (await r ← completion_block self prompt 400 0.1 in
     let classification_data := snd r in
     ret (<["cost" := VFloat (fst r)]> classification_data))
    (λ e, ret classification_failed).

(** [x.lower()]: a string method. *)
Definition py_lower (x : value) : result string :=
  match x with
  | VStr s => Ok (lower s)
  | _ => Raise (AttributeError "object has no attribute 'lower'")
  end.

(** [len(x.split())]: [split] is a string method. *)
Definition py_split_len (x : value) : result Z :=
  match x with
  | VStr s => Ok (Z.of_nat (count_words false s))
  | _ => Raise (AttributeError "object has no attribute 'split'")
  end.

(** The text [analyze_article] analyses: the body or the summary, as
    [include_content] says, and the title when that is empty or missing. *)
Definition chosen_content (article : gmap string value) (include_content : bool) : value :=
  let title := dict_get article "title" (VStr "") in
  let content :=
    if include_content then dict_get article "content" (VStr "")
    else dict_get article "summary" (VStr "") in
  if negb (truthy content) then title else content.

(** [hashlib.sha256(f"{title}{content}".encode()).hexdigest()[:16]]. *)
Definition article_id_of (title content : value) : string :=
  let article_text := fmt title ++ fmt content in
  take_prefix 16 (Sha256.hexdigest article_text).

(** The summary used when the text is too short to be summarised. *)
Definition summary_stub (article : gmap string value) (title : value) : gmap string value :=
  list_to_map
    [("summary", dict_get article "summary" title); ("key_points", VList []);
     ("cost", VFloat 0); ("moderation_flagged", VBool false)].

(** The trending score before the cap: [urgent] is the test on the title,
    [strong] the test on the sentiment. *)
Definition trending_score (urgent strong : bool) : Q :=
  let trending_score := 0.5%Q in
  let trending_score := if urgent then (trending_score + 0.3)%Q else trending_score in
  if strong then (trending_score + 0.2)%Q else trending_score.

(** [min(x, 1.0)]. *)
Definition min1 (x : Q) : Q := if Qle_bool x 1 then x else 1%Q.

(** [f"{max(1, n // 200)} minutes"]. *)
Definition reading_time_of (n : Z) : string := pretty (Z.max 1 (n / 200)) ++ " minutes".

(** [analyze_article]. *)
Definition analyze_article (self : t) (article : gmap string value) (include_content : bool)
    : M (gmap string value) :=
  let title := dict_get article "title" (VStr "") in
  let content := chosen_content article include_content in
  let article_id := article_id_of title content in
  let tasks :=
    [analyze_sentiment self (fmt title ++ nl ++ fmt content);
     classify_topics self title content] in
  await n_chars ← lift (py_len content) in
  let tasks :=
    if 200 <? n_chars then (tasks ++ [summarize_article self title content])%list
    else (tasks ++ [ret (summary_stub article title)])%list in
  await results ← gather tasks in
  match results with
  | [sentiment; classification; summarization] =>
      await total_cost ←
        lift (result_bind
                (py_add (dict_get sentiment "cost" (VInt 0))
                        (dict_get classification "cost" (VInt 0)))
                (λ c, py_add c (dict_get summarization "cost" (VInt 0)))) in
      await title_lower ← lift (py_lower title) in
      let urgent := contains "breaking" title_lower || contains "urgent" title_lower in
      await magnitude ← lift (py_abs (dict_get sentiment "score" (VInt 0))) in
      await strong ← lift (py_gt magnitude 0.7) in
      let trending_score := trending_score urgent strong in
      await analyzed_at ← now_isoformat in
      await word_count ←
        lift (if truthy content then py_split_len content else Ok 0) in
      await reading_time ←
        lift (if truthy content
              then result_bind (py_split_len content) (λ n, Ok (reading_time_of n))
              else Ok "< 1 minute") in
      ret (list_to_map
             [("article_id", VStr article_id);
              ("analyzed_at", VStr analyzed_at);
              ("sentiment", VDict sentiment);
              ("classification", VDict classification);
              ("summarization", VDict summarization);
              ("trending_score", VFloat (min1 trending_score));
              ("total_cost", total_cost);
              ("word_count", VInt word_count);
              ("reading_time", VStr reading_time)])
  | _ => raise (ValueError "not enough values to unpack")
  end.

(** The record put in place of the analysis of an article that failed. *)
Definition error_marker (e : exn) (analyzed_at : string) : gmap string value :=
  list_to_map
    [("error", VStr (exn_msg e)); ("total_cost", VFloat 0);
     ("analyzed_at", VStr analyzed_at)].

(** [analyze_with_limit], the closure of [batch_analyze]. *)
Definition analyze_with_limit (self : t) (include_content : bool)
    (article : gmap string value) : M (gmap string value) :=
  try_except
    (await analysis ← analyze_article self article include_content in
     ret (<["analysis" := VDict analysis]> article))
    (λ e,
       await analyzed_at ← now_isoformat in
       ret (<["analysis" := VDict (error_marker e analyzed_at)]> article)).

(** [not isinstance(article, Exception)]. *)
Definition successes {A} (outcomes : list (result A)) : list A :=
  omap (λ r, match r with Ok a => Some a | Raise _ => None end) outcomes.

(** [asyncio.Semaphore(value)] refuses a negative value.  The permits only
    bound how many analyses are in flight at once, which the sequential
    reading below does not show; with no permit at all no analysis would
    ever start, so the properties of the batch are stated for a positive
    [max_concurrent]. *)
Definition new_semaphore (value : Z) : result Z :=
  if value <? 0 then Raise (ValueError "Semaphore initial value must be >= 0")
  else Ok value.

(** [batch_analyze].  The articles of a batch are distinct dict objects (the
    aggregator builds one per feed entry), so the update in place
    [article["analysis"] = ...] of each is an insertion into its value. *)
Definition batch_analyze (self : t) (articles : list (gmap string value))
    (max_concurrent : Z) (include_content : bool) : M (list (gmap string value)) :=
  await semaphore ← lift (new_semaphore max_concurrent) in
  let tasks := List.map (analyze_with_limit self include_content) articles in
  await analyzed_articles ← gather_return_exceptions tasks in
  ret (successes analyzed_articles).

End Analyzer.

End AINewsAnalyzer.

(** ** The trending score in binary64

    The trending score involves constants only; here it is computed as
    Python computes it, on IEEE 754 binary64 numbers, to check that reading
    the floats as rationals does not change its value. *)

Module Binary64.

Definition trending_score (urgent strong : bool) : float :=
  let trending_score := 0.5%float in
  let trending_score := if urgent then (trending_score + 0.3)%float else trending_score in
  if strong then (trending_score + 0.2)%float else trending_score.

(** [min(x, 1.0)]. *)
Definition min1 (x : float) : float := if (1.0 <? x)%float then 1.0%float else x.

End Binary64.

(** ** A test double for the collaborators

    A small deterministic stand-in for the OpenAI service, the tokenizer
    and [json.loads], on which the model is run on concrete inputs.  The
    text submitted steers it: a text containing [[unsafe]] is flagged, a
    prompt containing [[timeout]] makes the completion raise, one containing
    [[strong]], [[odd]] or [[prose]] selects the answer returned.  The
    tokenizer gives one token per byte and, as [tiktoken] does, refuses a
    text that holds the special token [<|endoftext|>]. *)

Module Mock.
Import AINewsAnalyzer.

Definition moderations_create (text : string) (w : nat) : result ModerationResult * nat :=
  if contains "[moderation down]" text then (Raise (Exn "APIConnectionError" "Connection error."), S w)
  else (Ok {| flagged := contains "[unsafe]" text; categories := None; category_scores := None |},
        S w).

Definition chat_completions_create (model prompt : string) (max_tokens : Z) (temperature : Q)
    (w : nat) : result ChatCompletion * nat :=
  if contains "[timeout]" prompt then (Raise (Exn "APITimeoutError" "Request timed out."), S w)
  else
    let answer :=
      if contains "[strong]" prompt then "Here you are: {strong} "
      else if contains "[odd]" prompt then "{odd}"
      else if contains "[prose]" prompt then "I cannot answer in JSON."
      else "{}" in
    (Ok {| usage := Some 40%N; choices := [Some answer] |}, S w).

Definition json_loads (text : string) : result value :=
  if String.eqb text "{}" then Ok (VDict ∅)
  else if String.eqb text "{strong}" then
    Ok (VDict (list_to_map [("score", VFloat (-0.9)); ("label", VStr "negative")]))
  else if String.eqb text "{odd}" then
    Ok (VDict (list_to_map [("score", VStr "high")]))
  else Raise (Exn "JSONDecodeError" "Expecting value").

Fixpoint tokens_of (text : string) : list token :=
  match text with
  | EmptyString => []
  | String c rest => N.of_nat (nat_of_ascii c) :: tokens_of rest
  end.

Definition encoding_encode (text : string) : result (list token) :=
  if contains "<|endoftext|>" text then
    Raise (ValueError
             "Encountered text corresponding to disallowed special token '<|endoftext|>'.")
  else Ok (tokens_of text).

Fixpoint encoding_decode (tokens : list token) : string :=
  match tokens with
  | [] => EmptyString
  | n :: rest => String (ascii_of_nat (N.to_nat n)) (encoding_decode rest)
  end.

Definition py_str (x : value) : string :=
  match x with
  | VNone => "None"
  | VBool true => "True"
  | VBool false => "False"
  | VInt z => pretty z
  | _ => "<object>"
  end.

#[local] Instance collaborators : Collaborators := {|
  world := nat;
  AINewsAnalyzer.moderations_create := moderations_create;
  AINewsAnalyzer.chat_completions_create := chat_completions_create;
  datetime_now_isoformat := λ w, ("2025-01-01T00:00:" ++ pretty w, S w);
  AINewsAnalyzer.encoding_encode := encoding_encode;
  AINewsAnalyzer.encoding_decode := encoding_decode;
  AINewsAnalyzer.json_loads := json_loads;
  AINewsAnalyzer.py_str := py_str
|}.

Definition analyzer : t := {| model := "gpt-3.5-turbo"; max_tokens := 1000 |}.

Definition start : state := {| st_world := 0%nat; st_trace := [] |}.

(** An article as the aggregator builds it. *)
Definition article (title summary : string) (content : value) : gmap string value :=
  list_to_map
    [("title", VStr title); ("url", VStr "https://example.org/a");
     ("summary", VStr summary); ("content", content); ("source", VStr "bbc")].

(** The record a run returned ([∅] when it raised). *)
Definition output (run : result (gmap string value) * state) : gmap string value :=
  match fst run with
  | Ok d => d
  | Raise _ => ∅
  end.

(** A breaking story on which the service reports a strongly negative
    sentiment; the body could not be fetched. *)
Definition breaking_story : gmap string value :=
  article "BREAKING [strong] markets fall" "Stocks fell sharply." VNone.

(** Two stories that differ in their title and in their body, and two that
    differ in their body only. *)
Definition story_ab_c : gmap string value := article "ab" "" (VStr "c").
Definition story_a_bc : gmap string value := article "a" "" (VStr "bc").
Definition story_body_one : gmap string value := article "Title" "Summary" (VStr "body one").
Definition story_body_two : gmap string value := article "Title" "Summary" (VStr "body two").

(** A batch of three stories; on the second the service answers with a
    sentiment score that is not a number, and its analysis raises. *)
Definition batch_of_three : list (gmap string value) :=
  [article "BREAKING news" "First." VNone;
   article "[odd] weather" "Second." (VStr "Rain and [odd] winds.");
   article "Quiet day" "Third." VNone].

(** The records a run of the batch returned ([[]] when it raised). *)
Definition records_of (run : result (list (gmap string value)) * state)
    : list (gmap string value) :=
  match fst run with
  | Ok l => l
  | Raise _ => []
  end.

(** A story whose body is missing while its summary is not. *)
Definition story_without_body : gmap string value := article "Title" "Summary" VNone.

End Mock.

(** ** Vocabulary of the properties *)

Module Props.
Import AINewsAnalyzer.

(** The four branches of [calculate_pricing_tier], and the one a request
    takes. *)
Inductive branch := Basic | Byok | Free | BuiltIn.

Definition branch_of (enable_ai : bool) (key : option string) (n : Z) : branch :=
  if negb enable_ai then Basic
  else if CostManager.key_given key then Byok
  else if n <=? 50 then Free
  else BuiltIn.

(** The entries of a complete analysis record. *)
Definition analysis_keys : list string :=
  ["article_id"; "analyzed_at"; "sentiment"; "classification"; "summarization";
   "trending_score"; "total_cost"; "word_count"; "reading_time"].

Definition has_key (d : gmap string value) (k : string) : bool :=
  match d !! k with Some _ => true | None => false end.

(** The [analysis] entry of a record, when it is a dict. *)
Definition analysis_of (record : gmap string value) : option (gmap string value) :=
  match record !! "analysis" with
  | Some (VDict a) => Some a
  | _ => None
  end.

(** The record carries an error marker: its analysis has an [error] entry. *)
Definition has_error_marker (record : gmap string value) : bool :=
  match analysis_of record with
  | Some a => has_key a "error"
  | None => false
  end.

(** The record carries a complete analysis: every entry of an analysis and
    no [error] entry. *)
Definition has_complete_analysis (record : gmap string value) : bool :=
  match analysis_of record with
  | Some a => forallb (has_key a) analysis_keys && negb (has_key a "error")
  | None => false
  end.

Definition count_if {A} (p : A → bool) (l : list A) : nat := List.length (List.filter p l).


Definition raised {A} (r : result A) : bool := negb (is_ok r).

(** The test on the title that earns the urgency bonus. *)
Definition urgent_title (title : string) : bool :=
  contains "breaking" (lower title) || contains "urgent" (lower title).

(** The trending score as the specification words it: the base, the two
    bonuses, capped at one. *)
Definition specified_trending (urgent strong : bool) : Q :=
  Qmin 1 (0.5 + (if urgent then 0.3 else 0) + (if strong then 0.2 else 0)).

(** The choice of the analysed text as the specification words it: the body
    when it is asked for and not empty, else the summary, else the title. *)
Definition specified_content (article : gmap string value) (include_content : bool) : value :=
  let body := dict_get article "content" (VStr "") in
  let summary := dict_get article "summary" (VStr "") in
  let title := dict_get article "title" (VStr "") in
  if include_content && truthy body then body
  else if truthy summary then summary
  else title.

(** How the record of an article relates to the outcome of its analysis. *)
Definition record_for (article : gmap string value) (outcome : result (gmap string value))
    (record : gmap string value) : Prop :=
  match outcome with
  | Ok an => record = <["analysis" := VDict an]> article
  | Raise e => ∃ analyzed_at, record = <["analysis" := VDict (error_marker e analyzed_at)]> article
  end.

(** What a record tells of the outcome it was made from. *)
Definition record_shows (outcome : result (gmap string value)) (record : gmap string value)
    : Prop :=
  match outcome with
  | Ok an =>
      analysis_of record = Some an ∧
      has_complete_analysis record = true ∧ has_error_marker record = false
  | Raise e =>
      has_error_marker record = true ∧ has_complete_analysis record = false ∧
      ∃ marker, analysis_of record = Some marker ∧
                marker !! "error" = Some (VStr (exn_msg e)) ∧
                marker !! "total_cost" = Some (VFloat 0)
  end.

Section Outcomes.

Context `{Collaborators}.

(** What [analyze_article] gives for each article of a batch, each run from
    the state the batch has reached when its turn comes. *)
Fixpoint analysis_outcomes (self : t) (include_content : bool)
    (articles : list (gmap string value)) (s : state) : list (result (gmap string value)) :=
  match articles with
  | [] => []
  | article :: rest =>
      fst (analyze_article self article include_content s)
      :: analysis_outcomes self include_content rest
           (snd (analyze_with_limit self include_content article s))
  end.

(** The identifier [analyze_article] computes for an article. *)
Definition article_id (article : gmap string value) (include_content : bool) : string :=
  article_id_of (dict_get article "title" (VStr "")) (chosen_content article include_content).

End Outcomes.

End Props.

(** ** [src/cost_manager.py]: usage tracking, the cost report, the billing
    summary *)

Module CostReporting.
Import CostManager.

Notation "'attempt' x ← m 'in' k" := (result_bind m (λ x, k))
  (at level 10, x name, m at level 100, k at level 200, only parsing).

(** [track_usage]; what it logs has no effect on the state. *)
Definition track_usage (self : t) (articles_processed : Z) (actual_cost : Q) : t :=
  {| current_session_cost := (current_session_cost self + actual_cost)%Q;
     articles_processed := CostManager.articles_processed self + articles_processed |}.

(** [x.get(k, default)]: a method of dicts. *)
Definition py_get (x : value) (k : string) (default : value) : result value :=
  match x with
  | VDict d => Ok (dict_get d k default)
  | _ => Raise (AttributeError "object has no attribute 'get'")
  end.

Definition is_error_string (x : value) : bool :=
  match x with
  | VStr s => String.eqb s "error"
  | _ => false
  end.

(** ["error" in x]: a key of a dict, a substring of a string, a member of
    a list. *)
Definition has_error (x : value) : result bool :=
  match x with
  | VDict d => Ok (match d !! "error" with Some _ => true | None => false end)
  | VStr s => Ok (contains "error" s)
  | VList l => Ok (List.existsb is_error_string l)
  | _ => Raise (TypeError "argument of this type is not iterable")
  end.

(** [acc += x] for a float [acc]. *)
Definition float_add (acc : Q) (x : value) : result Q :=
  match as_number x with
  | Some q => Ok (acc + q)%Q
  | None => Raise (TypeError "unsupported operand type(s) for +=")
  end.

(** The variables the loop of [generate_cost_report] updates. *)
Record tally := {
  total_ai_cost : Q;
  successful_analyses : Z;
  failed_analyses : Z;
  sentiment_analysis : Q;
  summarization : Q;
  classification : Q
}.

Definition tally_start : tally :=
  {| total_ai_cost := 0; successful_analyses := 0; failed_analyses := 0;
     sentiment_analysis := 0; summarization := 0; classification := 0 |}.

(** One turn of the loop. *)
Definition tally_article (acc : tally) (article : gmap string value) : result tally :=
  let analysis := dict_get article "analysis" (VDict ∅) in
  attempt failed ← has_error analysis in
  if failed then
    Ok {| total_ai_cost := total_ai_cost acc;
          successful_analyses := successful_analyses acc;
          failed_analyses := failed_analyses acc + 1;
          sentiment_analysis := sentiment_analysis acc;
          summarization := summarization acc;
          classification := classification acc |}
  else
    attempt article_cost ← py_get analysis "total_cost" (VFloat 0) in
    attempt total ← float_add (total_ai_cost acc) article_cost in
    attempt sentiment ← py_get analysis "sentiment" (VDict ∅) in
    attempt sentiment_cost ← py_get sentiment "cost" (VFloat 0) in
    attempt sentiment_sum ← float_add (sentiment_analysis acc) sentiment_cost in
    attempt summarization' ← py_get analysis "summarization" (VDict ∅) in
    attempt summarization_cost ← py_get summarization' "cost" (VFloat 0) in
    attempt summarization_sum ← float_add (summarization acc) summarization_cost in
    attempt classification' ← py_get analysis "classification" (VDict ∅) in
    attempt classification_cost ← py_get classification' "cost" (VFloat 0) in
    attempt classification_sum ← float_add (classification acc) classification_cost in
    Ok {| total_ai_cost := total;
          successful_analyses := successful_analyses acc + 1;
          failed_analyses := failed_analyses acc;
          sentiment_analysis := sentiment_sum;
          summarization := summarization_sum;
          classification := classification_sum |}.

(** The loop: the first exception ends it. *)
Fixpoint tally_articles (acc : tally) (analysis_results : list (gmap string value))
    : result tally :=
  match analysis_results with
  | [] => Ok acc
  | article :: rest =>
      attempt acc' ← tally_article acc article in
      tally_articles acc' rest
  end.

(** The report, its nested dicts flattened. *)
Record CostReport := {
  total_articles_requested : Z;
  report_successful_analyses : Z;
  report_failed_analyses : Z;
  success_rate : fstring;
  ai_processing_total : Q;
  ai_processing_per_article : Q;
  breakdown_sentiment_analysis : Q;
  breakdown_summarization : Q;
  breakdown_classification : Q;
  breakdown_content_moderation : Q;
  platform_usage : Q;
  total_session_cost : Q;
  report_currency : string;
  usage_articles_processed : Z;
  average_cost_per_article : Q;
  timestamp : string
}.

(** [generate_cost_report]; [now] is [datetime.now().isoformat()]. *)
Definition generate_cost_report (self : t) (now : string)
    (analysis_results : list (gmap string value)) : result CostReport :=
  let total_articles := Z.of_nat (List.length analysis_results) in
  attempt acc ← tally_articles tally_start analysis_results in
  let platform_cost := (current_session_cost self - total_ai_cost acc)%Q in
  Ok {| total_articles_requested := total_articles;
        report_successful_analyses := successful_analyses acc;
        report_failed_analyses := failed_analyses acc;
        success_rate :=
          if 0 <? total_articles
          then [FFixed 1 (inject_Z (successful_analyses acc) / inject_Z total_articles * 100)%Q;
                Lit "%"]
          else [Lit "0%"];
        ai_processing_total := total_ai_cost acc;
        ai_processing_per_article :=
          if 0 <? successful_analyses acc
          then (total_ai_cost acc / inject_Z (successful_analyses acc))%Q
          else 0%Q;
        breakdown_sentiment_analysis := sentiment_analysis acc;
        breakdown_summarization := summarization acc;
        breakdown_classification := classification acc;
        breakdown_content_moderation := 0;
        platform_usage := platform_cost;
        total_session_cost := current_session_cost self;
        report_currency := "USD";
        usage_articles_processed := CostManager.articles_processed self;
        average_cost_per_article :=
          if 0 <? CostManager.articles_processed self
          then (current_session_cost self / inject_Z (CostManager.articles_processed self))%Q
          else 0%Q;
        timestamp := now |}.

(** A piece of the billing summary: a piece of an f-string, an integer
    with thousands separators ([{n:,}]), or a message set in it. *)
Inductive summary_part :=
  | Piece (p : fpart)
  | Grouped (z : Z)
  | Embedded (f : fstring).

Definition bullet (text : string) : summary_part :=
  Piece (Lit (String "010"%char ("• " ++ text)%string)).

(** [get_billing_summary].  The tier name decides the arguments of
    [calculate_pricing_tier]: the key is [pricing_tier == "byok"], a bool
    that is only tested for truth, passed here as a non-empty key or no key. *)
Definition get_billing_summary (pricing_tier : string) (articles_count : Z)
    : result (list summary_part) :=
  attempt pricing_info ←
    calculate_pricing_tier (negb (String.eqb pricing_tier "basic"))
      (if String.eqb pricing_tier "byok" then Some "True" else None) articles_count in
  if Qeq_bool (total_cost pricing_info) 0 then
    Ok [Piece (Lit "✅ Free tier: "); Piece (FInt articles_count);
        Piece (Lit " articles analyzed at no cost")]
  else
    let cost_per_1k := cost_per_1000 pricing_info in
    let total_cost := total_cost pricing_info in
    let summary :=
      [Piece (Lit "💰 Billing Summary:");
       bullet "Tier: "; Embedded (description pricing_info);
       bullet "Articles processed: "; Grouped articles_count;
       bullet "Rate: $"; Piece (FFixed 2 cost_per_1k); Piece (Lit " per 1,000 articles");
       bullet "Total cost: $"; Piece (FFixed 4 total_cost); Piece (Lit " USD")] in
    if String.eqb pricing_tier "built_in_ai" then
      Ok (summary ++
          [bullet "Includes: AI sentiment analysis, summarization, categorization, and content moderation"])%list
    else if String.eqb pricing_tier "byok" then
      Ok (summary ++ [bullet "Your OpenAI API usage will be billed separately"])%list
    else Ok summary.

End CostReporting.

(** ** [src/main.py]: the accounting of a session *)

Module Main.
Import CostManager CostReporting.

(** [cost_manager = CostManager()]: no cost, no article yet. *)
Definition new_cost_manager : t := {| current_session_cost := 0; articles_processed := 0 |}.

(** [sum(article.get("analysis", {}).get("total_cost", 0) for article in
    analyzed_articles)], from the accumulator [acc] on. *)
Fixpoint sum_total_costs (acc : value) (analyzed_articles : list (gmap string value))
    : result value :=
  match analyzed_articles with
  | [] => Ok acc
  | article :: rest =>
      attempt cost ← py_get (dict_get article "analysis" (VDict ∅)) "total_cost" (VInt 0) in
      attempt acc' ← py_add acc cost in
      sum_total_costs acc' rest
  end.



End Main.

(** ** Vocabulary of the properties of the report *)

Module ReportProps.
Import CostReporting.

(** The article is one the loop of [generate_cost_report] counts as a
    failed analysis. *)
Definition counts_as_failed (article : gmap string value) : bool :=
  match has_error (dict_get article "analysis" (VDict ∅)) with
  | Ok failed => failed
  | Raise _ => false
  end.

(** The cost entries of an analysis: no [error] entry; the costs [cs], [cc]
    and [cm] of its three records, where the sentiment record may have no
    cost entry; their sum as its [total_cost]. *)
Definition costed (an : gmap string value) : Prop :=
  ∃ (sentiment classification summarization : gmap string value) (cs cc cm total : Q),
    an !! "sentiment" = Some (VDict sentiment) ∧
    an !! "classification" = Some (VDict classification) ∧
    an !! "summarization" = Some (VDict summarization) ∧
    an !! "error" = None ∧
    (sentiment !! "cost" = None ∧ cs = 0%Q ∨ sentiment !! "cost" = Some (VFloat cs)) ∧
    classification !! "cost" = Some (VFloat cc) ∧
    summarization !! "cost" = Some (VFloat cm) ∧
    an !! "total_cost" = Some (VFloat total) ∧
    (total == cs + cc + cm)%Q ∧ (0 <= cs)%Q ∧ (0 <= cc)%Q ∧ (0 <= cm)%Q.

End ReportProps.

(** * Properties of the cost manager *)

Module CostManagerFacts.
Import CostManager Props.

Lemma pricing_free : pricing !! "free" = None.
Proof. reflexivity. Qed.

Lemma pricing_basic : pricing !! "basic" = None.
Proof. reflexivity. Qed.

Lemma pricing_built_in : pricing !! "built_in_ai" = Some (VFloat 6).
Proof. reflexivity. Qed.

Lemma pricing_byok : pricing !! "byok" = Some (VFloat 2).
Proof. reflexivity. Qed.

Lemma free_tier_limit_50 : pricing_int "free_tier_limit" = 50.
Proof. reflexivity. Qed.

Lemma built_in_rate : pricing_float "built_in_ai" = 6%Q.
Proof. reflexivity. Qed.

Lemma byok_rate : pricing_float "byok" = 2%Q.
Proof. reflexivity. Qed.

Ltac pricing_lookup :=
  rewrite ?pricing_free, ?pricing_basic, ?pricing_built_in, ?pricing_byok,
    ?free_tier_limit_50, ?built_in_rate, ?byok_rate.

Lemma branches_tier enable_ai key n :
  l_tier (pricing_branches enable_ai key n) =
    match branch_of enable_ai key n with
    | Basic => "basic" | Byok => "byok" | Free => "free" | BuiltIn => "built_in_ai"
    end.
Proof.
  unfold pricing_branches, branch_of. rewrite free_tier_limit_50.
  destruct enable_ai, (key_given key), (n <=? 50); reflexivity.
Qed.

Lemma branches_free key n :
  key_given key = false → n ≤ 50 →
  pricing_branches true key n =
    {| l_cost_per_article := None; l_total_cost := 0; l_tier := "free";
       l_description := [Lit "Free tier ("; FInt n; Lit "/"; FInt 50; Lit " articles)"] |}.
Proof.
  intros Hk Hn. unfold pricing_branches. rewrite Hk, free_tier_limit_50.
  destruct (Z.leb_spec n 50); [reflexivity | lia].
Qed.

Lemma branches_built_in key n :
  key_given key = false → 50 < n →
  pricing_branches true key n =
    {| l_cost_per_article := Some (6 / 1000)%Q;
       l_total_cost := (inject_Z (n - 50) * (6 / 1000))%Q;
       l_tier := "built_in_ai";
       l_description := [Lit "Built-in AI tier ("; FInt 50; Lit " free + ";
                         FInt (n - 50); Lit " paid articles)"] |}.
Proof.
  intros Hk Hn. unfold pricing_branches. rewrite Hk, free_tier_limit_50, built_in_rate.
  destruct (Z.leb_spec n 50); [lia | reflexivity].
Qed.

(** [calculate_pricing_tier] returns in every branch but the free tier. *)
Lemma pricing_returns enable_ai key n :
  branch_of enable_ai key n ≠ Free →
  ∃ p, calculate_pricing_tier enable_ai key n = Ok p ∧
       tier p = l_tier (pricing_branches enable_ai key n) ∧
       articles_count p = n.
Proof.
  intros Hb. unfold calculate_pricing_tier, branch_of, pricing_branches in *.
  rewrite free_tier_limit_50.
  destruct enable_ai, (key_given key), (n <=? 50); cbn [negb] in Hb; try congruence;
    cbn [negb l_tier l_cost_per_article];
    pricing_lookup; cbn; eauto.
Qed.

Lemma free_tier_unbound_local key n :
  key_given key = false → n ≤ 50 →
  calculate_pricing_tier true key n =
    Raise (UnboundLocalError "local variable 'cost_per_article' referenced before assignment").
Proof.
  intros Hk Hn. unfold calculate_pricing_tier.
  rewrite (branches_free key n Hk Hn). reflexivity.
Qed.

(** C1.  With AI enabled and no user key, a request for at most 50 articles
    takes the free-tier branch, which leaves [cost_per_article] unassigned;
    building the ["cost_per_1000"] entry then reads it, since ["free"] is not
    a key of the pricing table: [calculate_pricing_tier] raises
    [UnboundLocalError] and returns no pricing decision. *)
Theorem calculate_pricing_tier_free_tier_raises (key : option string) (n : Z) :
  key_given key = false → n ≤ 50 →
  calculate_pricing_tier true key n =
    Raise (UnboundLocalError "local variable 'cost_per_article' referenced before assignment").
Proof.
  intros Hno_key Hfree. unfold calculate_pricing_tier.
  rewrite (branches_free key n Hno_key Hfree).
  cbn [l_tier l_cost_per_article]. rewrite pricing_free.
  reflexivity.
Qed.

Lemma calculate_pricing_tier_free_tier_raises_at_50 :
  calculate_pricing_tier true None 50 =
    Raise (UnboundLocalError "local variable 'cost_per_article' referenced before assignment").
Proof.
  apply (calculate_pricing_tier_free_tier_raises None 50); [reflexivity | lia].
Defined.

(** X1.  Past the free tier the first 50 articles are free and the others are
    billed at the built-in rate, 6 dollars per thousand. *)
Theorem built_in_tier_cost (key : option string) (n : Z) :
  key_given key = false → 50 < n →
  ∃ p, calculate_pricing_tier true key n = Ok p ∧
       tier p = "built_in_ai" ∧
       (cost_per_article p == 0.006)%Q ∧
       (total_cost p == inject_Z (n - 50) * cost_per_article p)%Q ∧
       (0 < total_cost p)%Q.
Proof.
  intros Hk Hn. unfold calculate_pricing_tier.
  rewrite (branches_built_in key n Hk Hn).
  cbn [l_tier l_cost_per_article l_total_cost l_description].
  rewrite pricing_built_in. cbn.
  eexists; split; [reflexivity|]. cbn.
  repeat split; try reflexivity.
  apply Qmult_lt_0_compat; [|reflexivity].
  change 0%Q with (inject_Z 0). rewrite <- Zlt_Qlt. lia.
Qed.

Lemma built_in_tier_cost_at_51 :
  ∃ p, calculate_pricing_tier true None 51 = Ok p ∧
       tier p = "built_in_ai" ∧
       (cost_per_article p == 0.006)%Q ∧
       (total_cost p == inject_Z (51 - 50) * cost_per_article p)%Q ∧
       (0 < total_cost p)%Q.
Proof.
  apply (built_in_tier_cost None 51); [reflexivity | lia].
Defined.

(** C6.  A request that resolves to the free tier is not answered as valid:
    [validate_request] first computes the pricing, which raises, so the
    exception leaves [validate_request] before any budget check. *)
Theorem validate_request_free_tier_raises (self : t) (daily_spend_limit : Q)
    (key : option string) (n : Z) :
  key_given key = false → n ≤ 50 →
  validate_request self daily_spend_limit true key n =
    Raise (UnboundLocalError "local variable 'cost_per_article' referenced before assignment").
Proof.
  intros Hk Hn. unfold validate_request.
  rewrite (free_tier_unbound_local key n Hk Hn). reflexivity.
Qed.


Lemma validate_request_free_tier_raises_at_3 :
  validate_request {| current_session_cost := 0; articles_processed := 0 |} 50 true None 3 =
    Raise (UnboundLocalError "local variable 'cost_per_article' referenced before assignment").
Proof.
  apply (validate_request_free_tier_raises _ 50 None 3); [reflexivity | lia].
Defined.

(** X2.  Outside the free tier [validate_request] answers, and it rejects
    exactly the built-in requests that meet an exhausted daily limit or ask
    for more articles than the remaining budget pays for; a request that is
    too large is rejected as asked (nothing is clamped) with the number of
    articles that remain as the suggestion; basic and BYOK requests are
    always valid. *)
Theorem validate_request_gate (self : t) (daily_spend_limit : Q) (enable_ai : bool)
    (key : option string) (n : Z) :
  branch_of enable_ai key n ≠ Free →
  let lim := check_daily_limits self daily_spend_limit in
  ∃ v, validate_request self daily_spend_limit enable_ai key n = Ok v ∧
       articles_count (v_pricing v) = n ∧
       (valid v = false ↔
          branch_of enable_ai key n = BuiltIn ∧
          (limit_exceeded lim = true ∨ articles_remaining lim < n)) ∧
       (valid v = true → estimated_cost v = Some (total_cost (v_pricing v))) ∧
       (∀ k, suggested_max_articles v = Some k →
             valid v = false ∧ k = articles_remaining lim ∧ k < n).
Proof.
  intros Hb lim.
  destruct (pricing_returns enable_ai key n Hb) as (p & Hp & Htier & Hcount).
  unfold validate_request. rewrite Hp. cbn [result_bind].
  rewrite Htier, branches_tier.
  change (check_daily_limits self daily_spend_limit) with lim. clearbody lim.
  destruct (branch_of enable_ai key n) eqn:Hbr; try congruence; cbn [String.eqb Ascii.eqb Bool.eqb];
    try (eexists; split; [reflexivity|]; cbn;
         repeat split; try congruence; try tauto; intros []; congruence).
  destruct (limit_exceeded lim) eqn:Hex.
  { eexists; split; [reflexivity|]; cbn. repeat split; try congruence; auto. }
  destruct (Z.ltb_spec (articles_remaining lim) n).
  - eexists; split; [reflexivity|]; cbn.
    repeat split; try congruence; auto; intros; simplify_eq; auto.
  - eexists; split; [reflexivity|]; cbn.
    repeat split; try congruence; auto.
    intros [_ [?|?]]; [congruence | lia].
Qed.

Lemma validate_request_gate_at_9000 :
  let self := {| current_session_cost := 0; articles_processed := 0 |} in
  let lim := check_daily_limits self 50 in
  ∃ v, validate_request self 50 true None 9000 = Ok v ∧
       articles_count (v_pricing v) = 9000 ∧
       (valid v = false ↔
          branch_of true None 9000 = BuiltIn ∧
          (limit_exceeded lim = true ∨ articles_remaining lim < 9000)) ∧
       (valid v = true → estimated_cost v = Some (total_cost (v_pricing v))) ∧
       (∀ k, suggested_max_articles v = Some k →
             valid v = false ∧ k = articles_remaining lim ∧ k < 9000).
Proof.
  apply (validate_request_gate _ 50 true None 9000). vm_compute. congruence.
Defined.

End CostManagerFacts.

(** * Properties of the analyzer *)

Module AnalyzerFacts.
Import AINewsAnalyzer Props.
#[local] Open Scope list_scope.

Section Tasks.

Context `{Collaborators}.

Implicit Types (s : state) (self : t).

(** Unfolding of the monad's operations. *)
Ltac unfold_monad :=
  unfold bind, ret, raise, lift, try_except, call_moderation, call_completion, now_isoformat in *.

Lemma moderate_content_returns text s :
  ∃ m s0, moderate_content text s = (Ok m, s0) ∧
          st_trace s0 = st_trace s ++ [ModerationCall text] ∧
          (∀ r w, moderations_create text (st_world s) = (Ok r, w) → flagged m = flagged r).
Proof.
  unfold moderate_content. unfold_monad.
  destruct (moderations_create text (st_world s)) as [[r|e] w] eqn:Hcall;
    eexists _, _; (split; [reflexivity|]); cbn; split; try reflexivity;
    intros r' w' [=]; subst; reflexivity.
Qed.

Lemma completion_block_trace self prompt max_output temperature s :
  st_trace (snd (completion_block self prompt max_output temperature s)) =
    st_trace s ++
      (if is_ok (count_tokens prompt)
       then [CompletionCall (model self) prompt max_output temperature] else []).
Proof.
  unfold completion_block. unfold_monad.
  destruct (count_tokens prompt) as [input_tokens|e]; cbn [is_ok];
    [|symmetry; apply app_nil_r].
  destruct (chat_completions_create _ _ _ _ _) as [[response|e] w]; [|reflexivity].
  destruct (result_text_of response); [|reflexivity].
  destruct (parsed_object a); reflexivity.
Qed.

Lemma analyze_sentiment_cases self text s :
  ∃ m s0, moderate_content text s = (Ok m, s0) ∧
    analyze_sentiment self text s =
      if flagged m then (Ok sentiment_flagged, s0)
      else match truncate_str text 2000 with
           | Raise e => (Raise e, s0)
           | Ok truncated =>
               match completion_block self (sentiment_prompt truncated) 200 0.1 s0 with
               | (Ok r, s1) =>
                   (Ok (<["moderation_flagged" := VBool false]>
                          (<["cost" := VFloat (fst r)]> (snd r))), s1)
               | (Raise e, s1) => (Ok (sentiment_failed e), s1)
               end
           end.
Proof.
  destruct (moderate_content_returns text s) as (m & s0 & Hm & _).
  exists m, s0. split; [exact Hm|].
  unfold analyze_sentiment, bind at 1. rewrite Hm.
  destruct (flagged m); [reflexivity|].
  unfold lift, bind at 1. destruct (truncate_str text 2000) as [truncated|e]; [|reflexivity].
  unfold try_except, bind at 1.
  destruct (completion_block _ _ _ _ _) as [[r|e] s1]; reflexivity.
Qed.

Lemma summarize_article_cases self (title content : string) s :
  ∃ m s0,
    moderate_content (take_chars 1000 (title +:+ nl +:+ nl +:+ content)) s = (Ok m, s0) ∧
    summarize_article self (VStr title) (VStr content) s =
      if flagged m then (Ok summary_flagged, s0)
      else match truncate_str content 2500 with
           | Raise e => (Raise e, s0)
           | Ok truncated =>
               match completion_block self (summary_prompt (VStr title) truncated)
                       300 0.2 s0 with
               | (Ok r, s1) =>
                   (Ok (<["moderation_flagged" := VBool false]>
                          (<["cost" := VFloat (fst r)]> (snd r))), s1)
               | (Raise e, s1) => (Ok summary_failed, s1)
               end
           end.
Proof.
  destruct (moderate_content_returns
              (take_chars 1000 (title +:+ nl +:+ nl +:+ content)) s) as (m & s0 & Hm & _).
  exists m, s0. split; [exact Hm|].
  unfold summarize_article, bind at 1. cbn [fmt]. rewrite Hm.
  destruct (flagged m); [reflexivity|].
  unfold truncate_text, lift, bind at 1.
  destruct (truncate_str content 2500) as [truncated|e]; [|reflexivity].
  unfold try_except, bind at 1.
  destruct (completion_block _ _ _ _ _) as [[r|e] s1]; reflexivity.
Qed.

Lemma classify_topics_cases self (title content : string) s :
  classify_topics self (VStr title) (VStr content) s =
    match truncate_str content 2000 with
    | Raise e => (Raise e, s)
    | Ok truncated =>
        match completion_block self (classification_prompt (VStr title) truncated)
                400 0.1 s with
        | (Ok r, s1) => (Ok (<["cost" := VFloat (fst r)]> (snd r)), s1)
        | (Raise e, s1) => (Ok classification_failed, s1)
        end
    end.
Proof.
  unfold classify_topics, truncate_text, lift, bind at 1.
  destruct (truncate_str content 2000) as [truncated|e]; [|reflexivity].
  unfold try_except, bind at 1.
  destruct (completion_block _ _ _ _ _) as [[r|e] s1]; reflexivity.
Qed.

Lemma truncate_str_raises text max_tokens e :
  truncate_str text max_tokens = Raise e ↔ encoding_encode text = Raise e.
Proof.
  unfold truncate_str. destruct (encoding_encode text) as [tokens|e']; cbn [result_bind].
  - destruct (_ <=? _)%nat; split; discriminate.
  - split; intros [= <-]; reflexivity.
Qed.

Lemma pricing_nonneg name pc :
  pricing !! name = Some pc → (0 <= input pc)%Q ∧ (0 <= output pc)%Q.
Proof.
  unfold pricing. intros Hl.
  repeat (apply lookup_insert_Some in Hl as [[_ <-]|[_ Hl]];
          [split; unfold Qle; cbn; lia|]).
  rewrite lookup_empty in Hl. discriminate.
Qed.

Lemma calculate_cost_nonneg self input_tokens output_tokens :
  (0 <= calculate_cost self input_tokens output_tokens)%Q.
Proof.
  unfold calculate_cost.
  destruct (pricing !! model self) as [pc|] eqn:Hl; [|apply Qle_refl].
  destruct (pricing_nonneg _ _ Hl) as [Hi Ho].
  assert (Hn : ∀ n : N, (0 <= inject_Z (Z.of_N n) / 1000)%Q).
  { intros n. apply Qle_shift_div_l; [reflexivity|].
    rewrite Qmult_0_l. change 0%Q with (inject_Z 0). rewrite <- Zle_Qle. lia. }
  pose proof (Qmult_le_0_compat _ _ (Hn input_tokens) Hi).
  pose proof (Qmult_le_0_compat _ _ (Hn output_tokens) Ho).
  lra.
Qed.

Lemma completion_block_cost self prompt max_output temperature s r s1 :
  completion_block self prompt max_output temperature s = (Ok r, s1) → (0 <= fst r)%Q.
Proof.
  unfold completion_block. unfold_monad.
  destruct (count_tokens prompt) as [input_tokens|e]; [|discriminate].
  destruct (chat_completions_create _ _ _ _ _) as [[response|e] w]; [|discriminate].
  destruct (result_text_of response); [|discriminate].
  destruct (parsed_object a); [|discriminate].
  intros [= <- _]. apply calculate_cost_nonneg.
Qed.

Lemma sentiment_flagged_entries :
  sentiment_flagged !! "moderation_flagged" = Some (VBool true) ∧
  sentiment_flagged !! "cost" = None.
Proof. split; reflexivity. Qed.

Lemma failed_costs e :
  sentiment_failed e !! "cost" = Some (VFloat 0) ∧
  summary_failed !! "cost" = Some (VFloat 0) ∧
  classification_failed !! "cost" = Some (VFloat 0).
Proof. repeat split; reflexivity. Qed.

(** C5.  The three analyses do propagate an exception: the prompt is built,
    and the text truncated, before the [try], so when the tokenizer refuses
    the text (as [tiktoken] does a text that holds a special token) its
    exception leaves [classify_topics], and leaves [analyze_sentiment] and
    [summarize_article] whenever moderation has not flagged the text.  No
    record is returned, and no completion call is made. *)
Theorem analysis_tasks_propagate_tokenizer_error self (text title content : string) s e e' :
  encoding_encode text = Raise e →
  encoding_encode content = Raise e' →
  (∀ m s0, moderate_content text s = (Ok m, s0) → flagged m = false →
           analyze_sentiment self text s = (Raise e, s0)) ∧
  (∀ m s0,
     moderate_content (take_chars 1000 (title +:+ nl +:+ nl +:+ content)) s = (Ok m, s0) →
     flagged m = false →
     summarize_article self (VStr title) (VStr content) s = (Raise e', s0)) ∧
  classify_topics self (VStr title) (VStr content) s = (Raise e', s).
Proof.
  intros Htext Hcontent.
  apply (truncate_str_raises text 2000) in Htext.
  pose proof (proj2 (truncate_str_raises content 2500 e') Hcontent) as Hsummary.
  apply (truncate_str_raises content 2000) in Hcontent.
  repeat split.
  - intros m s0 Hm Hflag.
    destruct (analyze_sentiment_cases self text s) as (m' & s0' & Hm' & ->).
    rewrite Hm in Hm'. injection Hm' as <- <-. rewrite Hflag, Htext. reflexivity.
  - intros m s0 Hm Hflag.
    destruct (summarize_article_cases self title content s) as (m' & s0' & Hm' & ->).
    rewrite Hm in Hm'. injection Hm' as <- <-. rewrite Hflag, Hsummary. reflexivity.
  - rewrite classify_topics_cases, Hcontent. reflexivity.
Qed.

(** X22.  When the tokenizer accepts the text, each of the three analyses
    returns a record and raises nothing, whatever the service does; when
    the [try] block fails (the tokenizer refuses the prompt, the completion
    call raises, or its answer cannot be parsed) the record is the fallback
    of the analysis, whose cost is 0. *)
Theorem analysis_tasks_return_when_tokenized self (text title content : string) s
    (truncated_text summary_text classification_text : string) :
  truncate_str text 2000 = Ok truncated_text →
  truncate_str content 2500 = Ok summary_text →
  truncate_str content 2000 = Ok classification_text →
  (∃ d s', analyze_sentiment self text s = (Ok d, s') ∧
     ∀ m s0 e s1,
       moderate_content text s = (Ok m, s0) → flagged m = false →
       completion_block self (sentiment_prompt truncated_text) 200 0.1 s0 = (Raise e, s1) →
       d = sentiment_failed e ∧ d !! "cost" = Some (VFloat 0) ∧ s' = s1) ∧
  (∃ d s', summarize_article self (VStr title) (VStr content) s = (Ok d, s') ∧
     ∀ m s0 e s1,
       moderate_content (take_chars 1000 (title +:+ nl +:+ nl +:+ content)) s = (Ok m, s0) →
       flagged m = false →
       completion_block self (summary_prompt (VStr title) summary_text) 300 0.2 s0
         = (Raise e, s1) →
       d = summary_failed ∧ d !! "cost" = Some (VFloat 0) ∧ s' = s1) ∧
  (∃ d s', classify_topics self (VStr title) (VStr content) s = (Ok d, s') ∧
     ∀ e s1,
       completion_block self (classification_prompt (VStr title) classification_text)
         400 0.1 s = (Raise e, s1) →
       d = classification_failed ∧ d !! "cost" = Some (VFloat 0) ∧ s' = s1).
Proof.
  intros Htext Hsummary Hclassification.
  repeat split.
  - destruct (analyze_sentiment_cases self text s) as (m & s0 & Hm & ->).
    rewrite Htext. destruct (flagged m) eqn:Hf.
    + eexists _, _; split; [reflexivity|].
      intros m' s0' e s1 Hm'. rewrite Hm in Hm'. injection Hm' as <- <-. congruence.
    + destruct (completion_block _ _ _ _ s0) as [[r|e] s1] eqn:Hb;
        (eexists _, _; split; [reflexivity|]);
        intros m' s0' e' s1' Hm'; rewrite Hm in Hm'; injection Hm' as <- <-;
        intros _ Hb'; rewrite Hb in Hb'; [discriminate|].
      injection Hb' as <- <-. repeat split; apply failed_costs.
  - destruct (summarize_article_cases self title content s) as (m & s0 & Hm & ->).
    rewrite Hsummary. destruct (flagged m) eqn:Hf.
    + eexists _, _; split; [reflexivity|].
      intros m' s0' e s1 Hm'. rewrite Hm in Hm'. injection Hm' as <- <-. congruence.
    + destruct (completion_block _ _ _ _ s0) as [[r|e] s1] eqn:Hb;
        (eexists _, _; split; [reflexivity|]);
        intros m' s0' e' s1' Hm'; rewrite Hm in Hm'; injection Hm' as <- <-;
        intros _ Hb'; rewrite Hb in Hb'; [discriminate|].
      injection Hb' as <- <-. repeat split.
  - rewrite classify_topics_cases, Hclassification.
    destruct (completion_block _ _ _ _ s) as [[r|e] s1] eqn:Hb;
      (eexists _, _; split; [reflexivity|]); intros e' s1' [=]; subst.
    repeat split.
Qed.

(** C3.  When moderation flags the text, [analyze_sentiment] returns its
    flagged record, and that record has no [cost] entry (the flagged record
    of [summarize_article] has one, set to 0). *)
Theorem flagged_sentiment_has_no_cost self text s r w :
  moderations_create text (st_world s) = (Ok r, w) → flagged r = true →
  ∃ d s', analyze_sentiment self text s = (Ok d, s') ∧
          d !! "moderation_flagged" = Some (VBool true) ∧
          d !! "cost" = None ∧
          summary_flagged !! "cost" = Some (VFloat 0).
Proof.
  intros Hcall Hflag.
  destruct (analyze_sentiment_cases self text s) as (m & s0 & Hm & ->).
  destruct (moderate_content_returns text s) as (m' & s0' & Hm' & _ & Hsame).
  rewrite Hm in Hm'. injection Hm' as <- <-.
  rewrite (Hsame r w Hcall), Hflag.
  eexists _, _. split; [reflexivity|]. repeat split.
Qed.

(** X3.  The cost entry of the other records: the records of [summarize_article]
    and [classify_topics], and the unflagged records of [analyze_sentiment],
    carry a cost that is a non-negative number, and it is 0 in a flagged
    summary. *)
Theorem task_costs_nonnegative self (text title content : string) s :
  (∀ d s', analyze_sentiment self text s = (Ok d, s') →
           d !! "moderation_flagged" = Some (VBool false) →
           ∃ c, d !! "cost" = Some (VFloat c) ∧ (0 <= c)%Q) ∧
  (∀ d s', summarize_article self (VStr title) (VStr content) s = (Ok d, s') →
           ∃ c, d !! "cost" = Some (VFloat c) ∧ (0 <= c)%Q ∧
                (d !! "moderation_flagged" = Some (VBool true) → c = 0%Q)) ∧
  (∀ d s', classify_topics self (VStr title) (VStr content) s = (Ok d, s') →
           ∃ c, d !! "cost" = Some (VFloat c) ∧ (0 <= c)%Q).
Proof.
  repeat split.
  - intros d s'. destruct (analyze_sentiment_cases self text s) as (m & s0 & _ & ->).
    destruct (flagged m).
    { intros [= <- <-]. discriminate. }
    destruct (truncate_str text 2000) as [truncated|e]; [|discriminate].
    destruct (completion_block _ _ _ _ s0) as [[r|e] s1] eqn:Hb; intros [= <- <-] _.
    + exists (fst r). rewrite lookup_insert_ne, lookup_insert_eq by discriminate.
      split; [reflexivity|]. eapply completion_block_cost, Hb.
    + exists 0%Q. split; [reflexivity | apply Qle_refl].
  - intros d s'. destruct (summarize_article_cases self title content s) as (m & s0 & _ & ->).
    destruct (flagged m).
    { intros [= <- <-]. exists 0%Q. repeat split. apply Qle_refl. }
    destruct (truncate_str content 2500) as [truncated|e]; [|discriminate].
    destruct (completion_block _ _ _ _ s0) as [[r|e] s1] eqn:Hb; intros [= <- <-].
    + exists (fst r). rewrite lookup_insert_ne, lookup_insert_eq by discriminate.
      split; [reflexivity|]. split; [eapply completion_block_cost, Hb|].
      rewrite lookup_insert_eq. discriminate.
    + exists 0%Q. repeat split. apply Qle_refl.
  - intros d s'. rewrite classify_topics_cases.
    destruct (truncate_str content 2000) as [truncated|e]; [|discriminate].
    destruct (completion_block _ _ _ _ s) as [[r|e] s1] eqn:Hb; intros [= <- <-].
    + exists (fst r). rewrite lookup_insert_eq.
      split; [reflexivity|]. eapply completion_block_cost, Hb.
    + exists 0%Q. split; [reflexivity | apply Qle_refl].
Qed.

(** C4.  [classify_topics] makes no moderation call, whatever moderation
    would say of the text: the only call it ever makes to the service is a
    completion call.  When the tokenizer accepts the text and the prompt,
    it makes exactly one call, the completion call on the title and the
    text it was given. *)
Theorem classify_topics_skips_moderation self (title content : string) s :
  ∃ calls,
    st_trace (snd (classify_topics self (VStr title) (VStr content) s)) =
      st_trace s ++ calls ∧
    Forall (λ call, is_completion call = true) calls ∧
    ∀ truncated,
      truncate_str content 2000 = Ok truncated →
      is_ok (count_tokens (classification_prompt (VStr title) truncated)) = true →
      calls =
        [CompletionCall (model self) (classification_prompt (VStr title) truncated) 400 0.1].
Proof.
  rewrite classify_topics_cases.
  destruct (truncate_str content 2000) as [truncated|e].
  - pose proof (completion_block_trace self
                  (classification_prompt (VStr title) truncated) 400 0.1 s) as Ht.
    eexists. split.
    + destruct (completion_block _ _ _ _ s) as [[r|e] s1]; exact Ht.
    + split.
      * destruct (is_ok _); repeat constructor.
      * intros truncated' [= <-] ->. reflexivity.
  - exists []. split; [symmetry; apply app_nil_r|]. split; [constructor | discriminate].
Qed.

(** X4.  [analyze_sentiment] and [summarize_article] call moderation first
    ([summarize_article] on the first 1000 characters).  When it flags the
    text they return the flagged record and make no other call.  Otherwise
    the text is truncated: if the tokenizer refuses it, its exception
    propagates and no other call is made; if not, the completion call
    follows, unless the tokenizer refuses the prompt. *)
Theorem moderation_gates_completion self (text title content : string) s :
  (∃ m s0 calls,
     moderate_content text s = (Ok m, s0) ∧
     st_trace (snd (analyze_sentiment self text s)) =
       st_trace s ++ ModerationCall text :: calls ∧
     if flagged m
     then calls = [] ∧ fst (analyze_sentiment self text s) = Ok sentiment_flagged
     else match truncate_str text 2000 with
          | Raise e => calls = [] ∧ fst (analyze_sentiment self text s) = Raise e
          | Ok truncated =>
              calls =
                if is_ok (count_tokens (sentiment_prompt truncated))
                then [CompletionCall (model self) (sentiment_prompt truncated) 200 0.1]
                else []
          end) ∧
  (let checked := take_chars 1000 (title +:+ nl +:+ nl +:+ content) in
   ∃ m s0 calls,
     moderate_content checked s = (Ok m, s0) ∧
     st_trace (snd (summarize_article self (VStr title) (VStr content) s)) =
       st_trace s ++ ModerationCall checked :: calls ∧
     if flagged m
     then calls = [] ∧
          fst (summarize_article self (VStr title) (VStr content) s) = Ok summary_flagged
     else match truncate_str content 2500 with
          | Raise e =>
              calls = [] ∧
              fst (summarize_article self (VStr title) (VStr content) s) = Raise e
          | Ok truncated =>
              calls =
                if is_ok (count_tokens (summary_prompt (VStr title) truncated))
                then [CompletionCall (model self) (summary_prompt (VStr title) truncated)
                        300 0.2]
                else []
          end).
Proof.
  split; [|intros checked].
  - destruct (analyze_sentiment_cases self text s) as (m & s0 & Hm & ->).
    destruct (moderate_content_returns text s) as (m' & s0' & Hm' & Ht & _).
    rewrite Hm in Hm'. injection Hm' as <- <-.
    exists m, s0. destruct (flagged m).
    { exists []. split; [exact Hm|]. cbn [snd fst]. rewrite Ht. auto. }
    destruct (truncate_str text 2000) as [truncated|e].
    + pose proof (completion_block_trace self (sentiment_prompt truncated) 200 0.1 s0) as Hc.
      eexists. split; [exact Hm|]. split; [|reflexivity].
      destruct (completion_block _ _ _ _ s0) as [[r|e] s1]; cbn [snd] in *;
        rewrite Hc, Ht, <- app_assoc; reflexivity.
    + exists []. split; [exact Hm|]. cbn [snd fst]. rewrite Ht. auto.
  - destruct (summarize_article_cases self title content s) as (m & s0 & Hm & ->).
    destruct (moderate_content_returns checked s) as (m' & s0' & Hm' & Ht & _).
    fold checked in Hm. rewrite Hm in Hm'. injection Hm' as <- <-.
    exists m, s0. destruct (flagged m).
    { exists []. split; [exact Hm|]. cbn [snd fst]. rewrite Ht. auto. }
    destruct (truncate_str content 2500) as [truncated|e].
    + pose proof (completion_block_trace self
                    (summary_prompt (VStr title) truncated) 300 0.2 s0) as Hc.
      eexists. split; [exact Hm|]. split; [|reflexivity].
      destruct (completion_block _ _ _ _ s0) as [[r|e] s1]; cbn [snd] in *;
        rewrite Hc, Ht, <- app_assoc; reflexivity.
    + exists []. split; [exact Hm|]. cbn [snd fst]. rewrite Ht. auto.
Qed.

End Tasks.

Section Articles.
Context `{Collaborators}.
Implicit Types (s : state) (self : t).

Lemma analyze_article_inv self article include_content s an s' :
  analyze_article self article include_content s = (Ok an, s') →
  ∃ sentiment classification summarization total_cost title_lower magnitude strong
    analyzed_at word_count reading_time,
    py_lower (dict_get article "title" (VStr "")) = Ok title_lower ∧
    py_abs (dict_get sentiment "score" (VInt 0)) = Ok magnitude ∧
    py_gt magnitude 0.7 = Ok strong ∧
    an = list_to_map
           [("article_id", VStr (article_id article include_content));
            ("analyzed_at", VStr analyzed_at);
            ("sentiment", VDict sentiment);
            ("classification", VDict classification);
            ("summarization", VDict summarization);
            ("trending_score",
             VFloat (min1 (trending_score
                             (contains "breaking" title_lower || contains "urgent" title_lower)
                             strong)));
            ("total_cost", total_cost);
            ("word_count", VInt word_count);
            ("reading_time", VStr reading_time)].
Proof.
  unfold analyze_article, article_id.
  unfold bind, lift, ret, raise, now_isoformat.
  destruct (py_len _) as [n|]; [|discriminate].
  destruct (gather _ s) as [[results|e] s1]; [|discriminate].
  destruct results as [|sentiment [|classification [|summarization [|]]]]; try discriminate.
  destruct (result_bind _ _) as [total_cost|]; [|discriminate].
  destruct (py_lower _) as [title_lower|] eqn:Hlower; [|discriminate].
  destruct (py_abs _) as [magnitude|] eqn:Habs; [|discriminate].
  destruct (py_gt _ _) as [strong|] eqn:Hgt; [|discriminate].
  destruct (datetime_now_isoformat _) as [analyzed_at w].
  destruct (if truthy _ then py_split_len _ else _) as [word_count|]; [|discriminate].
  destruct (if truthy _ then result_bind _ _ else _) as [reading_time|]; [|discriminate].
  intros [= <- <-].
  exists sentiment, classification, summarization, total_cost, title_lower, magnitude, strong,
    analyzed_at, word_count, reading_time.
  repeat split; assumption.
Qed.

Lemma analysis_entries (article_id analyzed_at reading_time : string)
    (sentiment classification summarization : gmap string value)
    (ts : Q) (total_cost : value) (word_count : Z) :
  let an : gmap string value :=
    list_to_map
      [("article_id", VStr article_id); ("analyzed_at", VStr analyzed_at);
       ("sentiment", VDict sentiment); ("classification", VDict classification);
       ("summarization", VDict summarization); ("trending_score", VFloat ts);
       ("total_cost", total_cost); ("word_count", VInt word_count);
       ("reading_time", VStr reading_time)] in
  an !! "article_id" = Some (VStr article_id) ∧
  an !! "sentiment" = Some (VDict sentiment) ∧
  an !! "trending_score" = Some (VFloat ts) ∧
  an !! "error" = None ∧
  forallb (has_key an) analysis_keys = true.
Proof.
  cbn [list_to_map foldr uncurry fst snd curry]. unfold has_key, analysis_keys. cbn [forallb].
  repeat first
    [ rewrite lookup_insert_eq
    | rewrite lookup_insert_ne by discriminate
    | rewrite lookup_empty ].
  repeat split.
Qed.

Lemma prefix_lower (n h : string) :
  String.prefix n h = true → String.prefix (lower n) (lower h) = true.
Proof.
  revert h. induction n as [|a n IH]; intros h; destruct h as [|b h]; cbn; try reflexivity;
    try discriminate.
  destruct (ascii_dec a b) as [->|]; [|discriminate].
  intros Hp. destruct (ascii_dec _ _); [auto | congruence].
Qed.

Lemma contains_lower (n h : string) :
  contains n h = true → contains (lower n) (lower h) = true.
Proof.
  induction h as [|b h IH]; cbn.
  - rewrite !orb_false_r. apply (prefix_lower n "").
  - intros [Hp|Hc]%orb_true_iff.
    + apply (prefix_lower n (String b h)) in Hp. cbn in Hp. rewrite Hp. reflexivity.
    + rewrite (IH Hc). apply orb_true_r.
Qed.

(** A title that contains an urgency marker in any case passes the test. *)
Lemma marker_is_urgent (marker title : string) :
  lower marker = "breaking" ∨ lower marker = "urgent" →
  contains marker title = true → urgent_title title = true.
Proof.
  intros Hm Hc%contains_lower. unfold urgent_title.
  destruct Hm as [Hm|Hm]; rewrite Hm in Hc; rewrite Hc; [reflexivity | apply orb_true_r].
Qed.

Lemma magnitude_test v magnitude strong :
  py_abs v = Ok magnitude → py_gt magnitude 0.7 = Ok strong →
  ∃ score, as_number v = Some score ∧ strong = negb (Qle_bool (Qabs score) 0.7).
Proof.
  destruct v as [|b|z|q| | |]; try discriminate; intros [= <-] [= <-].
  - exists (if b then 1 else 0)%Q. destruct b; split; reflexivity.
  - exists (inject_Z z). split; reflexivity.
  - exists q. split; reflexivity.
Qed.

Lemma min1_trending urgent strong :
  (min1 (trending_score urgent strong) == specified_trending urgent strong)%Q ∧
  (min1 (trending_score urgent strong) <= 1)%Q ∧
  (urgent = true →
   (min1 (trending_score urgent strong) == if strong then 1 else 0.8)%Q).
Proof.
  destruct urgent, strong; vm_compute; repeat split; congruence.
Qed.

(** C9.  The trending score of an analysis is 0.5, plus 0.3 when the
    lowercased title contains "breaking" or "urgent", plus 0.2 when the
    absolute value of the sentiment score exceeds 0.7, capped at 1: a title
    containing a marker in any case gives 0.8 with a sentiment score of
    magnitude at most 0.7, and 1 with a larger magnitude. *)
Theorem trending_score_formula self article include_content s an s' :
  analyze_article self article include_content s = (Ok an, s') →
  ∃ title sentiment score ts,
    dict_get article "title" (VStr "") = VStr title ∧
    an !! "sentiment" = Some (VDict sentiment) ∧
    as_number (dict_get sentiment "score" (VInt 0)) = Some score ∧
    an !! "trending_score" = Some (VFloat ts) ∧
    (ts == specified_trending (urgent_title title) (negb (Qle_bool (Qabs score) 0.7)))%Q ∧
    (ts <= 1)%Q ∧
    (∀ marker,
       lower marker = "breaking" ∨ lower marker = "urgent" →
       contains marker title = true →
       (Qabs score <= 0.7 → ts == 0.8)%Q ∧ (0.7 < Qabs score → ts == 1)%Q).
Proof.
  intros Hrun.
  destruct (analyze_article_inv _ _ _ _ _ _ Hrun)
    as (sentiment & classification & summarization & total_cost & title_lower & magnitude
        & strong & analyzed_at & word_count & reading_time & Hlower & Habs & Hgt & ->).
  destruct (dict_get article "title" (VStr "")) as [| | | |title| |] eqn:Htitle;
    try discriminate.
  injection Hlower as <-.
  destruct (magnitude_test _ _ _ Habs Hgt) as (score & Hscore & ->).
  destruct (analysis_entries (article_id article include_content) analyzed_at reading_time
              sentiment classification summarization
              (min1 (trending_score (urgent_title title) (negb (Qle_bool (Qabs score) 0.7))))
              total_cost word_count) as (_ & Hs & Ht & _).
  exists title, sentiment, score,
    (min1 (trending_score (urgent_title title) (negb (Qle_bool (Qabs score) 0.7)))).
  destruct (min1_trending (urgent_title title) (negb (Qle_bool (Qabs score) 0.7)))
    as (Hspec & Hcap & Hurgent).
  do 6 (split; [assumption || reflexivity|]).
  intros marker Hmarker Hin.
  specialize (Hurgent (marker_is_urgent _ _ Hmarker Hin)).
  split.
  - intros Hle. rewrite Hurgent.
    apply Qle_bool_iff in Hle. rewrite Hle. reflexivity.
  - intros Hlt. rewrite Hurgent.
    destruct (Qle_bool (Qabs score) 0.7) eqn:Hb; [|reflexivity].
    apply Qle_bool_iff in Hb. exfalso. apply (Qlt_not_le _ _ Hlt Hb).
Qed.


(** C8 as amended.  The identifier of an analysis is a function of the title
    and of the analysed text alone: two runs of [analyze_article], on
    articles with the same title and the same analysed text, give the same
    identifier, whatever the service answers; it is the first 16 characters
    of the SHA-256 hex digest of the title followed by the text. *)
Theorem article_id_deterministic self a1 a2 ic1 ic2 s1 s2 an1 an2 s1' s2' :
  dict_get a1 "title" (VStr "") = dict_get a2 "title" (VStr "") →
  chosen_content a1 ic1 = chosen_content a2 ic2 →
  analyze_article self a1 ic1 s1 = (Ok an1, s1') →
  analyze_article self a2 ic2 s2 = (Ok an2, s2') →
  an1 !! "article_id" = an2 !! "article_id" ∧
  an1 !! "article_id" =
    Some (VStr (take_prefix 16
                  (Sha256.hexdigest (fmt (dict_get a1 "title" (VStr "")) +:+
                                     fmt (chosen_content a1 ic1))))).
Proof.
  intros Htitle Hcontent Hrun1 Hrun2.
  destruct (analyze_article_inv _ _ _ _ _ _ Hrun1)
    as (se1 & cl1 & su1 & tc1 & tl1 & mg1 & st1 & at1 & wc1 & rt1 & _ & _ & _ & ->).
  destruct (analyze_article_inv _ _ _ _ _ _ Hrun2)
    as (se2 & cl2 & su2 & tc2 & tl2 & mg2 & st2 & at2 & wc2 & rt2 & _ & _ & _ & ->).
  edestruct analysis_entries as (-> & _).
  edestruct analysis_entries as (-> & _).
  unfold article_id, article_id_of. rewrite Htitle, Hcontent. split; reflexivity.
Qed.

(** C7 as amended.  The analysed text is the body when [include_content]
    is set and the summary when it is not, and the title whenever that text
    is empty or missing; it is not empty when the title is not.  It is the
    text the specification names except when the body is asked for and
    empty while the summary is not: the title is then used. *)
Theorem chosen_content_cases (article : gmap string value) (include_content : bool) :
  let title := dict_get article "title" (VStr "") in
  let body := dict_get article "content" (VStr "") in
  let summary := dict_get article "summary" (VStr "") in
  let primary := if include_content then body else summary in
  chosen_content article include_content = (if truthy primary then primary else title) ∧
  (truthy title = true → truthy (chosen_content article include_content) = true) ∧
  (chosen_content article include_content = specified_content article include_content ∨
   include_content = true ∧ truthy body = false ∧ truthy summary = true ∧
   chosen_content article include_content = title).
Proof.
  unfold chosen_content, specified_content. cbn zeta.
  destruct include_content; cbn [andb];
    destruct (truthy (dict_get article "content" (VStr ""))) eqn:Hb;
    destruct (truthy (dict_get article "summary" (VStr ""))) eqn:Hs;
    cbn [negb]; repeat split; auto.
Qed.


(** *** The batch *)

Lemma analyze_with_limit_returns self include_content article s :
  ∃ record s',
    analyze_with_limit self include_content article s = (Ok record, s') ∧
    record_for article (fst (analyze_article self article include_content s)) record.
Proof.
  unfold analyze_with_limit, try_except, bind at 1.
  destruct (analyze_article self article include_content s) as [[an|e] s1]; cbn [fst].
  - eexists _, _. split; reflexivity.
  - unfold bind, now_isoformat, ret.
    destruct (datetime_now_isoformat _) as [analyzed_at w].
    eexists _, _. split; [reflexivity|]. exists analyzed_at. reflexivity.
Qed.

Lemma gather_records self include_content articles s :
  ∃ records s',
    gather_return_exceptions (List.map (analyze_with_limit self include_content) articles) s
      = (Ok (List.map Ok records), s') ∧
    Forall3 record_for articles (analysis_outcomes self include_content articles s) records.
Proof.
  revert s. induction articles as [|article rest IH]; intros s.
  - exists [], s. split; [reflexivity | constructor].
  - cbn [List.map gather_return_exceptions analysis_outcomes].
    destruct (analyze_with_limit_returns self include_content article s)
      as (record & s1 & Hrun & Hrec).
    rewrite Hrun. cbn [snd].
    destruct (IH s1) as (records & s' & Hrest & Hall).
    rewrite Hrest. exists (record :: records), s'.
    split; [reflexivity | constructor; assumption].
Qed.

Lemma successes_of_ok {A} (l : list A) : successes (List.map Ok l) = l.
Proof. induction l as [|a l IH]; [reflexivity|]. cbn. unfold successes in IH. rewrite IH. reflexivity. Qed.

Lemma batch_analyze_records self articles max_concurrent include_content s :
  0 < max_concurrent →
  ∃ records s',
    batch_analyze self articles max_concurrent include_content s = (Ok records, s') ∧
    Forall3 record_for articles (analysis_outcomes self include_content articles s) records.
Proof.
  intros Hpermits.
  destruct (gather_records self include_content articles s) as (records & s' & Hrun & Hall).
  exists records, s'. split; [|exact Hall].
  unfold batch_analyze, new_semaphore, bind, lift, ret.
  destruct (Z.ltb_spec max_concurrent 0); [lia|].
  rewrite Hrun, successes_of_ok. reflexivity.
Qed.

Lemma error_marker_entries e analyzed_at :
  error_marker e analyzed_at !! "error" = Some (VStr (exn_msg e)) ∧
  error_marker e analyzed_at !! "total_cost" = Some (VFloat 0) ∧
  forallb (has_key (error_marker e analyzed_at)) analysis_keys = false.
Proof. repeat split. Qed.

Lemma record_for_shows self article include_content s record :
  record_for article (fst (analyze_article self article include_content s)) record →
  record_shows (fst (analyze_article self article include_content s)) record.
Proof.
  destruct (analyze_article self article include_content s) as [[an|e] s1] eqn:Hrun;
    cbn [fst record_for record_shows].
  - intros ->.
    destruct (analyze_article_inv _ _ _ _ _ _ Hrun)
      as (se & cl & su & tc & tl & mg & st & at' & wc & rt & _ & _ & _ & Han).
    unfold has_complete_analysis, has_error_marker, analysis_of, has_key at 2 3.
    rewrite lookup_insert_eq.
    edestruct analysis_entries as (_ & _ & _ & Herr & Hall).
    rewrite <- Han in Herr, Hall. rewrite Hall, Herr. repeat split.
  - intros [analyzed_at ->].
    unfold has_complete_analysis, has_error_marker, analysis_of.
    rewrite lookup_insert_eq.
    destruct (error_marker_entries e analyzed_at) as (Herr & Hcost & Hall).
    rewrite Hall. unfold has_key. rewrite Herr. repeat split.
    exists (error_marker e analyzed_at). repeat split.
Qed.


Lemma outcomes_shown self include_content articles s records :
  Forall3 record_for articles (analysis_outcomes self include_content articles s) records →
  Forall2 record_shows (analysis_outcomes self include_content articles s) records.
Proof.
  revert s records. induction articles as [|article rest IH]; intros s records Hall;
    cbn [analysis_outcomes] in *; inversion Hall; subst; constructor.
  - apply record_for_shows. assumption.
  - apply IH. assumption.
Qed.

Lemma shown_counts outcomes records :
  Forall2 record_shows outcomes records →
  count_if has_error_marker records = count_if raised outcomes ∧
  count_if has_complete_analysis records = count_if is_ok outcomes ∧
  (count_if raised outcomes + count_if is_ok outcomes)%nat = List.length records.
Proof.
  unfold count_if.
  induction 1 as [|outcome record outcomes records Hshow _ (IH1 & IH2 & IH3)];
    [repeat split|].
  cbn [List.filter].
  destruct outcome as [an|e]; cbn [record_shows is_ok] in *.
  - destruct Hshow as (_ & -> & ->). change (raised (Ok an)) with false.
    cbn [List.length]. rewrite IH1, IH2. repeat split. lia.
  - destruct Hshow as (-> & -> & _). change (raised (Raise e)) with true.
    cbn [List.length]. rewrite IH1, IH2. repeat split. lia.
Qed.

(** C2.  With a positive [max_concurrent], [batch_analyze] returns, never
    raising, one record per article, in order; the record made from an analysis that raised carries an error
    marker with the message of the exception and a total cost of 0, the
    record made from an analysis that returned carries that complete
    analysis and no error marker.  So there are as many error markers as
    analyses that raised: when exactly one raises, exactly one record has an
    error marker and the other records carry complete analyses. *)
Theorem batch_analyze_isolates_failures self articles max_concurrent include_content s :
  0 < max_concurrent →
  let outcomes := analysis_outcomes self include_content articles s in
  ∃ records s',
    batch_analyze self articles max_concurrent include_content s = (Ok records, s') ∧
    List.length records = List.length articles ∧
    Forall2 record_shows outcomes records ∧
    count_if has_error_marker records = count_if raised outcomes ∧
    (count_if raised outcomes = 1%nat →
     count_if has_error_marker records = 1%nat ∧
     count_if has_complete_analysis records = (List.length articles - 1)%nat).
Proof.
  intros Hpermits outcomes.
  destruct (batch_analyze_records self articles max_concurrent include_content s Hpermits)
    as (records & s' & Hrun & Hall).
  exists records, s'. split; [exact Hrun|].
  pose proof (outcomes_shown _ _ _ _ _ Hall) as Hshown. fold outcomes in Hshown.
  destruct (shown_counts _ _ Hshown) as (Herr & Hok & Hlen).
  assert (List.length records = List.length articles) as Hn.
  { clear -Hall. induction Hall; cbn; congruence. }
  repeat split; try assumption.
  - rewrite Herr. assumption.
  - rewrite Hok. lia.
Qed.

(** C10.  With a positive [max_concurrent], the record [batch_analyze]
    returns for an article is the article with its
    [analysis] entry set, whether to the analysis or to the error marker:
    every other entry of the record is the entry of the article. *)
Theorem batch_analyze_frame self articles max_concurrent include_content s :
  0 < max_concurrent →
  ∃ records s',
    batch_analyze self articles max_concurrent include_content s = (Ok records, s') ∧
    Forall2
      (λ article record : gmap string value,
         (∃ analysis, record = <["analysis" := VDict analysis]> article) ∧
         ∀ k, k ≠ "analysis" → record !! k = article !! k)
      articles records.
Proof.
  intros Hpermits.
  destruct (batch_analyze_records self articles max_concurrent include_content s Hpermits)
    as (records & s' & Hrun & Hall).
  exists records, s'. split; [exact Hrun|]. clear Hrun.
  induction Hall as [|article outcome record articles outcomes records Hrec _ IH];
    [constructor|].
  constructor; [|exact IH].
  assert (∃ analysis, record = <["analysis" := VDict analysis]> article) as [analysis ->].
  { destruct outcome as [an|e]; cbn in Hrec; [eauto|].
    destruct Hrec as [analyzed_at ->]. eauto. }
  split; [eauto|]. intros k Hk. apply lookup_insert_ne. congruence.
Qed.

End Articles.
End AnalyzerFacts.

(** * The properties on concrete runs *)

Module Scenarios.
Import AINewsAnalyzer Props AnalyzerFacts.
#[local] Existing Instance Mock.collaborators.

Example sha256_abc :
  Sha256.hexdigest "abc" = "ba7816bf8f01cfea414140de5dae2223b00361a396177a9cb410ff61f20015ad".
Proof. vm_compute. reflexivity. Qed.

Example sha256_empty :
  Sha256.hexdigest "" = "e3b0c44298fc1c149afbf4c8996fb92427ae41e4649b934ca495991b7852b855".
Proof. vm_compute. reflexivity. Qed.

(** A run that did not raise returned its output. *)
(** Characters and bytes: an accented letter is one character of two
    bytes. *)
Example character_examples :
  String.length "café" = 5%nat ∧ py_len (VStr "café") = Ok 4 ∧
  take_chars 3 "café" = "caf" ∧ take_chars 4 "café!" = "café" ∧
  take_chars 1000 "café" = "café".
Proof. vm_compute. repeat split. Qed.

Lemma returned (run : result (gmap string value) * state) :
  is_ok (fst run) = true → run = (Ok (Mock.output run), snd run).
Proof. destruct run as [[d|e] s]; [reflexivity | discriminate]. Qed.

Example re_search_braces_examples :
  re_search_braces "Sure: {a} and {b}. Bye" = Some "{a} and {b}" ∧
  re_search_braces "} no object {" = None ∧
  re_search_braces "plain prose" = None.
Proof. repeat split. Qed.

Example string_method_examples :
  lower "BREAKING: Fed Meets" = "breaking: fed meets" ∧
  contains "urgent" (lower "An URGENT call") = true ∧
  contains "breaking" (lower "Heartbreak") = false ∧
  strip "  {x}  " = "{x}" ∧
  count_words false "  two   words " = 2%nat ∧
  take_prefix 3 "abcdef" = "abc".
Proof. repeat split. Qed.

(** A text that moderation flags: the sentiment record has no cost. *)
Lemma flagged_sentiment_has_no_cost_on_unsafe_text :
  moderations_create "[unsafe] text" (st_world Mock.start)
    = (Ok {| flagged := true; categories := None; category_scores := None |}, 1%nat) ∧
  ∃ d s', analyze_sentiment Mock.analyzer "[unsafe] text" Mock.start = (Ok d, s') ∧
          d !! "moderation_flagged" = Some (VBool true) ∧
          d !! "cost" = None ∧
          summary_flagged !! "cost" = Some (VFloat 0).
Proof.
  split; [reflexivity|].
  apply (@flagged_sentiment_has_no_cost Mock.collaborators Mock.analyzer "[unsafe] text"
           Mock.start {| flagged := true; categories := None; category_scores := None |} 1%nat);
    reflexivity.
Defined.

(** The flagged text reaches the completion call of [classify_topics]. *)
Example flagged_text_is_classified :
  fst (moderations_create "[unsafe] text" (st_world Mock.start))
    = Ok {| flagged := true; categories := None; category_scores := None |} ∧
  List.map is_completion
    (st_trace (snd (classify_topics Mock.analyzer (VStr "t") (VStr "[unsafe] text") Mock.start)))
    = [true].
Proof. split; vm_compute; reflexivity. Qed.

(** C7: with the body asked for and missing, the title is analysed, not
    the summary. *)
Lemma missing_body_falls_back_to_title :
  chosen_content Mock.story_without_body true = VStr "Title" ∧
  specified_content Mock.story_without_body true = VStr "Summary" ∧
  chosen_content Mock.story_without_body true ≠ specified_content Mock.story_without_body true.
Proof. vm_compute. repeat split. discriminate. Qed.

(** C8: distinct (title, body) pairs with one identifier: the title and the
    text are hashed end to end, and the body is not hashed when the summary
    is the text analysed. *)
Lemma article_id_collisions :
  (Mock.story_ab_c !! "title", Mock.story_ab_c !! "content")
    ≠ (Mock.story_a_bc !! "title", Mock.story_a_bc !! "content") ∧
  Mock.output (analyze_article Mock.analyzer Mock.story_ab_c true Mock.start) !! "article_id"
    = Some (VStr (article_id Mock.story_ab_c true)) ∧
  article_id Mock.story_ab_c true = article_id Mock.story_a_bc true ∧
  Mock.story_body_one !! "content" ≠ Mock.story_body_two !! "content" ∧
  article_id Mock.story_body_one false = article_id Mock.story_body_two false.
Proof. vm_compute. repeat split; discriminate. Qed.

(** Two runs on one story, started at different times, with different
    entries besides the title and the body. *)
Lemma article_id_deterministic_on_two_runs :
  let a1 := Mock.story_body_one in
  let a2 := <["url" := VStr "https://example.org/b"]> Mock.story_body_one in
  let s2 := {| st_world := 7%nat; st_trace := [] |} in
  let run1 := analyze_article Mock.analyzer a1 true Mock.start in
  let run2 := analyze_article Mock.analyzer a2 true s2 in
  run1 = (Ok (Mock.output run1), snd run1) ∧
  run2 = (Ok (Mock.output run2), snd run2) ∧
  Mock.output run1 !! "article_id" = Mock.output run2 !! "article_id" ∧
  Mock.output run1 !! "article_id" =
    Some (VStr (take_prefix 16
                  (Sha256.hexdigest (fmt (dict_get a1 "title" (VStr "")) +:+
                                     fmt (chosen_content a1 true))))).
Proof.
  intros a1 a2 s2 run1 run2.
  assert (run1 = (Ok (Mock.output run1), snd run1)) as H1
    by (apply returned; vm_compute; reflexivity).
  assert (run2 = (Ok (Mock.output run2), snd run2)) as H2
    by (apply returned; vm_compute; reflexivity).
  split; [exact H1|]. split; [exact H2|].
  apply (@article_id_deterministic Mock.collaborators Mock.analyzer a1 a2 true true
           Mock.start s2 (Mock.output run1) (Mock.output run2) (snd run1) (snd run2));
    [vm_compute; reflexivity | vm_compute; reflexivity | exact H1 | exact H2].
Defined.

(** The breaking story: the marker is in upper case, the sentiment score is
    -0.9, the trending score is 1. *)
Lemma trending_score_of_breaking_story :
  let run := analyze_article Mock.analyzer Mock.breaking_story true Mock.start in
  run = (Ok (Mock.output run), snd run) ∧
  ∃ title sentiment score ts,
    dict_get Mock.breaking_story "title" (VStr "") = VStr title ∧
    Mock.output run !! "sentiment" = Some (VDict sentiment) ∧
    as_number (dict_get sentiment "score" (VInt 0)) = Some score ∧
    Mock.output run !! "trending_score" = Some (VFloat ts) ∧
    (ts == specified_trending (urgent_title title) (negb (Qle_bool (Qabs score) 0.7)))%Q ∧
    (ts <= 1)%Q ∧
    (∀ marker,
       lower marker = "breaking" ∨ lower marker = "urgent" →
       contains marker title = true →
       (Qabs score <= 0.7 → ts == 0.8)%Q ∧ (0.7 < Qabs score → ts == 1)%Q).
Proof.
  intros run.
  assert (run = (Ok (Mock.output run), snd run)) as Hrun
    by (apply returned; vm_compute; reflexivity).
  split; [exact Hrun|].
  exact (@trending_score_formula Mock.collaborators Mock.analyzer Mock.breaking_story true
           Mock.start (Mock.output run) (snd run) Hrun).
Defined.

(** In binary64 the sums are the literals of the specification: 0.5 + 0.3
    is the float 0.8, and 0.8 + 0.2 is 1.0. *)
Example trending_score_binary64 :
  PrimFloat.eqb (Binary64.min1 (Binary64.trending_score false false)) 0.5 = true ∧
  PrimFloat.eqb (Binary64.min1 (Binary64.trending_score true false)) 0.8 = true ∧
  PrimFloat.eqb (Binary64.min1 (Binary64.trending_score false true)) 0.7 = true ∧
  PrimFloat.eqb (Binary64.min1 (Binary64.trending_score true true)) 1.0 = true.
Proof. repeat split; vm_compute; reflexivity. Qed.

Example breaking_story_scores_one :
  Mock.output (analyze_article Mock.analyzer Mock.breaking_story true Mock.start)
    !! "trending_score" = Some (VFloat 1.000).
Proof. vm_compute. reflexivity. Qed.

(** The batch of three stories, three at a time: the second analysis
    raises, and only the second record carries an error marker. *)
Lemma batch_of_three_isolates_failure :
  0 < 3 ∧
  let outcomes := analysis_outcomes Mock.analyzer true Mock.batch_of_three Mock.start in
  ∃ records s',
    batch_analyze Mock.analyzer Mock.batch_of_three 3 true Mock.start = (Ok records, s') ∧
    List.length records = List.length Mock.batch_of_three ∧
    Forall2 record_shows outcomes records ∧
    count_if has_error_marker records = count_if raised outcomes ∧
    (count_if raised outcomes = 1%nat →
     count_if has_error_marker records = 1%nat ∧
     count_if has_complete_analysis records = (List.length Mock.batch_of_three - 1)%nat).
Proof.
  split; [lia|].
  apply (@batch_analyze_isolates_failures Mock.collaborators Mock.analyzer Mock.batch_of_three
           3 true Mock.start).
  lia.
Defined.

Example batch_of_three_markers :
  let records := Mock.records_of (batch_analyze Mock.analyzer Mock.batch_of_three 3 true Mock.start) in
  List.map raised (analysis_outcomes Mock.analyzer true Mock.batch_of_three Mock.start)
    = [false; true; false] ∧
  List.map has_error_marker records = [false; true; false] ∧
  List.map has_complete_analysis records = [true; false; true].
Proof. vm_compute. repeat split. Qed.

Lemma batch_of_three_keeps_entries :
  0 < 3 ∧
  ∃ records s',
    batch_analyze Mock.analyzer Mock.batch_of_three 3 true Mock.start = (Ok records, s') ∧
    Forall2
      (λ article record : gmap string value,
         (∃ analysis, record = <["analysis" := VDict analysis]> article) ∧
         ∀ k, k ≠ "analysis" → record !! k = article !! k)
      Mock.batch_of_three records.
Proof.
  split; [lia|].
  apply (@batch_analyze_frame Mock.collaborators Mock.analyzer Mock.batch_of_three 3 true
           Mock.start).
  lia.
Defined.

(** A text that holds the special token of the tokenizer: the three
    analyses raise its [ValueError]. *)
Lemma tokenizer_error_leaves_the_tasks :
  let text := "Markets <|endoftext|> rally" in
  let e :=
    ValueError "Encountered text corresponding to disallowed special token '<|endoftext|>'." in
  encoding_encode text = Raise e ∧
  (∀ m s0, moderate_content text Mock.start = (Ok m, s0) → flagged m = false →
           analyze_sentiment Mock.analyzer text Mock.start = (Raise e, s0)) ∧
  (∀ m s0,
     moderate_content (take_chars 1000 ("Title" +:+ nl +:+ nl +:+ text)) Mock.start
       = (Ok m, s0) →
     flagged m = false →
     summarize_article Mock.analyzer (VStr "Title") (VStr text) Mock.start = (Raise e, s0)) ∧
  classify_topics Mock.analyzer (VStr "Title") (VStr text) Mock.start = (Raise e, Mock.start).
Proof.
  intros text e.
  assert (encoding_encode text = Raise e) as Hencode by (vm_compute; reflexivity).
  split; [exact Hencode|].
  exact (@analysis_tasks_propagate_tokenizer_error Mock.collaborators Mock.analyzer
           text "Title" text Mock.start e e Hencode Hencode).
Defined.

Example tokenizer_error_fails_the_sentiment :
  fst (analyze_sentiment Mock.analyzer "Markets <|endoftext|> rally" Mock.start) =
    Raise (ValueError
             "Encountered text corresponding to disallowed special token '<|endoftext|>'.").
Proof. vm_compute. reflexivity. Qed.

(** A text the tokenizer accepts, on which the completion call times out:
    the three analyses return their fallback records. *)
Lemma timeout_gives_the_fallbacks :
  let text := "Markets [timeout] rally" in
  truncate_str text 2000 = Ok text ∧
  truncate_str text 2500 = Ok text ∧
  (∃ d s', analyze_sentiment Mock.analyzer text Mock.start = (Ok d, s') ∧
     ∀ m s0 e s1,
       moderate_content text Mock.start = (Ok m, s0) → flagged m = false →
       completion_block Mock.analyzer (sentiment_prompt text) 200 0.1 s0 = (Raise e, s1) →
       d = sentiment_failed e ∧ d !! "cost" = Some (VFloat 0) ∧ s' = s1) ∧
  (∃ d s', summarize_article Mock.analyzer (VStr "Title") (VStr text) Mock.start
             = (Ok d, s') ∧
     ∀ m s0 e s1,
       moderate_content (take_chars 1000 ("Title" +:+ nl +:+ nl +:+ text)) Mock.start
         = (Ok m, s0) →
       flagged m = false →
       completion_block Mock.analyzer (summary_prompt (VStr "Title") text) 300 0.2 s0
         = (Raise e, s1) →
       d = summary_failed ∧ d !! "cost" = Some (VFloat 0) ∧ s' = s1) ∧
  (∃ d s', classify_topics Mock.analyzer (VStr "Title") (VStr text) Mock.start
             = (Ok d, s') ∧
     ∀ e s1,
       completion_block Mock.analyzer (classification_prompt (VStr "Title") text)
         400 0.1 Mock.start = (Raise e, s1) →
       d = classification_failed ∧ d !! "cost" = Some (VFloat 0) ∧ s' = s1).
Proof.
  intros text.
  assert (truncate_str text 2000 = Ok text) as H2000 by (vm_compute; reflexivity).
  assert (truncate_str text 2500 = Ok text) as H2500 by (vm_compute; reflexivity).
  split; [exact H2000|]. split; [exact H2500|].
  exact (@analysis_tasks_return_when_tokenized Mock.collaborators Mock.analyzer
           text "Title" text Mock.start text text text H2000 H2500 H2000).
Defined.

End Scenarios.

(** * Properties of the budget and of the pricing *)

Module BudgetFacts.
Import CostManager CostReporting Props CostManagerFacts.

(** The rates written as decimals, for [lra]. *)
Ltac decimal_rates :=
  change (2 / 1000)%Q with 0.002%Q in *; change (6 / 1000)%Q with 0.006%Q in *.

Lemma int_of_float_floor (x : Q) : (0 <= x)%Q → int_of_float x = Qfloor x.
Proof.
  destruct x as [n d]. unfold Qle, int_of_float, Qfloor. cbn. intros Hn.
  apply Z.quot_div_nonneg; lia.
Qed.

Lemma max0_cases (x : Q) :
  (0 <= max0 x)%Q ∧ ((x <= 0)%Q ∧ max0 x = 0%Q ∨ (0 < x)%Q ∧ max0 x = x).
Proof.
  unfold max0. destruct (Qle_bool x 0) eqn:Hle.
  - apply Qle_bool_iff in Hle. split; [apply Qle_refl | left; auto].
  - assert (0 < x)%Q as Hpos.
    { apply Qnot_le_lt. intros Hx. apply Qle_bool_iff in Hx. congruence. }
    split; [apply Qlt_le_weak, Hpos | right; auto].
Qed.

Lemma rate_inverse (x : Q) : (x / (pricing_float "built_in_ai" / 1000) == x * (1000 # 6))%Q.
Proof. rewrite built_in_rate. unfold Qdiv. apply Qmult_comp; reflexivity. Qed.

(** The number of articles that remain is the floor of the remaining
    budget over the built-in rate. *)
Lemma articles_remaining_floor (remaining : Q) :
  (0 <= remaining)%Q →
  let k := int_of_float (remaining / (pricing_float "built_in_ai" / 1000)) in
  0 ≤ k ∧ (inject_Z k * 0.006 <= remaining)%Q ∧ (remaining < (inject_Z k + 1) * 0.006)%Q.
Proof.
  intros Hnonneg k. subst k.
  assert (0 <= remaining / (pricing_float "built_in_ai" / 1000))%Q as Hx.
  { rewrite rate_inverse. apply Qmult_le_0_compat; [assumption | discriminate]. }
  rewrite (int_of_float_floor _ Hx).
  pose proof (Qfloor_le (remaining / (pricing_float "built_in_ai" / 1000))) as Hlo.
  pose proof (Qlt_floor (remaining / (pricing_float "built_in_ai" / 1000))) as Hhi.
  pose proof (Qfloor_resp_le 0 _ Hx) as Hk.
  rewrite inject_Z_plus in Hhi. change (inject_Z 1) with 1%Q in Hhi.
  set (k := Qfloor (remaining / (pricing_float "built_in_ai" / 1000))) in *.
  clearbody k. rewrite rate_inverse in Hlo, Hhi.
  repeat split; [exact Hk | lra | lra].
Qed.

Lemma limits_facts (self : t) (daily_spend_limit : Q) :
  let lim := check_daily_limits self daily_spend_limit in
  (0 <= remaining_budget lim)%Q ∧
  0 ≤ articles_remaining lim ∧
  (inject_Z (articles_remaining lim) * 0.006 <= remaining_budget lim)%Q ∧
  (remaining_budget lim < (inject_Z (articles_remaining lim) + 1) * 0.006)%Q ∧
  (limit_exceeded lim = true ↔ (remaining_budget lim == 0)%Q).
Proof.
  intros lim. subst lim. unfold check_daily_limits.
  cbn [remaining_budget articles_remaining limit_exceeded].
  set (spent := current_session_cost self).
  destruct (max0_cases (daily_spend_limit - spent)) as [Hnonneg Hcases].
  destruct (articles_remaining_floor _ Hnonneg) as (Hk & Hlo & Hhi).
  repeat split; try assumption.
  - intros Hex%Qle_bool_iff. destruct Hcases as [[_ ->]|[Hlt _]]; [reflexivity | lra].
  - intros Hzero. apply Qle_bool_iff.
    destruct Hcases as [[Hle _]|[Hlt Heq]]; [lra | rewrite Heq in Hzero; lra].
Qed.

(** X5.  The limits [check_daily_limits] reports: the remaining budget and
    the number of articles that remain are never negative; the limit is
    reported as exceeded exactly when the spend has reached it, which is
    exactly when nothing remains of the budget, and then no article
    remains. *)
Theorem daily_limits_invariants (self : t) (daily_spend_limit : Q) :
  let lim := check_daily_limits self daily_spend_limit in
  (0 <= remaining_budget lim)%Q ∧
  0 ≤ articles_remaining lim ∧
  (limit_exceeded lim = true ↔ (daily_limit lim <= current_spend lim)%Q) ∧
  (limit_exceeded lim = true ↔ (remaining_budget lim == 0)%Q) ∧
  (limit_exceeded lim = true → articles_remaining lim = 0).
Proof.
  intros lim.
  destruct (limits_facts self daily_spend_limit) as (Hnonneg & Hk & Hlo & Hhi & Hex).
  fold lim in Hnonneg, Hk, Hlo, Hhi, Hex.
  assert (limit_exceeded lim = true ↔ (daily_limit lim <= current_spend lim)%Q) as Hspend
    by apply Qle_bool_iff.
  clearbody lim.
  repeat split; try assumption; try apply Hex; try apply Hspend.
  intros Hzero%Hex.
  assert (inject_Z (articles_remaining lim) <= 0)%Q as Hle by lra.
  change 0%Q with (inject_Z 0) in Hle. rewrite <- Zle_Qle in Hle. lia.
Qed.

(** What a returned pricing decision holds, branch by branch. *)
Lemma pricing_decision enable_ai key n p :
  calculate_pricing_tier enable_ai key n = Ok p →
  articles_count p = n ∧
  match branch_of enable_ai key n with
  | Basic =>
      tier p = "basic" ∧ cost_per_article p = 0.001%Q ∧
      total_cost p = (inject_Z n * 0.001)%Q ∧ cost_per_1000 p = (0.001 * 1000)%Q
  | Byok =>
      tier p = "byok" ∧ cost_per_article p = (2 / 1000)%Q ∧
      total_cost p = (inject_Z n * (2 / 1000))%Q ∧ cost_per_1000 p = 2%Q
  | Free => False
  | BuiltIn =>
      tier p = "built_in_ai" ∧ cost_per_article p = (6 / 1000)%Q ∧
      total_cost p = (inject_Z (n - 50) * (6 / 1000))%Q ∧ cost_per_1000 p = 6%Q
  end.
Proof.
  unfold calculate_pricing_tier, branch_of, pricing_branches.
  rewrite free_tier_limit_50, built_in_rate, byok_rate.
  destruct enable_ai, (key_given key), (n <=? 50);
    cbn [negb l_tier l_cost_per_article l_total_cost l_description];
    pricing_lookup; cbn; intros [= <-]; repeat split.
Qed.

Lemma branch_built_in enable_ai key n :
  branch_of enable_ai key n = BuiltIn ↔ enable_ai = true ∧ key_given key = false ∧ 50 < n.
Proof.
  unfold branch_of.
  destruct enable_ai, (key_given key), (Z.leb_spec n 50); cbn; split;
    try discriminate; try (intros (? & ? & ?); discriminate || lia); auto.
Qed.

Lemma built_in_decision enable_ai key n p :
  calculate_pricing_tier enable_ai key n = Ok p → tier p = "built_in_ai" →
  branch_of enable_ai key n = BuiltIn ∧
  total_cost p = (inject_Z (n - 50) * (6 / 1000))%Q.
Proof.
  intros Hp Htier. destruct (pricing_decision _ _ _ _ Hp) as [_ Hcase].
  destruct (branch_of enable_ai key n) eqn:Hb; try (destruct Hcase as (Ht & _); congruence);
    try contradiction.
  destruct Hcase as (_ & _ & Htotal & _). split; [reflexivity | exact Htotal].
Qed.

(** [validate_request] on a request that takes the built-in branch. *)
Lemma validate_built_in self daily_spend_limit enable_ai key n :
  branch_of enable_ai key n = BuiltIn →
  let lim := check_daily_limits self daily_spend_limit in
  ∃ p v, calculate_pricing_tier enable_ai key n = Ok p ∧ tier p = "built_in_ai" ∧
         validate_request self daily_spend_limit enable_ai key n = Ok v ∧
         v_pricing v = p ∧
         valid v = negb (limit_exceeded lim) && negb (articles_remaining lim <? n) ∧
         suggested_max_articles v =
           (if negb (limit_exceeded lim) && (articles_remaining lim <? n)
            then Some (articles_remaining lim) else None) ∧
         estimated_cost v = (if valid v then Some (total_cost p) else None).
Proof.
  intros Hb lim.
  assert (branch_of enable_ai key n ≠ Free) as Hnot_free by congruence.
  destruct (pricing_returns enable_ai key n Hnot_free) as (p & Hp & Htier & _).
  rewrite branches_tier, Hb in Htier.
  unfold validate_request. rewrite Hp. cbn [result_bind]. rewrite Htier.
  cbn [String.eqb Ascii.eqb Bool.eqb]. fold lim.
  exists p.
  destruct (limit_exceeded lim); [eexists; repeat split; assumption || reflexivity|].
  destruct (articles_remaining lim <? n); eexists; repeat split; assumption || reflexivity.
Qed.

(** X6.  A built-in request that [validate_request] accepts fits the
    budget: the limit is not exceeded, the count is within
    [articles_remaining], and the estimated cost is at most the remaining
    budget. *)
Theorem accepted_request_fits_budget (self : t) (daily_spend_limit : Q) (enable_ai : bool)
    (key : option string) (n : Z) (v : Validation) :
  validate_request self daily_spend_limit enable_ai key n = Ok v →
  valid v = true → tier (v_pricing v) = "built_in_ai" →
  let lim := check_daily_limits self daily_spend_limit in
  limit_exceeded lim = false ∧ n ≤ articles_remaining lim ∧
  estimated_cost v = Some (total_cost (v_pricing v)) ∧
  (total_cost (v_pricing v) <= remaining_budget lim)%Q.
Proof.
  intros Hv Hvalid Htier lim.
  assert (∃ p, calculate_pricing_tier enable_ai key n = Ok p ∧ v_pricing v = p) as (p & Hp & Hvp).
  { unfold validate_request in Hv.
    destruct (calculate_pricing_tier enable_ai key n) as [p|]; [|discriminate].
    exists p. split; [reflexivity|]. cbn [result_bind] in Hv.
    destruct (String.eqb (tier p) "built_in_ai"); [|injection Hv as <-; reflexivity].
    destruct (limit_exceeded _); [injection Hv as <-; reflexivity|].
    destruct (_ <? n); injection Hv as <-; reflexivity. }
  rewrite Hvp in Htier |- *.
  destruct (built_in_decision _ _ _ _ Hp Htier) as (Hb & Htotal).
  destruct (validate_built_in self daily_spend_limit _ _ _ Hb)
    as (p' & v' & Hp' & _ & Hv' & _ & Hvalid' & _ & Hcost).
  fold lim in Hvalid'. rewrite Hv in Hv'. injection Hv' as <-.
  rewrite Hp in Hp'. injection Hp' as <-.
  rewrite Hvalid in Hvalid', Hcost. symmetry in Hvalid'.
  apply andb_true_iff in Hvalid' as [Hex%negb_true_iff Hfit%negb_true_iff].
  apply Z.ltb_ge in Hfit.
  destruct (limits_facts self daily_spend_limit) as (_ & _ & Hlo & _). fold lim in Hlo.
  repeat split; try assumption.
  rewrite Htotal.
  assert (inject_Z (n - 50) <= inject_Z (articles_remaining lim))%Q
    as Hle by (rewrite <- Zle_Qle; lia).
  clearbody lim. change (6 / 1000)%Q with 0.006%Q. lra.
Qed.

Lemma accepted_request_fits_budget_at_8000 :
  let self := {| current_session_cost := 0; articles_processed := 0 |} in
  ∃ v, validate_request self 50 true None 8000 = Ok v ∧
       valid v = true ∧ tier (v_pricing v) = "built_in_ai" ∧
       limit_exceeded (check_daily_limits self 50) = false ∧
       8000 ≤ articles_remaining (check_daily_limits self 50) ∧
       estimated_cost v = Some (total_cost (v_pricing v)) ∧
       (total_cost (v_pricing v) <= remaining_budget (check_daily_limits self 50))%Q.
Proof.
  intros self.
  destruct (validate_request self 50 true None 8000) as [v|] eqn:Hv; [|vm_compute in Hv; discriminate].
  exists v.
  assert (valid v = true) as Hvalid by (vm_compute in Hv; injection Hv as <-; reflexivity).
  assert (tier (v_pricing v) = "built_in_ai") as Htier
    by (vm_compute in Hv; injection Hv as <-; reflexivity).
  split; [reflexivity|]. split; [exact Hvalid|]. split; [exact Htier|].
  exact (accepted_request_fits_budget self 50 true None 8000 v Hv Hvalid Htier).
Defined.

(** X7.  The count [validate_request] suggests on a rejection can be asked
    for again: when it exceeds 50 the request for it is accepted. *)
Theorem suggested_count_is_accepted (self : t) (daily_spend_limit : Q) (enable_ai : bool)
    (key : option string) (n k : Z) (v : Validation) :
  validate_request self daily_spend_limit enable_ai key n = Ok v →
  suggested_max_articles v = Some k → 50 < k →
  valid v = false ∧ k < n ∧
  ∃ v', validate_request self daily_spend_limit enable_ai key k = Ok v' ∧
        valid v' = true ∧ articles_count (v_pricing v') = k ∧
        suggested_max_articles v' = None.
Proof.
  intros Hv Hsuggested Hk.
  assert (branch_of enable_ai key n = BuiltIn) as Hb.
  { unfold validate_request in Hv.
    destruct (calculate_pricing_tier enable_ai key n) as [p|] eqn:Hp; [|discriminate].
    cbn [result_bind] in Hv.
    destruct (String.eqb_spec (tier p) "built_in_ai") as [Htier|];
      [|injection Hv as <-; discriminate].
    apply (built_in_decision _ _ _ _ Hp Htier). }
  destruct (validate_built_in self daily_spend_limit _ _ _ Hb)
    as (p & v0 & _ & _ & Hv0 & _ & Hvalid & Hsugg & _).
  rewrite Hv in Hv0. injection Hv0 as <-.
  set (lim := check_daily_limits self daily_spend_limit) in *.
  rewrite Hsuggested in Hsugg.
  destruct (limit_exceeded lim) eqn:Hex; [discriminate|].
  destruct (Z.ltb_spec (articles_remaining lim) n) as [Hlt|]; [|discriminate].
  cbn in Hsugg, Hvalid. injection Hsugg as ->.
  split; [exact Hvalid|]. split; [exact Hlt|].
  assert (branch_of enable_ai key (articles_remaining lim) = BuiltIn) as Hb'.
  { apply branch_built_in. apply branch_built_in in Hb as (? & ? & _). auto. }
  destruct (validate_built_in self daily_spend_limit _ _ _ Hb')
    as (p' & v' & Hp' & _ & Hv' & Hvp & Hvalid' & Hsugg' & _).
  fold lim in Hvalid', Hsugg'. rewrite Hex, Z.ltb_irrefl in Hvalid', Hsugg'.
  exists v'. repeat split; try assumption.
  rewrite Hvp. apply (pricing_decision _ _ _ _ Hp').
Qed.

Lemma suggested_count_is_accepted_after_9000 :
  let self := {| current_session_cost := 0; articles_processed := 0 |} in
  ∃ v, validate_request self 50 true None 9000 = Ok v ∧
       suggested_max_articles v = Some 8333 ∧ 50 < 8333 ∧
       valid v = false ∧ 8333 < 9000 ∧
       ∃ v', validate_request self 50 true None 8333 = Ok v' ∧
             valid v' = true ∧ articles_count (v_pricing v') = 8333 ∧
             suggested_max_articles v' = None.
Proof.
  intros self.
  destruct (validate_request self 50 true None 9000) as [v|] eqn:Hv; [|vm_compute in Hv; discriminate].
  exists v.
  assert (suggested_max_articles v = Some 8333) as Hs
    by (vm_compute in Hv; injection Hv as <-; reflexivity).
  split; [reflexivity|]. split; [exact Hs|]. split; [lia|].
  apply (suggested_count_is_accepted self 50 true None 9000 8333 v Hv Hs). lia.
Defined.

(** X8.  Every pricing decision [calculate_pricing_tier] returns is
    coherent: its tier is basic, byok or built_in_ai; the cost per thousand
    is a thousand times the cost per article; the total is the cost per
    article times the billed articles, which are all of them but for the 50
    free ones of the built-in tier; and the total is not negative for a
    count that is not. *)
Theorem pricing_decision_coherent (enable_ai : bool) (key : option string) (n : Z)
    (p : PricingInfo) :
  calculate_pricing_tier enable_ai key n = Ok p →
  articles_count p = n ∧
  (tier p = "basic" ∨ tier p = "byok" ∨ tier p = "built_in_ai") ∧
  (cost_per_1000 p == 1000 * cost_per_article p)%Q ∧
  (total_cost p ==
     inject_Z (if String.eqb (tier p) "built_in_ai" then n - 50 else n) * cost_per_article p)%Q ∧
  (0 ≤ n → 0 <= total_cost p)%Q.
Proof.
  intros Hp. destruct (pricing_decision _ _ _ _ Hp) as [Hcount Hcase].
  split; [exact Hcount|].
  destruct (branch_of enable_ai key n) eqn:Hb; [| | contradiction |];
    destruct Hcase as (-> & -> & -> & ->); cbn [String.eqb Ascii.eqb Bool.eqb];
    (split; [tauto|]); (split; [reflexivity|]); (split; [reflexivity|]).
  - intros Hn. apply Qmult_le_0_compat; [|discriminate].
    change 0%Q with (inject_Z 0). rewrite <- Zle_Qle. exact Hn.
  - intros Hn. apply Qmult_le_0_compat; [|discriminate].
    change 0%Q with (inject_Z 0). rewrite <- Zle_Qle. exact Hn.
  - intros _. apply branch_built_in in Hb as (_ & _ & Hn).
    apply Qmult_le_0_compat; [|discriminate].
    change 0%Q with (inject_Z 0). rewrite <- Zle_Qle. lia.
Qed.

Lemma pricing_decision_coherent_byok_120 :
  ∃ p, calculate_pricing_tier true (Some "sk-user") 120 = Ok p ∧
       articles_count p = 120 ∧
       (tier p = "basic" ∨ tier p = "byok" ∨ tier p = "built_in_ai") ∧
       (cost_per_1000 p == 1000 * cost_per_article p)%Q ∧
       (total_cost p ==
          inject_Z (if String.eqb (tier p) "built_in_ai" then 120 - 50 else 120)
          * cost_per_article p)%Q ∧
       (0 ≤ 120 → 0 <= total_cost p)%Q.
Proof.
  destruct (calculate_pricing_tier true (Some "sk-user") 120) as [p|] eqn:Hp;
    [|vm_compute in Hp; discriminate].
  exists p. split; [reflexivity|].
  exact (pricing_decision_coherent true (Some "sk-user") 120 p Hp).
Defined.

(** X9.  For fixed settings the total cost grows with the number of
    articles: of two requests that are priced, the larger one is in the
    same tier and costs at least as much. *)
Theorem total_cost_monotone (enable_ai : bool) (key : option string) (n m : Z)
    (p q : PricingInfo) :
  n ≤ m →
  calculate_pricing_tier enable_ai key n = Ok p →
  calculate_pricing_tier enable_ai key m = Ok q →
  tier p = tier q ∧ (total_cost p <= total_cost q)%Q.
Proof.
  intros Hnm Hp Hq.
  destruct (pricing_decision _ _ _ _ Hp) as [_ Hcp].
  destruct (pricing_decision _ _ _ _ Hq) as [_ Hcq].
  assert (inject_Z n <= inject_Z m)%Q as Hle by (rewrite <- Zle_Qle; exact Hnm).
  assert (inject_Z (n - 50) <= inject_Z (m - 50))%Q as Hle' by (rewrite <- Zle_Qle; lia).
  unfold branch_of in Hcp, Hcq.
  destruct (negb enable_ai), (key_given key).
  - destruct Hcp as (-> & _ & -> & _), Hcq as (-> & _ & -> & _). split; [reflexivity | decimal_rates; lra].
  - destruct Hcp as (-> & _ & -> & _), Hcq as (-> & _ & -> & _). split; [reflexivity | decimal_rates; lra].
  - destruct Hcp as (-> & _ & -> & _), Hcq as (-> & _ & -> & _). split; [reflexivity | decimal_rates; lra].
  - destruct (n <=? 50); [contradiction|]. destruct (m <=? 50); [contradiction|].
    destruct Hcp as (-> & _ & -> & _), Hcq as (-> & _ & -> & _). split; [reflexivity | decimal_rates; lra].
Qed.

Lemma total_cost_monotone_60_to_600 :
  60 ≤ 600 ∧
  ∃ p q, calculate_pricing_tier true None 60 = Ok p ∧
         calculate_pricing_tier true None 600 = Ok q ∧
         tier p = tier q ∧ (total_cost p <= total_cost q)%Q.
Proof.
  split; [lia|].
  destruct (calculate_pricing_tier true None 60) as [p|] eqn:Hp; [|vm_compute in Hp; discriminate].
  destruct (calculate_pricing_tier true None 600) as [q|] eqn:Hq; [|vm_compute in Hq; discriminate].
  exists p, q. split; [reflexivity|]. split; [reflexivity|].
  apply (total_cost_monotone true None 60 600 p q); [lia | exact Hp | exact Hq].
Defined.

Lemma int_of_float_monotone (x y : Q) :
  (0 <= x)%Q → (x <= y)%Q → int_of_float x ≤ int_of_float y.
Proof.
  intros Hx Hxy. rewrite !int_of_float_floor by lra. apply Qfloor_resp_le. exact Hxy.
Qed.

(** X10.  Usage that is tracked adds up, and spending never frees budget:
    after [track_usage] with a cost that is not negative the session cost has
    grown by that cost and the articles processed by the count given, the
    remaining budget and [articles_remaining] have not grown, and a limit
    that was exceeded still is. *)
Theorem spending_shrinks_budget (self : t) (daily_spend_limit : Q) (n : Z) (cost : Q) :
  (0 <= cost)%Q →
  let before := check_daily_limits self daily_spend_limit in
  let after := check_daily_limits (track_usage self n cost) daily_spend_limit in
  (current_spend after == current_spend before + cost)%Q ∧
  articles_processed (track_usage self n cost) = articles_processed self + n ∧
  (remaining_budget after <= remaining_budget before)%Q ∧
  articles_remaining after ≤ articles_remaining before ∧
  (limit_exceeded before = true → limit_exceeded after = true).
Proof.
  intros Hcost before after. subst before after.
  unfold check_daily_limits, track_usage.
  cbn [current_spend remaining_budget articles_remaining limit_exceeded
       current_session_cost articles_processed].
  set (spent := current_session_cost self).
  destruct (max0_cases (daily_spend_limit - spent)) as [Hb Hcb].
  destruct (max0_cases (daily_spend_limit - (spent + cost))) as [Ha Hca].
  assert (max0 (daily_spend_limit - (spent + cost)) <= max0 (daily_spend_limit - spent))%Q
    as Hle.
  { destruct Hcb as [[? ->]|[? ->]], Hca as [[? ->]|[? ->]]; lra. }
  repeat split; try reflexivity; try assumption.
  - apply int_of_float_monotone.
    + rewrite rate_inverse. apply Qmult_le_0_compat; [assumption | discriminate].
    + rewrite !rate_inverse. lra.
  - intros Hex%Qle_bool_iff. apply Qle_bool_iff. lra.
Qed.

Lemma spending_shrinks_budget_after_one_article :
  let self := {| current_session_cost := 49.99; articles_processed := 10 |} in
  (0 <= 0.02)%Q ∧
  let before := check_daily_limits self 50 in
  let after := check_daily_limits (track_usage self 1 0.02) 50 in
  (current_spend after == current_spend before + 0.02)%Q ∧
  articles_processed (track_usage self 1 0.02) = articles_processed self + 1 ∧
  (remaining_budget after <= remaining_budget before)%Q ∧
  articles_remaining after ≤ articles_remaining before ∧
  (limit_exceeded before = true → limit_exceeded after = true).
Proof.
  intros self. split; [discriminate|].
  apply (spending_shrinks_budget self 50 1 0.02). discriminate.
Defined.

End BudgetFacts.

(** * Properties of the analysis of one article *)

Module PipelineFacts.
Import AINewsAnalyzer Props ReportProps AnalyzerFacts.
#[local] Open Scope list_scope.

Section Pipeline.

Context `{Collaborators}.

Implicit Types (s : state) (self : AINewsAnalyzer.t).

Lemma gather_three {A} (t1 t2 t3 : M A) s results s' :
  gather [t1; t2; t3] s = (Ok results, s') →
  ∃ a b c s1 s2,
    t1 s = (Ok a, s1) ∧ t2 s1 = (Ok b, s2) ∧ t3 s2 = (Ok c, s') ∧ results = [a; b; c].
Proof.
  cbn [gather]. unfold ret.
  destruct (t1 s) as [[a|e] s1]; [|intros [=]].
  destruct (t2 s1) as [[b|e] s2] eqn:H2; [|intros [=]].
  destruct (t3 s2) as [[c|e] s3] eqn:H3; [|intros [=]].
  intros [= <- <-]. exists a, b, c, s1, s2. auto.
Qed.

(** The exception [gather] raises is the exception of one of its tasks. *)
Lemma gather_three_raises {A} (t1 t2 t3 : M A) s e s' :
  gather [t1; t2; t3] s = (Raise e, s') →
  ∃ s0, fst (t1 s0) = Raise e ∨ fst (t2 s0) = Raise e ∨ fst (t3 s0) = Raise e.
Proof.
  cbn [gather]. unfold ret.
  destruct (t1 s) as [[a|e1] s1] eqn:H1.
  - destruct (t2 s1) as [[b|e2] s2] eqn:H2.
    + destruct (t3 s2) as [[c|e3] s3] eqn:H3; intros [= <- <-].
      exists s2. rewrite H3. auto.
    + intros [= <- _]. exists s1. rewrite H2. auto.
  - intros [= <- _]. exists s. rewrite H1. auto.
Qed.


Lemma classify_topics_needs_string self title content s r s' :
  classify_topics self title content s = (Ok r, s') →
  ∃ c, content = VStr c ∧ is_ok (encoding_encode c) = true.
Proof.
  unfold classify_topics, truncate_text, truncate_str, bind, lift.
  destruct content as [| | | |c| |]; try discriminate.
  destruct (encoding_encode c) eqn:Hencode; [|discriminate].
  intros _. exists c. rewrite Hencode. split; reflexivity.
Qed.

Lemma py_lower_needs_string x l : py_lower x = Ok l → ∃ t, x = VStr t ∧ l = lower t.
Proof. destruct x; try discriminate. intros [= <-]. eauto. Qed.

Lemma last_task {A} (b : bool) (l : list A) (x y : A) :
  (if b then l ++ [x] else l ++ [y]) = l ++ [if b then x else y].
Proof. destruct b; reflexivity. Qed.

Lemma abs_returns (v : value) : is_ok (py_abs v) = true ↔ is_Some (as_number v).
Proof.
  destruct v; cbn; split; intros Hv; try discriminate; try reflexivity; eauto;
    destruct Hv; discriminate.
Qed.

(** The steps of a run of [analyze_article] that returned. *)
Lemma analyze_article_steps self article include_content s an s' :
  analyze_article self article include_content s = (Ok an, s') →
  ∃ title content sentiment classification summarization s1 s2 s3 total_cost strong
    analyzed_at,
    dict_get article "title" (VStr "") = VStr title ∧
    chosen_content article include_content = VStr content ∧
    analyze_sentiment self (title +:+ nl +:+ content) s = (Ok sentiment, s1) ∧
    classify_topics self (VStr title) (VStr content) s1 = (Ok classification, s2) ∧
    (if 200 <? Z.of_nat (char_count content)
     then summarize_article self (VStr title) (VStr content) s2 = (Ok summarization, s3)
     else summarization = summary_stub article (VStr title) ∧ s3 = s2) ∧
    result_bind
      (py_add (dict_get sentiment "cost" (VInt 0)) (dict_get classification "cost" (VInt 0)))
      (λ c, py_add c (dict_get summarization "cost" (VInt 0))) = Ok total_cost ∧
    is_Some (as_number (dict_get sentiment "score" (VInt 0))) ∧
    an = list_to_map
           [("article_id", VStr (article_id article include_content));
            ("analyzed_at", VStr analyzed_at);
            ("sentiment", VDict sentiment);
            ("classification", VDict classification);
            ("summarization", VDict summarization);
            ("trending_score", VFloat (min1 (trending_score (urgent_title title) strong)));
            ("total_cost", total_cost);
            ("word_count", VInt (Z.of_nat (count_words false content)));
            ("reading_time",
             VStr (if truthy (VStr content)
                   then reading_time_of (Z.of_nat (count_words false content))
                   else "< 1 minute"))].
Proof.
  unfold analyze_article, article_id.
  unfold bind, lift, ret, raise, now_isoformat.
  set (title := dict_get article "title" (VStr "")).
  set (content := chosen_content article include_content).
  destruct (py_len content) as [n|] eqn:Hlen; [|discriminate].
  destruct (gather _ s) as [[results|e] s3] eqn:Hgather; [|discriminate].
  destruct results as [|sentiment [|classification [|summarization [|]]]]; try discriminate.
  destruct (result_bind _ _) as [total_cost|] eqn:Htotal; [|discriminate].
  destruct (py_lower title) as [title_lower|] eqn:Hlower; [|discriminate].
  destruct (py_abs _) as [magnitude|] eqn:Habs; [|discriminate].
  destruct (py_gt _ _) as [strong|]; [|discriminate].
  destruct (datetime_now_isoformat _) as [analyzed_at w].
  destruct (py_lower_needs_string _ _ Hlower) as (t & Ht & ->).
  assert (is_Some (as_number (dict_get sentiment "score" (VInt 0)))) as Hscore
    by (apply abs_returns; rewrite Habs; reflexivity).
  clear Habs.
  assert (∃ a b c s1 s2 task,
            analyze_sentiment self (fmt title +:+ nl +:+ fmt content) s = (Ok a, s1) ∧
            classify_topics self title content s1 = (Ok b, s2) ∧
            task s2 = (Ok c, s3) ∧
            task = (if 200 <? n then summarize_article self title content
                    else (λ s, (Ok (summary_stub article title), s))) ∧
            [sentiment; classification; summarization] = [a; b; c])
    as (a & b & c & s1 & s2 & task & Hsent & Hcls & Htask & Hwhich & [= <- <- <-]).
  { destruct (200 <? n); cbn [app] in Hgather;
      destruct (gather_three _ _ _ _ _ _ Hgather) as (a & b & c & s1 & s2 & ? & ? & ? & ?).
    - exists a, b, c, s1, s2, (summarize_article self title content). auto.
    - exists a, b, c, s1, s2, (λ s, (Ok (summary_stub article title), s)). auto. }
  destruct (classify_topics_needs_string _ _ _ _ _ _ Hcls) as (c & Hc & _).
  rewrite Ht, Hc in *. cbn [fmt] in Hsent. cbn [py_len] in Hlen. injection Hlen as <-.
  cbn [py_split_len result_bind].
  assert (if 200 <? Z.of_nat (char_count c)
          then summarize_article self (VStr t) (VStr c) s2 = (Ok summarization, s3)
          else summarization = summary_stub article (VStr t) ∧ s3 = s2) as Hsummary.
  { subst task. destruct (200 <? _); [exact Htask | injection Htask as <- <-; auto]. }
  intros Hrun.
  exists t, c, sentiment, classification, summarization, s1, s2, s3, total_cost, strong,
    analyzed_at.
  split; [reflexivity|]. split; [reflexivity|]. split; [exact Hsent|]. split; [exact Hcls|].
  split; [exact Hsummary|]. split; [exact Htotal|]. split; [exact Hscore|].
  destruct (truthy (VStr c)) eqn:Htruthy; injection Hrun as <- <-; [reflexivity|].
  cbn in Htruthy. apply negb_false_iff, String.eqb_eq in Htruthy. subst c. reflexivity.
Qed.

(** *** The three tasks on strings: the cost entry of the record returned,
    the exception raised, the calls made *)

Lemma sentiment_returned self text s d s1 :
  analyze_sentiment self text s = (Ok d, s1) →
  d !! "cost" = None ∨ ∃ c, d !! "cost" = Some (VFloat c) ∧ (0 <= c)%Q.
Proof.
  destruct (analyze_sentiment_cases self text s) as (m & s0 & _ & ->).
  destruct (flagged m); [intros [= <- <-]; left; reflexivity|].
  destruct (truncate_str text 2000) as [truncated|e]; [|discriminate].
  destruct (completion_block _ _ _ _ s0) as [[r|e] s'] eqn:Hb; intros [= <- <-]; right.
  - exists (fst r). rewrite lookup_insert_ne, lookup_insert_eq by discriminate.
    split; [reflexivity|]. eapply completion_block_cost, Hb.
  - exists 0%Q. split; [reflexivity | apply Qle_refl].
Qed.

Lemma classification_returned self (title content : string) s d s1 :
  classify_topics self (VStr title) (VStr content) s = (Ok d, s1) →
  ∃ c, d !! "cost" = Some (VFloat c) ∧ (0 <= c)%Q.
Proof.
  rewrite classify_topics_cases.
  destruct (truncate_str content 2000) as [truncated|e]; [|discriminate].
  destruct (completion_block _ _ _ _ s) as [[r|e] s'] eqn:Hb; intros [= <- <-].
  - exists (fst r). rewrite lookup_insert_eq.
    split; [reflexivity|]. eapply completion_block_cost, Hb.
  - exists 0%Q. split; [reflexivity | apply Qle_refl].
Qed.

Lemma summary_returned self (title content : string) s d s1 :
  summarize_article self (VStr title) (VStr content) s = (Ok d, s1) →
  ∃ c, d !! "cost" = Some (VFloat c) ∧ (0 <= c)%Q.
Proof.
  destruct (summarize_article_cases self title content s) as (m & s0 & _ & ->).
  destruct (flagged m).
  { intros [= <- <-]. exists 0%Q. split; [reflexivity | apply Qle_refl]. }
  destruct (truncate_str content 2500) as [truncated|e]; [|discriminate].
  destruct (completion_block _ _ _ _ s0) as [[r|e] s'] eqn:Hb; intros [= <- <-].
  - exists (fst r). rewrite lookup_insert_ne, lookup_insert_eq by discriminate.
    split; [reflexivity|]. eapply completion_block_cost, Hb.
  - exists 0%Q. split; [reflexivity | apply Qle_refl].
Qed.

Lemma sentiment_raised self text s e :
  fst (analyze_sentiment self text s) = Raise e → encoding_encode text = Raise e.
Proof.
  destruct (analyze_sentiment_cases self text s) as (m & s0 & _ & ->).
  destruct (flagged m); [discriminate|].
  destruct (truncate_str text 2000) as [truncated|e'] eqn:Htruncate.
  - destruct (completion_block _ _ _ _ s0) as [[r|e'] s']; discriminate.
  - intros [= <-]. apply (truncate_str_raises text 2000), Htruncate.
Qed.

Lemma classification_raised self (title content : string) s e :
  fst (classify_topics self (VStr title) (VStr content) s) = Raise e →
  encoding_encode content = Raise e.
Proof.
  rewrite classify_topics_cases.
  destruct (truncate_str content 2000) as [truncated|e'] eqn:Htruncate.
  - destruct (completion_block _ _ _ _ s) as [[r|e'] s']; discriminate.
  - intros [= <-]. apply (truncate_str_raises content 2000), Htruncate.
Qed.

Lemma summary_raised self (title content : string) s e :
  fst (summarize_article self (VStr title) (VStr content) s) = Raise e →
  encoding_encode content = Raise e.
Proof.
  destruct (summarize_article_cases self title content s) as (m & s0 & _ & ->).
  destruct (flagged m); [discriminate|].
  destruct (truncate_str content 2500) as [truncated|e'] eqn:Htruncate.
  - destruct (completion_block _ _ _ _ s0) as [[r|e'] s']; discriminate.
  - intros [= <-]. apply (truncate_str_raises content 2500), Htruncate.
Qed.





(** The sum of the three cost entries: the first is the integer 0 when the
    entry is missing, the other two are floats, and so is the sum. *)
Lemma total_cost_sum (sentiment classification summarization : gmap string value)
    (cc cm : Q) :
  (sentiment !! "cost" = None ∨ ∃ c, sentiment !! "cost" = Some (VFloat c) ∧ (0 <= c)%Q) →
  classification !! "cost" = Some (VFloat cc) →
  summarization !! "cost" = Some (VFloat cm) →
  ∃ cs total,
    (sentiment !! "cost" = None ∧ cs = 0%Q ∨ sentiment !! "cost" = Some (VFloat cs)) ∧
    (0 <= cs)%Q ∧
    result_bind
      (py_add (dict_get sentiment "cost" (VInt 0)) (dict_get classification "cost" (VInt 0)))
      (λ c, py_add c (dict_get summarization "cost" (VInt 0))) = Ok (VFloat total) ∧
    (total == cs + cc + cm)%Q.
Proof.
  unfold dict_get. intros [Hs|(c & Hs & Hc)] -> ->; rewrite Hs.
  - exists 0%Q, (inject_Z 0 + cc + cm)%Q.
    split; [left; auto|]. split; [apply Qle_refl|]. split; reflexivity.
  - exists c, (c + cc + cm)%Q.
    split; [right; reflexivity|]. split; [exact Hc|]. split; reflexivity.
Qed.

(** The cost entries of the three records of one analysis. *)
Lemma records_costed self article (t c : string) s s1 s2 s3
    sentiment classification summarization :
  analyze_sentiment self (t +:+ nl +:+ c) s = (Ok sentiment, s1) →
  classify_topics self (VStr t) (VStr c) s1 = (Ok classification, s2) →
  (if 200 <? Z.of_nat (char_count c)
   then summarize_article self (VStr t) (VStr c) s2 = (Ok summarization, s3)
   else summarization = summary_stub article (VStr t) ∧ s3 = s2) →
  ∃ cs cc cm total,
    (sentiment !! "cost" = None ∧ cs = 0%Q ∨ sentiment !! "cost" = Some (VFloat cs)) ∧
    classification !! "cost" = Some (VFloat cc) ∧
    summarization !! "cost" = Some (VFloat cm) ∧
    result_bind
      (py_add (dict_get sentiment "cost" (VInt 0)) (dict_get classification "cost" (VInt 0)))
      (λ c, py_add c (dict_get summarization "cost" (VInt 0))) = Ok (VFloat total) ∧
    (total == cs + cc + cm)%Q ∧ (0 <= cs)%Q ∧ (0 <= cc)%Q ∧ (0 <= cm)%Q.
Proof.
  intros Hsent Hcls Hsum.
  pose proof (sentiment_returned _ _ _ _ _ Hsent) as Hcs.
  destruct (classification_returned _ _ _ _ _ _ Hcls) as (cc & Hcc & Hcc0).
  assert (∃ cm, summarization !! "cost" = Some (VFloat cm) ∧ (0 <= cm)%Q)
    as (cm & Hcm & Hcm0).
  { destruct (200 <? _).
    - eapply summary_returned, Hsum.
    - destruct Hsum as [-> _]. exists 0%Q. split; [reflexivity | apply Qle_refl]. }
  destruct (total_cost_sum _ _ _ cc cm Hcs Hcc Hcm) as (cs & total & Hnum & Hcs0 & Hsum' & Heq).
  exists cs, cc, cm, total. auto 10.
Qed.

(** The cost entries of a returned analysis. *)
Lemma analysis_costs self article include_content s an s' :
  analyze_article self article include_content s = (Ok an, s') → costed an.
Proof.
  intros Hrun.
  destruct (analyze_article_steps _ _ _ _ _ _ Hrun)
    as (t & c & sentiment & classification & summarization & s1 & s2 & s3 & total_cost &
        strong & analyzed_at & Ht & Hc & Hsent & Hcls & Hsum & Htotal & _ & ->).
  destruct (records_costed _ _ _ _ _ _ _ _ _ _ _ Hsent Hcls Hsum)
    as (cs & cc & cm & total & Hcs & Hcc & Hcm & Hsum' & Heq & ? & ? & ?).
  rewrite Htotal in Hsum'. injection Hsum' as ->.
  exists sentiment, classification, summarization, cs, cc, cm, total.
  repeat (split; [first [reflexivity | assumption]|]). assumption.
Qed.

(** X11.  The [total_cost] of a returned analysis is a float, the sum of the
    cost entries of its sentiment, classification and summarization records
    (a missing entry counting as 0), none of which is negative. *)
Theorem analysis_total_cost self article include_content s an s' :
  analyze_article self article include_content s = (Ok an, s') →
  ∃ sentiment classification summarization cs cc cm total,
    an !! "sentiment" = Some (VDict sentiment) ∧
    an !! "classification" = Some (VDict classification) ∧
    an !! "summarization" = Some (VDict summarization) ∧
    as_number (dict_get sentiment "cost" (VInt 0)) = Some cs ∧
    as_number (dict_get classification "cost" (VInt 0)) = Some cc ∧
    as_number (dict_get summarization "cost" (VInt 0)) = Some cm ∧
    an !! "total_cost" = Some (VFloat total) ∧
    (total == cs + cc + cm)%Q ∧ (0 <= cs)%Q ∧ (0 <= cc)%Q ∧ (0 <= cm)%Q ∧ (0 <= total)%Q.
Proof.
  intros Hrun.
  destruct (analysis_costs _ _ _ _ _ _ Hrun)
    as (sentiment & classification & summarization & cs & cc & cm & total &
        H1 & H2 & H3 & _ & Hcs & Hcc & Hcm & Ht & Heq & ? & ? & ?).
  exists sentiment, classification, summarization, cs, cc, cm, total.
  unfold dict_get. rewrite Hcc, Hcm.
  assert (as_number
            match sentiment !! "cost" with Some v => v | None => VInt 0 end = Some cs) as ->.
  { destruct Hcs as [[-> ->]| ->]; reflexivity. }
  repeat (split; [first [reflexivity | assumption]|]). lra.
Qed.

(** The exception of a run of [analyze_article] on an article whose title
    and text are strings. *)
Lemma analyze_article_raised self article include_content s (t c : string) e s' :
  dict_get article "title" (VStr "") = VStr t →
  chosen_content article include_content = VStr c →
  analyze_article self article include_content s = (Raise e, s') →
  encoding_encode c = Raise e ∨ encoding_encode (t +:+ nl +:+ c) = Raise e ∨
  exn_class e = "TypeError".
Proof.
  intros Ht Hc. unfold analyze_article. rewrite Ht, Hc.
  cbn [py_len fmt]. unfold bind, lift, ret, raise, now_isoformat. cbv beta iota.
  rewrite (last_task (200 <? Z.of_nat (char_count c))). cbn [app].
  destruct (gather _ s) as [[results|e0] s3] eqn:Hgather.
  - destruct (gather_three _ _ _ _ _ _ Hgather)
      as (sentiment & classification & summarization & s1 & s2 & Hsent & Hcls & Htask & ->).
    assert (if 200 <? Z.of_nat (char_count c)
            then summarize_article self (VStr t) (VStr c) s2 = (Ok summarization, s3)
            else summarization = summary_stub article (VStr t) ∧ s3 = s2) as Hsum.
    { destruct (200 <? _); [exact Htask | injection Htask as <- <-; auto]. }
    destruct (records_costed _ _ _ _ _ _ _ _ _ _ _ Hsent Hcls Hsum)
      as (cs & cc & cm & total & _ & _ & _ & -> & _).
    cbn [py_lower].
    destruct (py_abs _) as [magnitude|e1] eqn:Habs.
    + assert (∃ strong, py_gt magnitude 0.7 = Ok strong) as (strong & ->)
        by (unfold py_gt; destruct (dict_get sentiment "score" (VInt 0)); try discriminate;
            injection Habs as <-; cbn; eauto).
      destruct (datetime_now_isoformat _) as [analyzed_at w].
      destruct (truthy (VStr c)); discriminate.
    + intros [= <- _]. right. right.
      destruct (dict_get sentiment "score" (VInt 0)); try discriminate;
        injection Habs as <-; reflexivity.
  - intros [= <- _].
    destruct (gather_three_raises _ _ _ _ _ _ Hgather) as (s0 & [Hr|[Hr|Hr]]).
    + right. left. eapply sentiment_raised, Hr.
    + left. eapply classification_raised, Hr.
    + left. destruct (200 <? _); [eapply summary_raised, Hr | discriminate].
Qed.

(** X12.  How [analyze_article] ends.  When it returns, the title and the
    chosen text of the article are strings, the tokenizer accepts the text,
    and the score of the sentiment record is a number or is missing.  When
    it raises on an article whose title and text are strings, the exception
    is the one the tokenizer raises on the text, or on the title joined to
    the text, or it is the [TypeError] of [abs] on a score, taken from the
    answer of the model, that is not a number. *)
Theorem analyze_article_outcome self article include_content s :
  match fst (analyze_article self article include_content s) with
  | Ok an =>
      ∃ (t c : string) sentiment,
        dict_get article "title" (VStr "") = VStr t ∧
        chosen_content article include_content = VStr c ∧
        is_ok (encoding_encode c) = true ∧
        an !! "sentiment" = Some (VDict sentiment) ∧
        is_Some (as_number (dict_get sentiment "score" (VInt 0)))
  | Raise e =>
      ∀ t c : string,
        dict_get article "title" (VStr "") = VStr t →
        chosen_content article include_content = VStr c →
        encoding_encode c = Raise e ∨ encoding_encode (t +:+ nl +:+ c) = Raise e ∨
        exn_class e = "TypeError"
  end.
Proof.
  destruct (analyze_article self article include_content s) as [[an|e] s'] eqn:Hrun;
    cbn [fst].
  - destruct (analyze_article_steps _ _ _ _ _ _ Hrun)
      as (t & c & sentiment & classification & summarization & s1 & s2 & s3 & total_cost &
          strong & analyzed_at & Ht & Hc & _ & Hcls & _ & _ & Hscore & ->).
    destruct (classify_topics_needs_string _ _ _ _ _ _ Hcls) as (c' & [= <-] & Hencode).
    exists t, c, sentiment. repeat split; try assumption.
  - intros t c Ht Hc. eapply analyze_article_raised; eassumption.
Qed.



(** X14.  An outage of the moderation service does not stop the sentiment
    analysis: when the moderation call raises, the text is treated as not
    flagged; when the tokenizer accepts the text and the prompt, the
    completion call is made and the record returned says that moderation
    did not flag the text. *)
Theorem moderation_outage_fails_open self text s e w truncated :
  moderations_create text (st_world s) = (Raise e, w) →
  truncate_str text 2000 = Ok truncated →
  is_ok (count_tokens (sentiment_prompt truncated)) = true →
  ∃ d s',
    analyze_sentiment self text s = (Ok d, s') ∧
    st_trace s' =
      st_trace s ++
        [ModerationCall text;
         CompletionCall (model self) (sentiment_prompt truncated) 200 0.1] ∧
    d !! "moderation_flagged" = Some (VBool false).
Proof.
  intros Hcall Htruncate Hprompt.
  destruct (analyze_sentiment_cases self text s) as (m & s0 & Hm & Hrun).
  assert (flagged m = false ∧ st_trace s0 = st_trace s ++ [ModerationCall text])
    as [Hflag Ht0].
  { revert Hm. unfold moderate_content, try_except, bind, call_moderation, ret.
    rewrite Hcall. intros [= <- <-]. split; reflexivity. }
  rewrite Hflag, Htruncate in Hrun.
  pose proof (completion_block_trace self (sentiment_prompt truncated) 200 0.1 s0) as Hc.
  rewrite Hprompt in Hc.
  destruct (completion_block _ _ _ _ s0) as [[r|e'] s1]; cbn [snd] in Hc;
    eexists _, _; (split; [exact Hrun|]);
    (split; [rewrite Hc, Ht0, <- app_assoc; reflexivity|]).
  - apply lookup_insert_eq.
  - reflexivity.
Qed.

(** X15.  More tokens never cost less: [calculate_cost] grows, or stays,
    when the input tokens or the output tokens do; no token costs nothing. *)
Theorem calculate_cost_monotone self (i1 o1 i2 o2 : N) :
  (i1 ≤ i2)%N → (o1 ≤ o2)%N →
  (calculate_cost self i1 o1 <= calculate_cost self i2 o2)%Q ∧
  (calculate_cost self 0 0 == 0)%Q.
Proof.
  intros Hi Ho. unfold calculate_cost.
  destruct (pricing !! model self) as [pc|] eqn:Hl; [|split; [apply Qle_refl | reflexivity]].
  destruct (pricing_nonneg _ _ Hl) as [Hin Hout].
  assert (Hdiv : ∀ a b : N, (a ≤ b)%N →
                   (inject_Z (Z.of_N a) / 1000 <= inject_Z (Z.of_N b) / 1000)%Q).
  { intros a b Hab. apply Qmult_le_compat_r; [|discriminate].
    rewrite <- Zle_Qle. lia. }
  split.
  - apply Qplus_le_compat; (apply Qmult_le_compat_r; [apply Hdiv|]); assumption.
  - cbn. field.
Qed.

End Pipeline.

#[local] Existing Instance Mock.collaborators.

(** The moderation service is down: the sentiment of the text is analysed
    all the same. *)
Lemma moderation_outage_fails_open_on_mock :
  let text := "[moderation down] Markets fall" in
  moderations_create text (st_world Mock.start)
    = (Raise (Exn "APIConnectionError" "Connection error."), 1%nat) ∧
  truncate_str text 2000 = Ok text ∧
  is_ok (count_tokens (sentiment_prompt text)) = true ∧
  ∃ d s',
    analyze_sentiment Mock.analyzer text Mock.start = (Ok d, s') ∧
    st_trace s' =
      st_trace Mock.start ++
        [ModerationCall text;
         CompletionCall (model Mock.analyzer) (sentiment_prompt text) 200 0.1] ∧
    d !! "moderation_flagged" = Some (VBool false).
Proof.
  intros text.
  assert (moderations_create text (st_world Mock.start)
            = (Raise (Exn "APIConnectionError" "Connection error."), 1%nat)) as Hcall
    by (vm_compute; reflexivity).
  assert (truncate_str text 2000 = Ok text) as Htruncate by (vm_compute; reflexivity).
  assert (is_ok (count_tokens (sentiment_prompt text)) = true) as Hprompt
    by (vm_compute; reflexivity).
  split; [exact Hcall|]. split; [exact Htruncate|]. split; [exact Hprompt|].
  exact (@moderation_outage_fails_open Mock.collaborators Mock.analyzer text Mock.start _ _
           text Hcall Htruncate Hprompt).
Defined.

(** The costs of the analysis of the breaking story add up. *)
Lemma analysis_total_cost_of_breaking_story :
  let run := analyze_article Mock.analyzer Mock.breaking_story true Mock.start in
  run = (Ok (Mock.output run), snd run) ∧
  ∃ sentiment classification summarization cs cc cm total,
    Mock.output run !! "sentiment" = Some (VDict sentiment) ∧
    Mock.output run !! "classification" = Some (VDict classification) ∧
    Mock.output run !! "summarization" = Some (VDict summarization) ∧
    as_number (dict_get sentiment "cost" (VInt 0)) = Some cs ∧
    as_number (dict_get classification "cost" (VInt 0)) = Some cc ∧
    as_number (dict_get summarization "cost" (VInt 0)) = Some cm ∧
    Mock.output run !! "total_cost" = Some (VFloat total) ∧
    (total == cs + cc + cm)%Q ∧ (0 <= cs)%Q ∧ (0 <= cc)%Q ∧ (0 <= cm)%Q ∧ (0 <= total)%Q.
Proof.
  intros run.
  assert (run = (Ok (Mock.output run), snd run)) as Hrun
    by (apply Scenarios.returned; vm_compute; reflexivity).
  split; [exact Hrun|].
  exact (@analysis_total_cost Mock.collaborators Mock.analyzer Mock.breaking_story true
           Mock.start (Mock.output run) (snd run) Hrun).
Defined.


(** Seven input tokens and three output tokens cost no less than five and
    three. *)
Lemma calculate_cost_monotone_5_to_7 :
  (5 ≤ 7)%N ∧ (3 ≤ 3)%N ∧
  (calculate_cost Mock.analyzer 5 3 <= calculate_cost Mock.analyzer 7 3)%Q ∧
  (calculate_cost Mock.analyzer 0 0 == 0)%Q.
Proof.
  assert (5 ≤ 7)%N as Hi by lia. assert (3 ≤ 3)%N as Ho by lia.
  split; [exact Hi|]. split; [exact Ho|].
  exact (calculate_cost_monotone Mock.analyzer 5 3 7 3 Hi Ho).
Defined.

End PipelineFacts.

(** * Properties of the cost report *)

Module ReportFacts.
Import CostManager CostReporting Props ReportProps Main.
#[local] Open Scope list_scope.

(** One step of a chain of [attempt]s that returned. *)
Ltac attempt_step :=
  match goal with
  | |- result_bind ?m _ = Ok _ → _ =>
      let H := fresh "Hstep" in
      destruct m eqn:H; cbn [result_bind]; [|discriminate]
  end.

Lemma tally_article_counts acc article acc' :
  tally_article acc article = Ok acc' →
  failed_analyses acc' = failed_analyses acc + (if counts_as_failed article then 1 else 0) ∧
  successful_analyses acc' =
    successful_analyses acc + (if counts_as_failed article then 0 else 1).
Proof.
  unfold tally_article, counts_as_failed.
  destruct (has_error _) as [[|]|]; cbn [result_bind]; [| |discriminate].
  - intros [= <-]. cbn. lia.
  - repeat attempt_step. intros [= <-]. cbn. lia.
Qed.

Lemma tally_articles_counts analysis_results acc acc' :
  tally_articles acc analysis_results = Ok acc' →
  failed_analyses acc' =
    failed_analyses acc + Z.of_nat (count_if counts_as_failed analysis_results) ∧
  successful_analyses acc' + failed_analyses acc' =
    successful_analyses acc + failed_analyses acc + Z.of_nat (List.length analysis_results).
Proof.
  unfold count_if. revert acc.
  induction analysis_results as [|article rest IH]; intros acc; cbn [tally_articles].
  - intros [= <-]. cbn. lia.
  - attempt_step. intros Hrest.
    destruct (tally_article_counts _ _ _ Hstep) as [Hf Hs].
    destruct (IH _ Hrest) as [Hf' Hs'].
    cbn [List.filter List.length]. destruct (counts_as_failed article); cbn [List.length]; lia.
Qed.

(** X16.  The counts of a cost report: every article of the list is counted
    once, as a failed analysis when its analysis holds an error (an [error]
    key of a dict; for an analysis that is a string or a list, an
    occurrence of the word) and as a successful one otherwise. *)
Theorem cost_report_counts self now analysis_results report :
  generate_cost_report self now analysis_results = Ok report →
  total_articles_requested report = Z.of_nat (List.length analysis_results) ∧
  report_failed_analyses report = Z.of_nat (count_if counts_as_failed analysis_results) ∧
  report_successful_analyses report + report_failed_analyses report =
    total_articles_requested report.
Proof.
  unfold generate_cost_report. attempt_step. intros [= <-]. cbn.
  destruct (tally_articles_counts _ _ _ Hstep) as [Hf Hs]. cbn in Hf, Hs.
  repeat split; lia.
Qed.

Lemma tally_unanalysed acc article :
  article !! "analysis" = None →
  ∃ acc', tally_article acc article = Ok acc' ∧
    successful_analyses acc' = successful_analyses acc + 1 ∧
    failed_analyses acc' = failed_analyses acc ∧
    (total_ai_cost acc' == total_ai_cost acc)%Q ∧
    (sentiment_analysis acc' == sentiment_analysis acc)%Q ∧
    (summarization acc' == summarization acc)%Q ∧
    (classification acc' == classification acc)%Q.
Proof.
  intros Hnone. unfold tally_article, dict_get. rewrite Hnone.
  eexists. split; [reflexivity|]. cbn. repeat split; lra.
Qed.

(** X17.  Articles that were never analysed (no [analysis] entry, as when
    the analysis is disabled) are all reported as successful analyses, at
    no cost: the whole session cost is then reported as platform usage. *)
Theorem cost_report_without_analyses self now analysis_results :
  Forall (λ article : gmap string value, article !! "analysis" = None) analysis_results →
  ∃ report,
    generate_cost_report self now analysis_results = Ok report ∧
    report_successful_analyses report = Z.of_nat (List.length analysis_results) ∧
    report_failed_analyses report = 0 ∧
    (ai_processing_total report == 0)%Q ∧
    (breakdown_sentiment_analysis report == 0)%Q ∧
    (breakdown_summarization report == 0)%Q ∧
    (breakdown_classification report == 0)%Q ∧
    (platform_usage report == current_session_cost self)%Q.
Proof.
  intros Hall.
  assert (∀ acc, ∃ acc',
            tally_articles acc analysis_results = Ok acc' ∧
            successful_analyses acc' =
              successful_analyses acc + Z.of_nat (List.length analysis_results) ∧
            failed_analyses acc' = failed_analyses acc ∧
            (total_ai_cost acc' == total_ai_cost acc)%Q ∧
            (sentiment_analysis acc' == sentiment_analysis acc)%Q ∧
            (summarization acc' == summarization acc)%Q ∧
            (classification acc' == classification acc)%Q) as Hloop.
  { induction Hall as [|article rest Hnone _ IH]; intros acc.
    - exists acc. cbn. repeat split; (lia || reflexivity).
    - destruct (tally_unanalysed acc article Hnone) as (acc1 & H1 & ? & ? & ? & ? & ? & ?).
      destruct (IH acc1) as (acc' & Hrest & ? & ? & ? & ? & ? & ?).
      exists acc'. cbn [tally_articles]. rewrite H1. cbn [result_bind List.length].
      split; [exact Hrest|]. repeat split; (lia || lra). }
  destruct (Hloop tally_start) as (acc & Hrun & Hs & Hf & Ht & Hse & Hsu & Hcl).
  unfold generate_cost_report. rewrite Hrun. cbn [result_bind].
  eexists. split; [reflexivity|]. cbn in *. repeat split; (lia || lra).
Qed.

Section Batch.

Context `{AINewsAnalyzer.Collaborators}.

Lemma outcomes_costed self include_content articles s :
  Forall (λ outcome, ∀ an, outcome = Ok an → costed an)
    (analysis_outcomes self include_content articles s).
Proof.
  revert s. induction articles as [|article rest IH]; intros s; cbn [analysis_outcomes];
    constructor; [|apply IH].
  intros an Han.
  destruct (AINewsAnalyzer.analyze_article self article include_content s) as [r s'] eqn:Hrun.
  cbn [fst] in Han. subst r. eapply PipelineFacts.analysis_costs, Hrun.
Qed.

(** What one record of a batch adds to the tally and to the sum of [main]. *)
Lemma tally_shown acc outcome record :
  record_shows outcome record →
  (∀ an, outcome = Ok an → costed an) →
  ∃ acc' cs cc cm total,
    tally_article acc record = Ok acc' ∧
    successful_analyses acc' = successful_analyses acc + (if is_ok outcome then 1 else 0) ∧
    failed_analyses acc' = failed_analyses acc + (if is_ok outcome then 0 else 1) ∧
    (total_ai_cost acc' == total_ai_cost acc + total)%Q ∧
    (sentiment_analysis acc' == sentiment_analysis acc + cs)%Q ∧
    (summarization acc' == summarization acc + cm)%Q ∧
    (classification acc' == classification acc + cc)%Q ∧
    (total == cs + cc + cm)%Q ∧ (0 <= total)%Q ∧
    (0 <= cs)%Q ∧ (0 <= cc)%Q ∧ (0 <= cm)%Q ∧
    py_get (dict_get record "analysis" (VDict ∅)) "total_cost" (VInt 0) = Ok (VFloat total).
Proof.
  destruct outcome as [an|e]; cbn [record_shows is_ok].
  - intros (Han & _ & _) Hcosted.
    destruct (Hcosted an eq_refl)
      as (sentiment & classification & summarization & cs & cc & cm & total &
          H1 & H2 & H3 & Herr & Hcs & Hcc & Hcm & Htotal & Heq & ? & ? & ?).
    assert (record !! "analysis" = Some (VDict an)) as Hrec.
    { revert Han. unfold analysis_of. destruct (record !! "analysis") as [[]|]; congruence. }
    unfold tally_article, dict_get. rewrite Hrec. cbn [has_error py_get]. rewrite Herr.
    unfold dict_get. rewrite Htotal, H1, H2, H3. cbn [result_bind float_add as_number py_get].
    unfold dict_get. rewrite Hcc, Hcm.
    destruct Hcs as [[-> ->]| ->]; cbn [result_bind float_add as_number];
      eexists _, _, cc, cm, total; (split; [reflexivity|]); cbn;
      (repeat split; try lia; try lra; try reflexivity).
  - intros (_ & _ & marker & Han & Herr & Hcost) _.
    assert (record !! "analysis" = Some (VDict marker)) as Hrec.
    { revert Han. unfold analysis_of. destruct (record !! "analysis") as [[]|]; congruence. }
    unfold tally_article, dict_get. rewrite Hrec. cbn [has_error py_get]. rewrite Herr.
    unfold dict_get. rewrite Hcost. cbn [result_bind].
    eexists _, 0%Q, 0%Q, 0%Q, 0%Q. split; [reflexivity|]. cbn.
    repeat split; try lia; try lra; reflexivity.
Qed.

Lemma add_number (v : value) (q x : Q) :
  as_number v = Some q → py_add v (VFloat x) = Ok (VFloat (q + x)).
Proof. destruct v; cbn; intros [= <-]; reflexivity. Qed.

(** The loop of the report and the sum of [main] over the records of a
    batch. *)
Lemma tally_records outcomes records :
  Forall2 record_shows outcomes records →
  Forall (λ outcome, ∀ an, outcome = Ok an → costed an) outcomes →
  ∀ acc v q, as_number v = Some q →
  ∃ acc' v' q',
    tally_articles acc records = Ok acc' ∧
    successful_analyses acc' = successful_analyses acc + Z.of_nat (count_if is_ok outcomes) ∧
    failed_analyses acc' = failed_analyses acc + Z.of_nat (count_if raised outcomes) ∧
    (total_ai_cost acc' - total_ai_cost acc ==
       (sentiment_analysis acc' - sentiment_analysis acc) +
       (summarization acc' - summarization acc) +
       (classification acc' - classification acc))%Q ∧
    (total_ai_cost acc <= total_ai_cost acc')%Q ∧
    (sentiment_analysis acc <= sentiment_analysis acc')%Q ∧
    (summarization acc <= summarization acc')%Q ∧
    (classification acc <= classification acc')%Q ∧
    sum_total_costs v records = Ok v' ∧ as_number v' = Some q' ∧
    (q' - q == total_ai_cost acc' - total_ai_cost acc)%Q.
Proof.
  unfold count_if.
  induction 1 as [|outcome record outcomes records Hshow _ IH]; intros Hcosted acc v q Hv.
  - exists acc, v, q. cbn. repeat split; try lia; try lra; assumption.
  - inversion Hcosted as [|? ? Hone Hrest]; subst.
    destruct (tally_shown acc outcome record Hshow Hone)
      as (acc1 & cs & cc & cm & total & H1 & Hs1 & Hf1 & ? & ? & ? & ? & ? & ? & ? & ? & ? &
          Hget).
    destruct (IH Hrest acc1 (VFloat (q + total)) (q + total)%Q eq_refl)
      as (acc' & v' & q' & Hrun & Hs & Hf & ? & ? & ? & ? & ? & Hsum & Hv' & ?).
    exists acc', v', q'. cbn [tally_articles sum_total_costs].
    rewrite H1, Hget. cbn [result_bind]. rewrite (add_number v q total Hv). cbn [result_bind].
    split; [exact Hrun|].
    assert (Z.of_nat (List.length (List.filter is_ok (outcome :: outcomes))) =
              (if is_ok outcome then 1 else 0) + Z.of_nat (List.length (List.filter is_ok outcomes)))
      as ->.
    { cbn [List.filter]. destruct (is_ok outcome); cbn [List.length]; lia. }
    assert (Z.of_nat (List.length (List.filter raised (outcome :: outcomes))) =
              (if is_ok outcome then 0 else 1) + Z.of_nat (List.length (List.filter raised outcomes)))
      as ->.
    { cbn [List.filter]. unfold raised at 1. destruct (is_ok outcome); cbn [negb List.length]; lia. }
    repeat split; try lia; try lra; assumption.
Qed.

(** X18.  The cost report of a batch: on the records [batch_analyze]
    returns the report never raises; it counts the analyses that returned
    as successful and those that raised as failed; no cost of its breakdown
    is negative, none exceeds the total, and nothing is ever charged to
    content moderation. *)
Theorem cost_report_of_batch (cost_manager : CostManager.t) now
    (self : AINewsAnalyzer.t) articles max_concurrent include_content s :
  0 < max_concurrent →
  let outcomes := analysis_outcomes self include_content articles s in
  ∃ records s' report,
    AINewsAnalyzer.batch_analyze self articles max_concurrent include_content s
      = (Ok records, s') ∧
    generate_cost_report cost_manager now records = Ok report ∧
    report_successful_analyses report = Z.of_nat (count_if is_ok outcomes) ∧
    report_failed_analyses report = Z.of_nat (count_if raised outcomes) ∧
    (0 <= breakdown_sentiment_analysis report <= ai_processing_total report)%Q ∧
    (0 <= breakdown_summarization report <= ai_processing_total report)%Q ∧
    (0 <= breakdown_classification report <= ai_processing_total report)%Q ∧
    (breakdown_content_moderation report == 0)%Q.
Proof.
  intros Hpermits outcomes.
  destruct (AnalyzerFacts.batch_analyze_records self articles max_concurrent include_content s
              Hpermits) as (records & s' & Hrun & Hall).
  pose proof (AnalyzerFacts.outcomes_shown _ _ _ _ _ Hall) as Hshown.
  destruct (tally_records _ _ Hshown (outcomes_costed _ _ _ _) tally_start (VInt 0) _ eq_refl)
    as (acc & v' & q' & Htally & Hs & Hf & Hsum & Hpos & Hse & Hsu & Hcl & _).
  exists records, s'. eexists. split; [exact Hrun|].
  unfold generate_cost_report. rewrite Htally. cbn [result_bind].
  split; [reflexivity|]. cbn in *. fold outcomes in Hs, Hf.
  repeat split; try lia; lra.
Qed.






End Batch.

#[local] Existing Instance Mock.collaborators.

(** A report over one record with an error marker, one article that was
    not analysed and one whose analysis is a message about an error. *)
Lemma cost_report_counts_on_three :
  let analysis_results :=
    [<["analysis" := VDict (AINewsAnalyzer.error_marker (Exn "TypeError" "bad operand") "now")]>
       Mock.story_body_one;
     Mock.story_body_two;
     <["analysis" := VStr "error: not analysed"]> Mock.story_without_body] in
  ∃ report,
    generate_cost_report new_cost_manager "2025-01-01T00:00:00" analysis_results = Ok report ∧
    total_articles_requested report = Z.of_nat (List.length analysis_results) ∧
    report_failed_analyses report = Z.of_nat (count_if counts_as_failed analysis_results) ∧
    report_successful_analyses report + report_failed_analyses report =
      total_articles_requested report.
Proof.
  intros analysis_results.
  destruct (generate_cost_report new_cost_manager "2025-01-01T00:00:00" analysis_results)
    as [report|e] eqn:Hreport; [|vm_compute in Hreport; discriminate].
  exists report. split; [reflexivity|].
  exact (cost_report_counts new_cost_manager "2025-01-01T00:00:00" analysis_results report
           Hreport).
Defined.

(** Two articles as the aggregator builds them, the analysis disabled. *)
Lemma cost_report_without_analyses_on_two :
  let analysis_results := [Mock.story_body_one; Mock.story_without_body] in
  Forall (λ article : gmap string value, article !! "analysis" = None) analysis_results ∧
  ∃ report,
    generate_cost_report new_cost_manager "2025-01-01T00:00:00" analysis_results = Ok report ∧
    report_successful_analyses report = Z.of_nat (List.length analysis_results) ∧
    report_failed_analyses report = 0 ∧
    (ai_processing_total report == 0)%Q ∧
    (breakdown_sentiment_analysis report == 0)%Q ∧
    (breakdown_summarization report == 0)%Q ∧
    (breakdown_classification report == 0)%Q ∧
    (platform_usage report == current_session_cost new_cost_manager)%Q.
Proof.
  intros analysis_results.
  assert (Forall (λ article : gmap string value, article !! "analysis" = None)
            analysis_results) as Hall
    by (repeat constructor; vm_compute; reflexivity).
  split; [exact Hall|].
  exact (cost_report_without_analyses new_cost_manager "2025-01-01T00:00:00"
           analysis_results Hall).
Defined.

(** The report of the batch of three stories, the second of which fails. *)
Lemma cost_report_of_batch_of_three :
  0 < 3 ∧
  let outcomes := analysis_outcomes Mock.analyzer true Mock.batch_of_three Mock.start in
  ∃ records s' report,
    AINewsAnalyzer.batch_analyze Mock.analyzer Mock.batch_of_three 3 true Mock.start
      = (Ok records, s') ∧
    generate_cost_report new_cost_manager "2025-01-01T00:00:00" records = Ok report ∧
    report_successful_analyses report = Z.of_nat (count_if is_ok outcomes) ∧
    report_failed_analyses report = Z.of_nat (count_if raised outcomes) ∧
    (0 <= breakdown_sentiment_analysis report <= ai_processing_total report)%Q ∧
    (0 <= breakdown_summarization report <= ai_processing_total report)%Q ∧
    (0 <= breakdown_classification report <= ai_processing_total report)%Q ∧
    (breakdown_content_moderation report == 0)%Q.
Proof.
  split; [lia|].
  apply (@cost_report_of_batch Mock.collaborators new_cost_manager "2025-01-01T00:00:00"
           Mock.analyzer Mock.batch_of_three 3 true Mock.start).
  lia.
Defined.

End ReportFacts.

(** * Properties of the billing summary *)

Module BillingFacts.
Import CostManager CostReporting Props CostManagerFacts.
#[local] Open Scope list_scope.

(** The branch of [calculate_pricing_tier] the summary of a tier takes. *)
Lemma billing_branch (pricing_tier : string) (n : Z) :
  branch_of (negb (String.eqb pricing_tier "basic"))
    (if String.eqb pricing_tier "byok" then Some "True" else None) n =
    if String.eqb pricing_tier "basic" then Basic
    else if String.eqb pricing_tier "byok" then Byok
    else if n <=? 50 then Free else BuiltIn.
Proof.
  unfold branch_of.
  destruct (String.eqb pricing_tier "basic"), (String.eqb pricing_tier "byok"); reflexivity.
Qed.

Lemma billed_nothing (n : Z) (rate : Q) :
  (0 < rate)%Q → Qeq_bool (inject_Z n * rate) 0 = (n =? 0).
Proof.
  intros Hrate. destruct (Z.eqb_spec n 0) as [->|Hn].
  - apply Qeq_bool_iff. apply Qmult_0_l.
  - destruct (Qeq_bool _ _) eqn:Hzero; [exfalso | reflexivity].
    apply Qeq_bool_iff, Qmult_integral in Hzero as [Hzero|Hzero].
    + apply Hn. revert Hzero. unfold Qeq. cbn. lia.
    + rewrite Hzero in Hrate. revert Hrate. apply Qlt_irrefl.
Qed.

(** Once the pricing decision is made, every path returns a summary. *)
Ltac returned_summary :=
  repeat match goal with |- context [if ?b then _ else _] => destruct b end;
  reflexivity.

(** X20.  The billing summary of a count of at most 50 articles cannot be
    made for any tier but basic and byok: the pricing decision is computed
    again from the tier and the count, it takes the free-tier branch, and
    the summary raises [UnboundLocalError].  In every other case the
    summary is returned. *)
Theorem billing_summary_returns (pricing_tier : string) (n : Z) :
  if negb (String.eqb pricing_tier "basic") && negb (String.eqb pricing_tier "byok")
     && (n <=? 50)
  then get_billing_summary pricing_tier n =
         Raise (UnboundLocalError
                  "local variable 'cost_per_article' referenced before assignment")
  else is_ok (get_billing_summary pricing_tier n) = true.
Proof.
  unfold get_billing_summary.
  destruct (String.eqb pricing_tier "basic") eqn:Hbasic;
    [|destruct (String.eqb pricing_tier "byok") eqn:Hbyok;
      [|destruct (Z.leb_spec n 50) as [Hn|Hn]]]; cbn [negb andb].
  - destruct (pricing_returns false
                (if String.eqb pricing_tier "byok" then Some "True" else None) n)
      as (p & -> & _); [discriminate|].
    cbn [result_bind]. returned_summary.
  - destruct (pricing_returns true (Some "True") n) as (p & -> & _); [discriminate|].
    cbn [result_bind]. returned_summary.
  - rewrite (free_tier_unbound_local None n eq_refl Hn). reflexivity.
  - destruct (pricing_returns true None n) as (p & -> & _).
    { unfold branch_of. cbn. destruct (Z.leb_spec n 50); [lia | discriminate]. }
    cbn [result_bind]. returned_summary.
Qed.

(** X21.  What a billing summary that is returned says: the free-tier line
    exactly when the count is 0; otherwise the rate and the total of the
    pricing decision, and after them the line on what the built-in tier
    includes or the line on the user's own OpenAI bill, according to the
    tier that was asked for. *)
Theorem billing_summary_lines (pricing_tier : string) (n : Z) (lines : list summary_part) :
  get_billing_summary pricing_tier n = Ok lines →
  (lines = [Piece (Lit "✅ Free tier: "); Piece (FInt n);
            Piece (Lit " articles analyzed at no cost")] ↔ n = 0) ∧
  (n ≠ 0 →
   ∃ p closing,
     calculate_pricing_tier (negb (String.eqb pricing_tier "basic"))
       (if String.eqb pricing_tier "byok" then Some "True" else None) n = Ok p ∧
     ¬ (total_cost p == 0)%Q ∧
     lines =
       [Piece (Lit "💰 Billing Summary:");
        bullet "Tier: "; Embedded (description p);
        bullet "Articles processed: "; Grouped n;
        bullet "Rate: $"; Piece (FFixed 2 (cost_per_1000 p)); Piece (Lit " per 1,000 articles");
        bullet "Total cost: $"; Piece (FFixed 4 (total_cost p)); Piece (Lit " USD")]
       ++ closing ∧
     closing =
       if String.eqb pricing_tier "built_in_ai"
       then [bullet "Includes: AI sentiment analysis, summarization, categorization, and content moderation"]
       else if String.eqb pricing_tier "byok"
            then [bullet "Your OpenAI API usage will be billed separately"]
            else []).
Proof.
  unfold get_billing_summary.
  destruct (calculate_pricing_tier _ _ n) as [p|e] eqn:Hp; cbn [result_bind]; [|discriminate].
  assert (Qeq_bool (total_cost p) 0 = (n =? 0)) as Hzero.
  { destruct (BudgetFacts.pricing_decision _ _ _ _ Hp) as [_ Hcase].
    rewrite billing_branch in Hcase.
    destruct (String.eqb pricing_tier "basic");
      [|destruct (String.eqb pricing_tier "byok"); [|destruct (Z.leb_spec n 50) as [Hn|Hn]]].
    - destruct Hcase as (_ & _ & -> & _). apply billed_nothing. reflexivity.
    - destruct Hcase as (_ & _ & -> & _). apply billed_nothing. reflexivity.
    - contradiction.
    - destruct Hcase as (_ & _ & -> & _). rewrite billed_nothing by reflexivity.
      destruct (Z.eqb_spec (n - 50) 0), (Z.eqb_spec n 0); lia || reflexivity. }
  rewrite Hzero. destruct (Z.eqb_spec n 0) as [->|Hn].
  - intros [= <-]. split; [tauto | congruence].
  - intros Hlines. split.
    + split; [|contradiction]. intros ->. exfalso.
      destruct (String.eqb pricing_tier "built_in_ai");
        [|destruct (String.eqb pricing_tier "byok")]; discriminate.
    + intros _. exists p.
      exists (if String.eqb pricing_tier "built_in_ai"
              then [bullet "Includes: AI sentiment analysis, summarization, categorization, and content moderation"]
              else if String.eqb pricing_tier "byok"
                   then [bullet "Your OpenAI API usage will be billed separately"]
                   else []).
      split; [reflexivity|]. split.
      * intros Heq. apply Qeq_bool_iff in Heq. rewrite Hzero in Heq.
        destruct (Z.eqb_spec n 0); [contradiction | discriminate].
      * destruct (String.eqb pricing_tier "built_in_ai");
          [|destruct (String.eqb pricing_tier "byok")];
          injection Hlines as <-; split; reflexivity.
Qed.

Lemma billing_summary_lines_byok_120 :
  ∃ lines,
    get_billing_summary "byok" 120 = Ok lines ∧
    (lines = [Piece (Lit "✅ Free tier: "); Piece (FInt 120);
              Piece (Lit " articles analyzed at no cost")] ↔ 120 = 0) ∧
    (120 ≠ 0 →
     ∃ p closing,
       calculate_pricing_tier (negb (String.eqb "byok" "basic"))
         (if String.eqb "byok" "byok" then Some "True" else None) 120 = Ok p ∧
       ¬ (total_cost p == 0)%Q ∧
       lines =
         [Piece (Lit "💰 Billing Summary:");
          bullet "Tier: "; Embedded (description p);
          bullet "Articles processed: "; Grouped 120;
          bullet "Rate: $"; Piece (FFixed 2 (cost_per_1000 p));
          Piece (Lit " per 1,000 articles");
          bullet "Total cost: $"; Piece (FFixed 4 (total_cost p)); Piece (Lit " USD")]
         ++ closing ∧
       closing =
         if String.eqb "byok" "built_in_ai"
         then [bullet "Includes: AI sentiment analysis, summarization, categorization, and content moderation"]
         else if String.eqb "byok" "byok"
              then [bullet "Your OpenAI API usage will be billed separately"]
              else []).
Proof.
  destruct (get_billing_summary "byok" 120) as [lines|e] eqn:Hlines;
    [|vm_compute in Hlines; discriminate].
  exists lines. split; [reflexivity|].
  exact (billing_summary_lines "byok" 120 lines Hlines).
Defined.

End BillingFacts.
